(** * sliver-mcp: build-configuration normalizer and remote execution engine

    A shallow embedding of the handlers [HandleGenerateImplant],
    [HandleSaveImplantProfile] and [HandleExecute] of package [tools]
    and of the methods [GetSession], [Execute], [Generate] and
    [SaveImplantProfile] of [client.SliverClient], together with the
    properties the specification states about them.

    Go strings are byte strings: they are modelled by [string], one
    [ascii] per byte.  The JSON-decoded request arguments
    ([map[string]interface{}]) are finite maps [gmap string JValue]. *)

From Stdlib Require Import ZArith NArith Ascii String.
From stdpp Require Import base option list gmap strings fin_maps pretty.

Set Warnings "-register-all".
Local Open Scope string_scope.

(* ================================================================= *)
(** ** Packages [unicode/utf8] and [unicode] of the Go standard library *)

Module Utf8.

(** [utf8.RuneError], the replacement character U+FFFD, and
    [utf8.MaxRune]. *)
Definition RuneError : N := 65533.
Definition MaxRune : N := 1114111.

(** The byte of value [n]. *)
Definition byte (n : N) : ascii := ascii_of_N n.

Definition between (lo hi b : N) : bool := ((lo <=? b) && (b <=? hi))%N.

(** [utf8.ValidRune(r)]: no surrogate, at most [MaxRune]. *)
Definition ValidRune (r : N) : bool :=
  ((r <? 55296) || (57343 <? r) && (r <=? MaxRune))%N.

(** [utf8.DecodeRuneInString(s)]: the rune [s] starts with and its
    width in bytes.  A byte that starts no well-formed encoding (an
    encoding cut short, over-long, of a surrogate or above [MaxRune])
    decodes to [RuneError] with width 1.  The masks and shifts of the
    code are written as differences and products: under the range
    tests they are the same numbers. *)
Definition DecodeRuneInString (s : string) : N * nat :=
  match s with
  | EmptyString => (RuneError, 0%nat)
  | String c0 s1 =>
      let b0 := N_of_ascii c0 in
      if (b0 <? 128)%N then (b0, 1%nat)
      else if between 194 223 b0 then
        match s1 with
        | String c1 _ =>
            let b1 := N_of_ascii c1 in
            if between 128 191 b1
            then (((b0 - 192) * 64 + (b1 - 128))%N, 2%nat)
            else (RuneError, 1%nat)
        | _ => (RuneError, 1%nat)
        end
      else if between 224 239 b0 then
        match s1 with
        | String c1 (String c2 _) =>
            let b1 := N_of_ascii c1 in
            let b2 := N_of_ascii c2 in
            let lo := if (b0 =? 224)%N then 160%N else 128%N in
            let hi := if (b0 =? 237)%N then 159%N else 191%N in
            if between lo hi b1 && between 128 191 b2
            then (((b0 - 224) * 4096 + (b1 - 128) * 64 + (b2 - 128))%N, 3%nat)
            else (RuneError, 1%nat)
        | _ => (RuneError, 1%nat)
        end
      else if between 240 244 b0 then
        match s1 with
        | String c1 (String c2 (String c3 _)) =>
            let b1 := N_of_ascii c1 in
            let b2 := N_of_ascii c2 in
            let b3 := N_of_ascii c3 in
            let lo := if (b0 =? 240)%N then 144%N else 128%N in
            let hi := if (b0 =? 244)%N then 143%N else 191%N in
            if between lo hi b1 && between 128 191 b2 && between 128 191 b3
            then (((b0 - 240) * 262144 + (b1 - 128) * 4096
                   + (b2 - 128) * 64 + (b3 - 128))%N, 4%nat)
            else (RuneError, 1%nat)
        | _ => (RuneError, 1%nat)
        end
      else (RuneError, 1%nat)
  end.

(** The three bytes of a rune from U+0800 to U+FFFF. *)
Definition encode3 (r : N) : string :=
  String (byte (224 + r / 4096))
    (String (byte (128 + (r / 64) mod 64))
       (String (byte (128 + r mod 64)) EmptyString)).

(** [utf8.AppendRune(nil, r)]: the encoding of [r]; a surrogate and a
    value above [MaxRune] are written as [RuneError]. *)
Definition EncodeRune (r : N) : string :=
  if (r <? 128)%N then String (byte r) EmptyString
  else if (r <? 2048)%N then
    String (byte (192 + r / 64)) (String (byte (128 + r mod 64)) EmptyString)
  else if (MaxRune <? r)%N || between 55296 57343 r then encode3 RuneError
  else if (r <? 65536)%N then encode3 r
  else
    String (byte (240 + r / 262144))
      (String (byte (128 + (r / 4096) mod 64))
         (String (byte (128 + (r / 64) mod 64))
            (String (byte (128 + r mod 64)) EmptyString))).

End Utf8.

Module Unicode.

(** The runes from [Lo] to [Hi] in steps of [Stride] have the lower-case
    forms from [Lower] on, in the same steps. *)
Record CaseRange := mkCaseRange { Lo : N; Hi : N; Stride : N; Lower : N }.

(** The lower-case mappings of [unicode.CaseRanges] (Unicode 15.0.0,
    the tables of Go 1.21): the 1433 runes that [unicode.ToLower]
    changes, in ranges of one distance.  A range of pairs (upper case,
    lower case, upper case, ...) is a range of stride 2. *)
Definition lowerRanges : list CaseRange :=
  [
    mkCaseRange 65 90 1 97; mkCaseRange 192 214 1 224;
    mkCaseRange 216 222 1 248; mkCaseRange 256 302 2 257;
    mkCaseRange 304 304 1 105; mkCaseRange 306 310 2 307;
    mkCaseRange 313 327 2 314; mkCaseRange 330 374 2 331;
    mkCaseRange 376 376 1 255; mkCaseRange 377 381 2 378;
    mkCaseRange 385 385 1 595; mkCaseRange 386 388 2 387;
    mkCaseRange 390 390 1 596; mkCaseRange 391 391 1 392;
    mkCaseRange 393 394 1 598; mkCaseRange 395 395 1 396;
    mkCaseRange 398 398 1 477; mkCaseRange 399 399 1 601;
    mkCaseRange 400 400 1 603; mkCaseRange 401 401 1 402;
    mkCaseRange 403 403 1 608; mkCaseRange 404 404 1 611;
    mkCaseRange 406 406 1 617; mkCaseRange 407 407 1 616;
    mkCaseRange 408 408 1 409; mkCaseRange 412 412 1 623;
    mkCaseRange 413 413 1 626; mkCaseRange 415 415 1 629;
    mkCaseRange 416 420 2 417; mkCaseRange 422 422 1 640;
    mkCaseRange 423 423 1 424; mkCaseRange 425 425 1 643;
    mkCaseRange 428 428 1 429; mkCaseRange 430 430 1 648;
    mkCaseRange 431 431 1 432; mkCaseRange 433 434 1 650;
    mkCaseRange 435 437 2 436; mkCaseRange 439 439 1 658;
    mkCaseRange 440 440 1 441; mkCaseRange 444 444 1 445;
    mkCaseRange 452 452 1 454; mkCaseRange 453 453 1 454;
    mkCaseRange 455 455 1 457; mkCaseRange 456 456 1 457;
    mkCaseRange 458 458 1 460; mkCaseRange 459 475 2 460;
    mkCaseRange 478 494 2 479; mkCaseRange 497 497 1 499;
    mkCaseRange 498 500 2 499; mkCaseRange 502 502 1 405;
    mkCaseRange 503 503 1 447; mkCaseRange 504 542 2 505;
    mkCaseRange 544 544 1 414; mkCaseRange 546 562 2 547;
    mkCaseRange 570 570 1 11365; mkCaseRange 571 571 1 572;
    mkCaseRange 573 573 1 410; mkCaseRange 574 574 1 11366;
    mkCaseRange 577 577 1 578; mkCaseRange 579 579 1 384;
    mkCaseRange 580 580 1 649; mkCaseRange 581 581 1 652;
    mkCaseRange 582 590 2 583; mkCaseRange 880 882 2 881;
    mkCaseRange 886 886 1 887; mkCaseRange 895 895 1 1011;
    mkCaseRange 902 902 1 940; mkCaseRange 904 906 1 941;
    mkCaseRange 908 908 1 972; mkCaseRange 910 911 1 973;
    mkCaseRange 913 929 1 945; mkCaseRange 931 939 1 963;
    mkCaseRange 975 975 1 983; mkCaseRange 984 1006 2 985;
    mkCaseRange 1012 1012 1 952; mkCaseRange 1015 1015 1 1016;
    mkCaseRange 1017 1017 1 1010; mkCaseRange 1018 1018 1 1019;
    mkCaseRange 1021 1023 1 891; mkCaseRange 1024 1039 1 1104;
    mkCaseRange 1040 1071 1 1072; mkCaseRange 1120 1152 2 1121;
    mkCaseRange 1162 1214 2 1163; mkCaseRange 1216 1216 1 1231;
    mkCaseRange 1217 1229 2 1218; mkCaseRange 1232 1326 2 1233;
    mkCaseRange 1329 1366 1 1377; mkCaseRange 4256 4293 1 11520;
    mkCaseRange 4295 4295 1 11559; mkCaseRange 4301 4301 1 11565;
    mkCaseRange 5024 5103 1 43888; mkCaseRange 5104 5109 1 5112;
    mkCaseRange 7312 7354 1 4304; mkCaseRange 7357 7359 1 4349;
    mkCaseRange 7680 7828 2 7681; mkCaseRange 7838 7838 1 223;
    mkCaseRange 7840 7934 2 7841; mkCaseRange 7944 7951 1 7936;
    mkCaseRange 7960 7965 1 7952; mkCaseRange 7976 7983 1 7968;
    mkCaseRange 7992 7999 1 7984; mkCaseRange 8008 8013 1 8000;
    mkCaseRange 8025 8031 2 8017; mkCaseRange 8040 8047 1 8032;
    mkCaseRange 8072 8079 1 8064; mkCaseRange 8088 8095 1 8080;
    mkCaseRange 8104 8111 1 8096; mkCaseRange 8120 8121 1 8112;
    mkCaseRange 8122 8123 1 8048; mkCaseRange 8124 8124 1 8115;
    mkCaseRange 8136 8139 1 8050; mkCaseRange 8140 8140 1 8131;
    mkCaseRange 8152 8153 1 8144; mkCaseRange 8154 8155 1 8054;
    mkCaseRange 8168 8169 1 8160; mkCaseRange 8170 8171 1 8058;
    mkCaseRange 8172 8172 1 8165; mkCaseRange 8184 8185 1 8056;
    mkCaseRange 8186 8187 1 8060; mkCaseRange 8188 8188 1 8179;
    mkCaseRange 8486 8486 1 969; mkCaseRange 8490 8490 1 107;
    mkCaseRange 8491 8491 1 229; mkCaseRange 8498 8498 1 8526;
    mkCaseRange 8544 8559 1 8560; mkCaseRange 8579 8579 1 8580;
    mkCaseRange 9398 9423 1 9424; mkCaseRange 11264 11311 1 11312;
    mkCaseRange 11360 11360 1 11361; mkCaseRange 11362 11362 1 619;
    mkCaseRange 11363 11363 1 7549; mkCaseRange 11364 11364 1 637;
    mkCaseRange 11367 11371 2 11368; mkCaseRange 11373 11373 1 593;
    mkCaseRange 11374 11374 1 625; mkCaseRange 11375 11375 1 592;
    mkCaseRange 11376 11376 1 594; mkCaseRange 11378 11378 1 11379;
    mkCaseRange 11381 11381 1 11382; mkCaseRange 11390 11391 1 575;
    mkCaseRange 11392 11490 2 11393; mkCaseRange 11499 11501 2 11500;
    mkCaseRange 11506 11506 1 11507; mkCaseRange 42560 42604 2 42561;
    mkCaseRange 42624 42650 2 42625; mkCaseRange 42786 42798 2 42787;
    mkCaseRange 42802 42862 2 42803; mkCaseRange 42873 42875 2 42874;
    mkCaseRange 42877 42877 1 7545; mkCaseRange 42878 42886 2 42879;
    mkCaseRange 42891 42891 1 42892; mkCaseRange 42893 42893 1 613;
    mkCaseRange 42896 42898 2 42897; mkCaseRange 42902 42920 2 42903;
    mkCaseRange 42922 42922 1 614; mkCaseRange 42923 42923 1 604;
    mkCaseRange 42924 42924 1 609; mkCaseRange 42925 42925 1 620;
    mkCaseRange 42926 42926 1 618; mkCaseRange 42928 42928 1 670;
    mkCaseRange 42929 42929 1 647; mkCaseRange 42930 42930 1 669;
    mkCaseRange 42931 42931 1 43859; mkCaseRange 42932 42946 2 42933;
    mkCaseRange 42948 42948 1 42900; mkCaseRange 42949 42949 1 642;
    mkCaseRange 42950 42950 1 7566; mkCaseRange 42951 42953 2 42952;
    mkCaseRange 42960 42960 1 42961; mkCaseRange 42966 42968 2 42967;
    mkCaseRange 42997 42997 1 42998; mkCaseRange 65313 65338 1 65345;
    mkCaseRange 66560 66599 1 66600; mkCaseRange 66736 66771 1 66776;
    mkCaseRange 66928 66938 1 66967; mkCaseRange 66940 66954 1 66979;
    mkCaseRange 66956 66962 1 66995; mkCaseRange 66964 66965 1 67003;
    mkCaseRange 68736 68786 1 68800; mkCaseRange 71840 71871 1 71872;
    mkCaseRange 93760 93791 1 93792; mkCaseRange 125184 125217 1 125218 ].

(** The runes of a range. *)
Definition members (cr : CaseRange) : list N :=
  (fun k => (Lo cr + N.of_nat k * Stride cr)%N)
    <$> seq 0 (S (N.to_nat ((Hi cr - Lo cr) / Stride cr))).

Definition inRange (r : N) (cr : CaseRange) : bool :=
  ((Lo cr <=? r) && (r <=? Hi cr) && ((r - Lo cr) mod Stride cr =? 0))%N.

(** [unicode.ToLower(r)] *)
Definition ToLower (r : N) : N :=
  match List.find (inRange r) lowerRanges with
  | Some cr => (Lower cr + (r - Lo cr))%N
  | None => r
  end.

End Unicode.

(* ================================================================= *)
(** ** Package [strings] of the Go standard library *)

Module Strings.

(** The loop of [strings.Map(mapping, s)]: every rune of [s] is decoded,
    mapped and encoded again; a byte that starts no well-formed
    encoding is read as [RuneError].  [skip] is the number of bytes of
    the rune read last that are still to be passed over. *)
Fixpoint mapFrom (mapping : N -> N) (skip : nat) (s : string) : string :=
  match s with
  | EmptyString => EmptyString
  | String _ s' =>
      match skip with
      | S k => mapFrom mapping k s'
      | O => let '(r, width) := Utf8.DecodeRuneInString s in
             Utf8.EncodeRune (mapping r) +:+ mapFrom mapping (width - 1) s'
      end
  end.

Definition Map (mapping : N -> N) (s : string) : string := mapFrom mapping 0 s.

(** [isASCII] of [strings.ToLower]: no byte from [utf8.RuneSelf] on. *)
Fixpoint isASCII (s : string) : bool :=
  match s with
  | EmptyString => true
  | String c s' => (N_of_ascii c <? 128)%N && isASCII s'
  end.

(** The byte loop of [strings.ToLower] for an ASCII string: [c += 'a' -
    'A'] for the bytes [A]..[Z], every other byte is kept. *)
Definition lowerByte (c : ascii) : ascii :=
  let n := nat_of_ascii c in
  if (65 <=? n)%nat && (n <=? 90)%nat then ascii_of_nat (n + 32) else c.

Fixpoint lowerASCII (s : string) : string :=
  match s with
  | EmptyString => EmptyString
  | String c s' => String (lowerByte c) (lowerASCII s')
  end.

(** [strings.ToLower]: the byte loop for an ASCII string,
    [Map(unicode.ToLower, s)] for any other. *)
Definition ToLower (s : string) : string :=
  if isASCII s then lowerASCII s else Map Unicode.ToLower s.

(** [strings.HasPrefix(s, prefix)] *)
Fixpoint HasPrefix (s prefix : string) {struct prefix} : bool :=
  match prefix, s with
  | EmptyString, _ => true
  | String _ _, EmptyString => false
  | String p prefix', String c s' => Ascii.eqb c p && HasPrefix s' prefix'
  end.

(** [s[n:]] *)
Fixpoint dropBytes (n : nat) (s : string) : string :=
  match n, s with
  | O, _ => s
  | S _, EmptyString => EmptyString
  | S k, String _ s' => dropBytes k s'
  end.

(** [strings.TrimPrefix(s, prefix)] *)
Definition TrimPrefix (s prefix : string) : string :=
  if HasPrefix s prefix then dropBytes (String.length prefix) s else s.

(** [strings.Contains(s, substr)]: [substr] starts at some offset of [s]. *)
Fixpoint Contains (s substr : string) : bool :=
  HasPrefix s substr ||
  match s with
  | EmptyString => false
  | String _ s' => Contains s' substr
  end.

(** Left-to-right scan shared by [Count], [ReplaceAll] and [Split]:
    the occurrences of a non-empty pattern are taken greedily from the
    left and do not overlap.  [skip] is the number of bytes of the
    occurrence found last that are still to be passed over. *)
Fixpoint countFrom (substr : string) (skip : nat) (s : string) : nat :=
  match s with
  | EmptyString => O
  | String _ s' =>
      match skip with
      | S k => countFrom substr k s'
      | O => if HasPrefix s substr
             then S (countFrom substr (String.length substr - 1) s')
             else countFrom substr 0 s'
      end
  end.

(** [strings.Count(s, substr)].  For the empty pattern Go answers the
    number of runes plus one (bytes and runes coincide on ASCII). *)
Definition Count (s substr : string) : nat :=
  match substr with
  | EmptyString => S (String.length s)
  | _ => countFrom substr 0 s
  end.

Fixpoint replaceFrom (old new : string) (skip : nat) (s : string) : string :=
  match s with
  | EmptyString => EmptyString
  | String c s' =>
      match skip with
      | S k => replaceFrom old new k s'
      | O => if HasPrefix s old
             then new +:+ replaceFrom old new (String.length old - 1) s'
             else String c (replaceFrom old new 0 s')
      end
  end.

(** The empty pattern matches before every byte and at the end. *)
Fixpoint interleave (new s : string) : string :=
  match s with
  | EmptyString => new
  | String c s' => new +:+ String c (interleave new s')
  end.

(** [strings.ReplaceAll(s, old, new)] *)
Definition ReplaceAll (s old new : string) : string :=
  match old with
  | EmptyString => interleave new s
  | _ => replaceFrom old new 0 s
  end.

(** The fields of [s] between the occurrences of [sep]; the head of the
    answer is the field being read. *)
Fixpoint splitFrom (sep : string) (skip : nat) (s : string) : list string :=
  match s with
  | EmptyString => [EmptyString]
  | String c s' =>
      match skip with
      | S k => splitFrom sep k s'
      | O => if HasPrefix s sep
             then EmptyString :: splitFrom sep (String.length sep - 1) s'
             else match splitFrom sep 0 s' with
                  | f :: fs => String c f :: fs
                  | [] => [String c EmptyString]
                  end
      end
  end.

(** [strings.Split(s, sep)]; an empty separator explodes [s] into its
    bytes. *)
Definition Split (s sep : string) : list string :=
  match sep with
  | EmptyString => (fun c => String c EmptyString) <$> list_ascii_of_string s
  | _ => splitFrom sep 0 s
  end.

(** The UTF-8 encodings of the code points with the Unicode property
    White_Space ([unicode.IsSpace]): TAB, LF, VT, FF, CR, SPACE, U+0085,
    U+00A0, U+1680, U+2000..U+200A, U+2028, U+2029, U+202F, U+205F,
    U+3000. *)
Definition spaceRunes : list (list nat) :=
  [ [9]; [10]; [11]; [12]; [13]; [32];
    [194; 133]; [194; 160]; [225; 154; 128];
    [226; 128; 128]; [226; 128; 129]; [226; 128; 130]; [226; 128; 131];
    [226; 128; 132]; [226; 128; 133]; [226; 128; 134]; [226; 128; 135];
    [226; 128; 136]; [226; 128; 137]; [226; 128; 138];
    [226; 128; 168]; [226; 128; 169]; [226; 128; 175];
    [226; 129; 159]; [227; 128; 128] ].

Definition runeString (bs : list nat) : string :=
  string_of_list_ascii (ascii_of_nat <$> bs).

(** Width in bytes of the white-space rune [s] starts with, [0] when it
    starts with none.  [rs] is the table of encodings. *)
Fixpoint spaceWidth (rs : list (list nat)) (s : string) : nat :=
  match rs with
  | [] => O
  | r :: rs' => if HasPrefix s (runeString r) then List.length r
                else spaceWidth rs' s
  end.

Fixpoint trimLeftFrom (rs : list (list nat)) (skip : nat) (s : string) : string :=
  match s with
  | EmptyString => EmptyString
  | String _ s' =>
      match skip with
      | S k => trimLeftFrom rs k s'
      | O => match spaceWidth rs s with
             | O => s
             | S k => trimLeftFrom rs k s'
             end
      end
  end.

Definition revString (s : string) : string :=
  string_of_list_ascii (reverse (list_ascii_of_string s)).

(** [strings.TrimSpace(s)]: the white-space runes at both ends are
    removed.  The right end is read backwards, against the reversed
    encodings. *)
Definition TrimSpace (s : string) : string :=
  let l := trimLeftFrom spaceRunes 0 s in
  revString (trimLeftFrom (reverse <$> spaceRunes) 0 (revString l)).

End Strings.

(* ================================================================= *)
(** ** Request arguments and protocol messages *)

(** A JSON value as [encoding/json] decodes it into [interface{}]:
    [nil], [bool], [float64], [string], [[]interface{}] and
    [map[string]interface{}].  A [float64] is carried as its 64-bit
    IEEE-754 pattern. *)
Inductive JValue : Type :=
  | JNull
  | JBool (b : bool)
  | JNum (bits : Z)
  | JStr (s : string)
  | JArr (l : list JValue)
  | JObj (m : gmap string JValue).

(** The type assertions [v.(string)], [v.(bool)], [v.(float64)],
    [v.([]interface{})] and [v.(map[string]interface{})] on a map entry;
    [None] is the [ok == false] outcome (missing key or other type). *)
Definition asString (v : option JValue) : option string :=
  match v with Some (JStr s) => Some s | _ => None end.

Definition asBool (v : option JValue) : option bool :=
  match v with Some (JBool b) => Some b | _ => None end.

Definition asFloat64 (v : option JValue) : option Z :=
  match v with Some (JNum x) => Some x | _ => None end.

Definition asSlice (v : option JValue) : option (list JValue) :=
  match v with Some (JArr l) => Some l | _ => None end.

Definition asMap (v : option JValue) : option (gmap string JValue) :=
  match v with Some (JObj m) => Some m | _ => None end.

(** [clientpb.OutputFormat] and its [String()] method. *)
Inductive OutputFormat := SHARED_LIB | SHELLCODE | EXECUTABLE | SERVICE.

Definition OutputFormat_String (f : OutputFormat) : string :=
  match f with
  | SHARED_LIB => "SHARED_LIB"
  | SHELLCODE => "SHELLCODE"
  | EXECUTABLE => "EXECUTABLE"
  | SERVICE => "SERVICE"
  end.

(** [clientpb.ImplantC2]; [Priority] is a [uint32]. *)
Record ImplantC2 := mkImplantC2 { Priority : Z; URL : string }.

(** The fields of [clientpb.ImplantConfig] the handlers read or write. *)
Record ImplantConfig := mkImplantConfig {
  GOOS : string;
  GOARCH : string;
  Format : OutputFormat;
  IsSharedLib : bool;
  IsShellcode : bool;
  IsService : bool;
  C2 : list ImplantC2;
  IsBeacon : bool;
  BeaconInterval : Z;
  BeaconJitter : Z;
  Debug : bool;
  Evasion : bool;
  ObfuscateSymbols : bool;
  Name : string
}.

(** [&clientpb.ImplantConfig{}]: every field at its zero value.  The zero
    value of [OutputFormat] is [SHARED_LIB]. *)
Definition emptyImplantConfig : ImplantConfig :=
  {| GOOS := ""; GOARCH := ""; Format := SHARED_LIB;
     IsSharedLib := false; IsShellcode := false; IsService := false;
     C2 := []; IsBeacon := false; BeaconInterval := 0; BeaconJitter := 0;
     Debug := false; Evasion := false; ObfuscateSymbols := false;
     Name := "" |}.

(** [clientpb.ImplantProfile].  [Config] is a pointer: [None] is [nil],
    which a profile decoded from an answer of the server may hold. *)
Record ImplantProfile := mkImplantProfile {
  ProfileName : string;
  Config : option ImplantConfig
}.

(** [clientpb.Session]: the fields read by [GetSession] and its callers. *)
Record Session := mkSession { ID : string; OS : string }.

(** [sliverpb.ExecuteReq] *)
Record ExecuteReq := mkExecuteReq {
  SessionID : string;
  Path : string;
  Args : list string;
  Output : bool
}.

(** [commonpb.Response] and [sliverpb.Execute]; [Response] is a pointer
    that may be [nil]. *)
Record Response := mkResponse { Err : string }.

Record Execute := mkExecute {
  Stdout : string;
  Stderr : string;
  ExecResponse : option Response
}.

(** [uint32(i)] for a slice index [i]. *)
Definition uint32 (i : nat) : Z := (Z.of_nat i) mod 2 ^ 32.

(** [%d] of a slice index. *)
Definition fmt_d (i : nat) : string := pretty i.

(** [NewInvalidArgsError] *)
Definition NewInvalidArgsError (message : string) : string :=
  "invalid arguments: " +:+ message.

(** [commonpb.File] and [clientpb.Generate]; both [File] and its [Data]
    may be [nil]. *)
Record File := mkFile { FileName : string; Data : option string }.

Record Generate := mkGenerate { GenFile : option File }.

(** Bytes that cannot be typed inside a literal. *)
Definition NUL : string := String "000" EmptyString.
Definition CR : string := String "013" EmptyString.
Definition LF : string := String "010" EmptyString.

(** [%v] of a [bool] and [%d] of an [OutputFormat]. *)
Definition fmt_bool (b : bool) : string := if b then "true" else "false".

Definition OutputFormat_number (f : OutputFormat) : nat :=
  match f with SHARED_LIB => 0 | SHELLCODE => 1 | EXECUTABLE => 2 | SERVICE => 3 end.

(* ================================================================= *)
(** ** Effects

    What a handler does besides computing: it writes lines to standard
    output ([fmt.Printf]) and it calls the RPC client of the Sliver
    server.  Both are recorded, in order, in a trace. *)

Inductive Event :=
  | EvPrintf (text : string)
  | EvGetSessions
  | EvExecute (req : ExecuteReq)
  | EvGenerate (config : ImplantConfig)
  | EvSaveImplantProfile (profile : ImplantProfile).

Definition isPrintf (e : Event) : bool :=
  match e with EvPrintf _ => true | _ => false end.

(** The RPC calls of a trace, the lines written left out. *)
Definition rpcCalls (tr : list Event) : list Event :=
  List.filter (fun e => negb (isPrintf e)) tr.

(** The [sliverpb.ExecuteReq] values sent, in order. *)
Definition executeCalls (tr : list Event) : list ExecuteReq :=
  omap (fun e => match e with EvExecute r => Some r | _ => None end) tr.

(** The configurations handed to the server for building or saving. *)
Definition configsSent (tr : list Event) : list ImplantConfig :=
  omap (fun e => match e with
                 | EvGenerate c => Some c
                 | EvSaveImplantProfile p => Config p
                 | _ => None
                 end) tr.

(** The server and the host the adapter runs on.  [World] is their
    state; an RPC answers with an error text or a message and moves the
    state on.  [os.Stat] and [os.Getenv] read it. *)
Record Host (World : Type) := mkHost {
  rpcGetSessions : World -> (string + list Session) * World;
  rpcExecute : ExecuteReq -> World -> (string + Execute) * World;
  rpcGenerate : ImplantConfig -> World -> (string + Generate) * World;
  rpcSaveImplantProfile :
    ImplantProfile -> World -> (string + ImplantProfile) * World;
  statNotExist : string -> World -> bool;
  getenv : string -> World -> string
}.

Arguments rpcGetSessions {World}.
Arguments rpcExecute {World}.
Arguments rpcGenerate {World}.
Arguments rpcSaveImplantProfile {World}.
Arguments statNotExist {World}.
Arguments getenv {World}.

(** A computation that may return early with an error ([inl], Go's
    [return nil, err]); it moves the world on and emits a trace. *)
Definition M (World A : Type) : Type :=
  World -> (string + A) * World * list Event.

#[export] Instance M_ret {World} : MRet (M World) :=
  fun A x w => (inr x, w, []).

#[export] Instance M_bind {World} : MBind (M World) :=
  fun A B f m w =>
    match m w with
    | (inl e, w', tr) => (inl e, w', tr)
    | (inr x, w', tr) =>
        let '(r, w'', tr') := f x w' in (r, w'', (tr ++ tr')%list)
    end.

Definition throw {World A} (e : string) : M World A :=
  fun w => (inl e, w, []).

(** A run-time panic.  The goroutine unwinds from the point of the
    panic: nothing after it runs, and the handler returns neither a
    result nor an [error].  The model ends the computation there, as for
    an early return, with the text of the panic in the place of the
    error. *)
Definition nilDereference : string :=
  "panic: runtime error: invalid memory address or nil pointer dereference".

Definition panic {World A} (text : string) : M World A := throw text.

Definition Printf {World} (text : string) : M World unit :=
  fun w => (inr tt, w, [EvPrintf text]).

(** An RPC: the call is recorded, the answer (error or message) is handed
    to the caller, who decides what an error means. *)
Definition call {World A} (ev : Event)
    (rpc : World -> (string + A) * World) : M World (string + A) :=
  fun w => let '(r, w') := rpc w in (inr r, w', [ev]).

Definition readWorld {World A} (f : World -> A) : M World A :=
  fun w => (inr (f w), w, []).

(** A step on the host that is neither an RPC nor a line printed. *)
Definition io {World A} (f : World -> (string + A) * World) : M World A :=
  fun w => let '(r, w') := f w in (r, w', []).

(** [m] run with its early return turned into a value: Go's
    [x, err := m()] before the caller looks at [err]. *)
Definition attempt {World A} (m : M World A) : M World (string + A) :=
  fun w => let '(r, w', tr) := m w in (inr r, w', tr).

(** Field updates of [ImplantConfig]. *)
Definition set_GOOS (v : string) (c : ImplantConfig) : ImplantConfig :=
  mkImplantConfig v (GOARCH c) (Format c) (IsSharedLib c) (IsShellcode c)
    (IsService c) (C2 c) (IsBeacon c) (BeaconInterval c) (BeaconJitter c)
    (Debug c) (Evasion c) (ObfuscateSymbols c) (Name c).

Definition set_GOARCH (v : string) (c : ImplantConfig) : ImplantConfig :=
  mkImplantConfig (GOOS c) v (Format c) (IsSharedLib c) (IsShellcode c)
    (IsService c) (C2 c) (IsBeacon c) (BeaconInterval c) (BeaconJitter c)
    (Debug c) (Evasion c) (ObfuscateSymbols c) (Name c).

Definition set_Format (v : OutputFormat) (c : ImplantConfig) : ImplantConfig :=
  mkImplantConfig (GOOS c) (GOARCH c) v (IsSharedLib c) (IsShellcode c)
    (IsService c) (C2 c) (IsBeacon c) (BeaconInterval c) (BeaconJitter c)
    (Debug c) (Evasion c) (ObfuscateSymbols c) (Name c).

Definition set_C2 (v : list ImplantC2) (c : ImplantConfig) : ImplantConfig :=
  mkImplantConfig (GOOS c) (GOARCH c) (Format c) (IsSharedLib c) (IsShellcode c)
    (IsService c) v (IsBeacon c) (BeaconInterval c) (BeaconJitter c)
    (Debug c) (Evasion c) (ObfuscateSymbols c) (Name c).

Definition set_IsBeacon (v : bool) (c : ImplantConfig) : ImplantConfig :=
  mkImplantConfig (GOOS c) (GOARCH c) (Format c) (IsSharedLib c) (IsShellcode c)
    (IsService c) (C2 c) v (BeaconInterval c) (BeaconJitter c)
    (Debug c) (Evasion c) (ObfuscateSymbols c) (Name c).

Definition set_BeaconInterval (v : Z) (c : ImplantConfig) : ImplantConfig :=
  mkImplantConfig (GOOS c) (GOARCH c) (Format c) (IsSharedLib c) (IsShellcode c)
    (IsService c) (C2 c) (IsBeacon c) v (BeaconJitter c)
    (Debug c) (Evasion c) (ObfuscateSymbols c) (Name c).

Definition set_BeaconJitter (v : Z) (c : ImplantConfig) : ImplantConfig :=
  mkImplantConfig (GOOS c) (GOARCH c) (Format c) (IsSharedLib c) (IsShellcode c)
    (IsService c) (C2 c) (IsBeacon c) (BeaconInterval c) v
    (Debug c) (Evasion c) (ObfuscateSymbols c) (Name c).

Definition set_Debug (v : bool) (c : ImplantConfig) : ImplantConfig :=
  mkImplantConfig (GOOS c) (GOARCH c) (Format c) (IsSharedLib c) (IsShellcode c)
    (IsService c) (C2 c) (IsBeacon c) (BeaconInterval c) (BeaconJitter c)
    v (Evasion c) (ObfuscateSymbols c) (Name c).

Definition set_Evasion (v : bool) (c : ImplantConfig) : ImplantConfig :=
  mkImplantConfig (GOOS c) (GOARCH c) (Format c) (IsSharedLib c) (IsShellcode c)
    (IsService c) (C2 c) (IsBeacon c) (BeaconInterval c) (BeaconJitter c)
    (Debug c) v (ObfuscateSymbols c) (Name c).

Definition set_ObfuscateSymbols (v : bool) (c : ImplantConfig) : ImplantConfig :=
  mkImplantConfig (GOOS c) (GOARCH c) (Format c) (IsSharedLib c) (IsShellcode c)
    (IsService c) (C2 c) (IsBeacon c) (BeaconInterval c) (BeaconJitter c)
    (Debug c) (Evasion c) v (Name c).

Definition set_Name (v : string) (c : ImplantConfig) : ImplantConfig :=
  mkImplantConfig (GOOS c) (GOARCH c) (Format c) (IsSharedLib c) (IsShellcode c)
    (IsService c) (C2 c) (IsBeacon c) (BeaconInterval c) (BeaconJitter c)
    (Debug c) (Evasion c) (ObfuscateSymbols c) v.

(** The map literal [supportedPlatforms], the same in the handler and in
    the client. *)
Definition supportedPlatforms : gmap string bool :=
  {[ "windows/amd64" := true; "windows/386" := true;
     "linux/amd64" := true; "linux/386" := true;
     "darwin/amd64" := true; "darwin/arm64" := true ]}.

(** [switch goos { case "mac", "macos", "osx": ...; case "win": ...;
    case "lin": ... }] *)
Definition standardizeOS (goos : string) : string :=
  if String.eqb goos "mac" || String.eqb goos "macos" || String.eqb goos "osx"
  then "darwin"
  else if String.eqb goos "win" then "windows"
  else if String.eqb goos "lin" then "linux"
  else goos.

(** The categories an error text is sorted into.  The code has no such
    type: each value names one [return] of the two substring chains
    below. *)
Inductive ErrorCategory :=
  | MissingCrossCompiler
  | BuildProcessFailure
  | NetworkFailure
  | UnsupportedPlatform
  | Generic.

(* ================================================================= *)
(** ** Package [client]: methods of [SliverClient] *)

Module SliverClient.

(** The substring chain of [Generate] over the error text of the RPC
    (first match wins). *)
Definition classify (errorMsg : string) : ErrorCategory :=
  if Strings.Contains errorMsg "CC" || Strings.Contains errorMsg "gcc"
     || Strings.Contains errorMsg "mingw"
  then MissingCrossCompiler
  else if Strings.Contains errorMsg "go build"
          || Strings.Contains errorMsg "exit status"
  then BuildProcessFailure
  else if Strings.Contains errorMsg "connect"
          || Strings.Contains errorMsg "network"
          || Strings.Contains errorMsg "connection"
  then NetworkFailure
  else Generic.

(** The error [Generate] returns in each branch of the chain. *)
Definition generateError (err platform format : string) : string :=
  match classify err with
  | MissingCrossCompiler =>
      "failed to generate implant: cross-compiler error - " +:+ err
  | BuildProcessFailure =>
      "failed to generate implant: build process error - " +:+ err
  | NetworkFailure =>
      "failed to generate implant: network error - " +:+ err
  | _ =>
      "failed to generate implant: " +:+ err +:+ " (platform: " +:+ platform
        +:+ ", format: " +:+ format +:+ ")"
  end.

(** The lines [Generate] prints before it returns that error. *)
Definition generateErrorLines (err : string) : list string :=
  match classify err with
  | MissingCrossCompiler =>
      [ "ERROR: This appears to be a cross-compiler issue." +:+ LF;
        "For Windows targets, ensure mingw-w64 is installed." +:+ LF;
        "For Linux targets, ensure gcc and appropriate dev packages are installed." +:+ LF;
        "You can set SLIVER_CC_32 and SLIVER_CC_64 environment variables to point to the compilers." +:+ LF ]
  | BuildProcessFailure =>
      [ "ERROR: Go build process failed." +:+ LF;
        "This could be due to missing dependencies or incompatible Go version." +:+ LF;
        "Check the server logs for detailed build output." +:+ LF ]
  | NetworkFailure =>
      [ "ERROR: Network connection issue detected." +:+ LF;
        "Ensure the Sliver server is running and accessible." +:+ LF ]
  | _ => []
  end.

(** "Validate and normalize config": the in-place updates of [*config]
    at the head of [Generate], and the name set from the argument. *)
Definition normalizeConfig (config : ImplantConfig) (name : string) : ImplantConfig :=
  let goos := if String.eqb (GOOS config) "" then "windows" else GOOS config in
  let goos := standardizeOS (Strings.ToLower goos) in
  let goarch := if String.eqb (GOARCH config) "" then "amd64" else GOARCH config in
  let goarch := Strings.ToLower goarch in
  let goarch :=
    if String.eqb goarch "x64" || String.eqb goarch "x86_64"
       || Strings.HasPrefix goarch "64"
    then "amd64"
    else if String.eqb goarch "x86" || String.eqb goarch "i386"
            || Strings.HasPrefix goarch "32"
    then "386"
    else goarch in
  let config := set_GOARCH goarch (set_GOOS goos config) in
  if String.eqb name "" then config else set_Name name config.

Section Methods.
Context {World : Type} (host : Host World).

Definition PrintfAll (lines : list string) : M World unit :=
  foldr (fun l k => Printf l ;; k) (mret tt) lines.

Definition GetSession (sessionID : string) : M World Session :=
  r ← call EvGetSessions (rpcGetSessions host);
  match r with
  | inl err => throw ("failed to get sessions: " +:+ err)
  | inr sessions =>
      match List.find (fun session => String.eqb (ID session) sessionID) sessions with
      | Some session => mret session
      | None => throw ("session with ID " +:+ sessionID +:+ " not found")
      end
  end.

Definition Execute (sessionID command : string) : M World Execute :=
  r ← attempt (GetSession sessionID);
  match r with
  | inl err => throw ("failed to get session info: " +:+ err)
  | inr session =>
      if String.eqb (Strings.ToLower (OS session)) "windows" then
        let cmdReq :=
          {| SessionID := sessionID; Path := "cmd.exe";
             Args := ["/D"; "/u"; "/V:OFF"; "/C"; command]; Output := true |} in
        r1 ← call (EvExecute cmdReq) (rpcExecute host cmdReq);
        match r1 with
        | inr execute => mret execute
        | inl _ =>
            let psCommand :=
              "$OutputEncoding = [System.Text.Encoding]::UTF8; " +:+ command
                +:+ "; exit $LASTEXITCODE" in
            let psReq :=
              {| SessionID := sessionID; Path := "powershell.exe";
                 Args := ["-NoProfile"; "-NonInteractive"; "-OutputFormat";
                          "Text"; "-Command"; psCommand];
                 Output := true |} in
            r2 ← call (EvExecute psReq) (rpcExecute host psReq);
            match r2 with
            | inr execute => mret execute
            | inl err =>
                throw ("failed to execute command with both cmd.exe and powershell.exe: "
                         +:+ err)
            end
        end
      else
        let bash := "/bin/bash" in
        let sh := "/bin/sh" in
        let bashReq :=
          {| SessionID := sessionID; Path := bash;
             Args := ["-c"; command]; Output := true |} in
        r1 ← call (EvExecute bashReq) (rpcExecute host bashReq);
        match r1 with
        | inr execute => mret execute
        | inl _ =>
            let shReq :=
              {| SessionID := sessionID; Path := sh;
                 Args := ["-c"; command]; Output := true |} in
            r2 ← call (EvExecute shReq) (rpcExecute host shReq);
            match r2 with
            | inr execute => mret execute
            | inl err =>
                throw ("failed to execute command with both bash and sh: " +:+ err)
            end
        end
  end.

(** The check of one mingw compiler and the line it prints. *)
Definition reportCompiler (bits compilerPath : string) : M World unit :=
  missing ← readWorld (statNotExist host compilerPath);
  if (missing : bool)
  then Printf ("Warning: " +:+ bits +:+ " Windows cross-compiler not found at "
                 +:+ compilerPath +:+ LF)
  else Printf ("Found " +:+ bits +:+ " Windows cross-compiler at "
                 +:+ compilerPath +:+ LF).

(** [Generate] answers with the message of the server; the updated
    [*config] is returned next to it, as the caller sees it through
    the pointer. *)
Definition Generate (config : ImplantConfig) (name : string) :
    M World (ImplantConfig * Generate) :=
  let config := normalizeConfig config name in
  let platform := GOOS config +:+ "/" +:+ GOARCH config in
  let format := OutputFormat_String (Format config) in
  (match supportedPlatforms !! platform with
   | Some _ => mret tt
   | None => Printf ("Warning: Potentially unsupported platform " +:+ platform +:+ LF)
   end) ;;
  Printf ("Generating implant with OS=" +:+ GOOS config +:+ ", ARCH=" +:+ GOARCH config
            +:+ ", FORMAT=" +:+ format +:+ ", Platform=" +:+ platform +:+ LF) ;;
  Printf ("==== DEBUG INFO ====" +:+ LF) ;;
  Printf ("GOOS: " +:+ GOOS config +:+ ", GOARCH: " +:+ GOARCH config
            +:+ ", Format: " +:+ format +:+ LF) ;;
  Printf ("IsBeacon: " +:+ fmt_bool (IsBeacon config)
            +:+ ", IsSharedLib: " +:+ fmt_bool (IsSharedLib config)
            +:+ ", IsService: " +:+ fmt_bool (IsService config)
            +:+ ", IsShellcode: " +:+ fmt_bool (IsShellcode config) +:+ LF) ;;
  cc32Path ← readWorld (getenv host "SLIVER_CC_32");
  cc64Path ← readWorld (getenv host "SLIVER_CC_64");
  Printf ("SLIVER_CC_32: " +:+ cc32Path +:+ LF) ;;
  Printf ("SLIVER_CC_64: " +:+ cc64Path +:+ LF) ;;
  (if String.eqb (GOOS config) "windows" then
     (if String.eqb (GOARCH config) "386"
      then reportCompiler "32-bit" "/usr/bin/i686-w64-mingw32-gcc"
      else mret tt) ;;
     (if String.eqb (GOARCH config) "amd64"
      then reportCompiler "64-bit" "/usr/bin/x86_64-w64-mingw32-gcc"
      else mret tt)
   else mret tt) ;;
  r ← call (EvGenerate config) (rpcGenerate host config);
  match r with
  | inr generate => mret (config, generate)
  | inl err =>
      PrintfAll (generateErrorLines err) ;;
      throw (generateError err platform format)
  end.

Definition SaveImplantProfile (profile : ImplantProfile) : M World ImplantProfile :=
  r ← call (EvSaveImplantProfile profile) (rpcSaveImplantProfile host profile);
  match r with
  | inl err => throw ("failed to save implant profile: " +:+ err)
  | inr savedProfile => mret savedProfile
  end.

End Methods.
End SliverClient.

(* ================================================================= *)
(** ** Package [tools]: the handlers *)

Module Tools.

(** *** Platform: aliases, defaults, supported pairs *)

(** [implantConfig.GOOS] after the look-up of ["OS"], then ["os"]. *)
Definition lookupOS (configMap : gmap string JValue) : string :=
  match asString (configMap !! "OS") with
  | Some goos => Strings.ToLower goos
  | None =>
      match asString (configMap !! "os") with
      | Some goos => Strings.ToLower goos
      | None => ""
      end
  end.

(** [switch goarch { ... default: ... }] on the lower-cased value. *)
Definition standardizeArch (goarch : string) : string :=
  if String.eqb goarch "x64" || String.eqb goarch "x86_64"
     || String.eqb goarch "amd64" || String.eqb goarch "64"
     || String.eqb goarch "64bit"
  then "amd64"
  else if String.eqb goarch "x86" || String.eqb goarch "i386"
          || String.eqb goarch "386" || String.eqb goarch "32"
          || String.eqb goarch "32bit"
  then "386"
  else if String.eqb goarch "arm64" || String.eqb goarch "aarch64"
  then "arm64"
  else goarch.

Definition lookupArch (configMap : gmap string JValue) : string :=
  match asString (configMap !! "arch") with
  | Some goarch => standardizeArch (Strings.ToLower goarch)
  | None => ""
  end.

(** What the handlers do to an OS, respectively architecture, string
    the caller gave: lower-case it, then replace an alias. *)
Definition canonicalOS (goos : string) : string :=
  standardizeOS (Strings.ToLower goos).

Definition canonicalArch (goarch : string) : string :=
  standardizeArch (Strings.ToLower goarch).

(** "Set defaults if not provided" *)
Definition defaultOS (goos : string) : string :=
  if String.eqb goos "" then "windows" else goos.

Definition defaultArch (goarch : string) : string :=
  if String.eqb goarch "" then "amd64" else goarch.

(** The platform fields of the configuration once aliases and defaults
    are applied: the head of both handlers. *)
Definition platformConfig (configMap : gmap string JValue) : ImplantConfig :=
  set_GOARCH (defaultArch (lookupArch configMap))
    (set_GOOS (defaultOS (standardizeOS (lookupOS configMap))) emptyImplantConfig).

Definition platformOf (c : ImplantConfig) : string :=
  GOOS c +:+ "/" +:+ GOARCH c.

Definition unsupportedPlatformError (platform : string) : string :=
  NewInvalidArgsError
    ("unsupported platform: " +:+ platform
       +:+ " - supported platforms are: windows/amd64, windows/386, linux/amd64, linux/386, darwin/amd64, darwin/arm64").

(** *** Format *)

Inductive RequestedFormat := ReqSharedLib | ReqShellcode | ReqService | ReqOther.

(** The [switch] over the lower-cased ["format"] entry. *)
Definition requestedFormat (format : string) : RequestedFormat :=
  let format := Strings.ToLower format in
  if String.eqb format "shared-lib" || String.eqb format "sharedlib"
     || String.eqb format "dll" || String.eqb format "so"
     || String.eqb format "dylib"
  then ReqSharedLib
  else if String.eqb format "shellcode" then ReqShellcode
  else if String.eqb format "service" then ReqService
  else ReqOther.

(** The warning of [HandleGenerateImplant] for a requested format. *)
Definition generateFormatWarning (configMap : gmap string JValue) : option string :=
  match asString (configMap !! "format") with
  | Some format =>
      match requestedFormat format with
      | ReqSharedLib =>
          Some ("WARNING: Shared library format requested, but defaulting to executable for compatibility" +:+ LF)
      | ReqShellcode =>
          Some ("WARNING: Shellcode format requested, but defaulting to executable for compatibility" +:+ LF)
      | ReqService =>
          Some ("WARNING: Service format requested, but defaulting to executable for compatibility" +:+ LF)
      | ReqOther => None
      end
  | None => None
  end.

(** The warning of [HandleSaveImplantProfile]. *)
Definition profileFormatWarning (configMap : gmap string JValue) : option string :=
  match asString (configMap !! "format") with
  | Some format =>
      match requestedFormat format with
      | ReqSharedLib =>
          Some ("WARNING: Shared library format requested in profile, but defaulting to executable" +:+ LF)
      | ReqShellcode =>
          Some ("WARNING: Shellcode format requested in profile, but defaulting to executable" +:+ LF)
      | ReqService =>
          Some ("WARNING: Service format requested in profile, but defaulting to executable" +:+ LF)
      | ReqOther => None
      end
  | None => None
  end.

(** *** C2 endpoints *)

(** The loop over a structured ["c2"] list, from index [i] on: one
    endpoint per element that is an object, its URL the ["url"] entry
    when that is a string. *)
Fixpoint structuredEndpoints (i : nat) (c2Configs : list JValue) : list ImplantC2 :=
  match c2Configs with
  | [] => []
  | c2Config :: rest =>
      match c2Config with
      | JObj c2Map =>
          {| Priority := uint32 i;
             URL := match asString (c2Map !! "url") with
                    | Some url => url
                    | None => ""
                    end |} :: structuredEndpoints (S i) rest
      | _ => structuredEndpoints (S i) rest
      end
  end.

(** The loops over ["mtlsc2"], ["httpc2"] and ["httpsc2"], from index
    [i] on: one endpoint per element that is a string, prefixed with
    the scheme unless it starts with it. *)
Fixpoint prefixedEndpoints (scheme : string) (i : nat) (servers : list JValue) :
    list ImplantC2 :=
  match servers with
  | [] => []
  | server :: rest =>
      match server with
      | JStr serverStr =>
          {| Priority := uint32 i;
             URL := if Strings.HasPrefix serverStr scheme then serverStr
                    else scheme +:+ serverStr |}
            :: prefixedEndpoints scheme (S i) rest
      | _ => prefixedEndpoints scheme (S i) rest
      end
  end.

(** The URL check of one endpoint at index [i]: the error it fails
    with, if any. *)
Definition validateC2URL (i : nat) (c2 : ImplantC2) : option string :=
  if String.eqb (URL c2) "" then
    Some (NewInvalidArgsError "empty C2 URL detected - please provide valid C2 URLs")
  else if Strings.HasPrefix (URL c2) "mtls://" then
    let parts := Strings.Split (Strings.TrimPrefix (URL c2) "mtls://") ":" in
    if negb (List.length parts =? 2)%nat
       && (negb (List.length parts =? 1)%nat || String.eqb (List.hd "" parts) "")
    then Some (NewInvalidArgsError
                 ("invalid MTLS URL format at index " +:+ fmt_d i +:+ ": " +:+ URL c2
                    +:+ " - format should be mtls://host:port or mtls://host"))
    else None
  else if Strings.HasPrefix (URL c2) "http://" || Strings.HasPrefix (URL c2) "https://" then
    if (Strings.Count (URL c2) "/" <? 3)%nat
    then Some (NewInvalidArgsError
                 ("invalid HTTP(S) URL format at index " +:+ fmt_d i +:+ ": " +:+ URL c2
                    +:+ " - format should include host, e.g., http://domain.com"))
    else None
  else
    Some (NewInvalidArgsError
            ("invalid URL protocol at index " +:+ fmt_d i +:+ ": " +:+ URL c2
               +:+ " - supported protocols are mtls://, http://, and https://")).

(** "Validate C2 URLs": the first failure ends the loop. *)
Fixpoint validateC2URLs (i : nat) (c2s : list ImplantC2) : option string :=
  match c2s with
  | [] => None
  | c2 :: rest =>
      match validateC2URL i c2 with
      | Some err => Some err
      | None => validateC2URLs (S i) rest
      end
  end.

Definition noC2Error : string :=
  NewInvalidArgsError
    "no C2 configuration found - please specify at least one C2 server using mtlsc2, httpc2, httpsc2, or c2 fields".

(** *** Build failures *)

(** The substring chain of [HandleGenerateImplant] over the error of
    [client.Generate]. *)
Definition classify (errorMsg : string) : ErrorCategory :=
  if Strings.Contains errorMsg "exit status 1" then
    if Strings.Contains errorMsg "CC" || Strings.Contains errorMsg "gcc"
    then MissingCrossCompiler
    else if Strings.Contains errorMsg "unknown architecture"
            || Strings.Contains errorMsg "unknown OS"
    then UnsupportedPlatform
    else if Strings.Contains errorMsg "connection"
            || Strings.Contains errorMsg "network"
    then NetworkFailure
    else BuildProcessFailure
  else Generic.

(** The error the handler returns in each branch. *)
Definition buildError (errorMsg platform : string) : string :=
  match classify errorMsg with
  | MissingCrossCompiler =>
      "cross-compiler error: required cross-compiler not found or failed. For Windows targets, ensure mingw-w64 is installed. For Linux targets, ensure gcc is installed"
  | UnsupportedPlatform =>
      "unsupported platform: " +:+ platform
        +:+ " - please choose a supported OS/architecture combination"
  | NetworkFailure =>
      "network error while building implant: server may be unavailable or connection disrupted"
  | BuildProcessFailure =>
      "build failed: compilation error during implant generation - check server logs for details"
  | Generic =>
      "failed to generate implant: " +:+ errorMsg +:+ " - check server logs for more details"
  end.

(** *** Execution output *)

(** The Windows branch of [HandleExecute], steps 1 to 3. *)
Definition normalizeWindowsOutput (outputStr : string) : string :=
  let outputStr := Strings.ReplaceAll outputStr NUL "" in
  let outputStr := Strings.ReplaceAll outputStr (CR +:+ LF) "##CRLF##" in
  let outputStr := Strings.ReplaceAll outputStr CR LF in
  let outputStr := Strings.ReplaceAll outputStr "##CRLF##" LF in
  Strings.TrimSpace outputStr.

(** [execute.Response != nil && execute.Response.GetErr() != ""]: the
    error text the session reported, if any. *)
Definition reportedErr (execute : Execute) : option string :=
  match ExecResponse execute with
  | Some response =>
      if String.eqb (Err response) "" then None else Some (Err response)
  | None => None
  end.

(** [output]: standard output, or standard error when that is empty. *)
Definition capturedOutput (execute : Execute) : string :=
  if (String.length (Stdout execute) =? 0)%nat then Stderr execute
  else Stdout execute.

(** [responseText] of [HandleExecute] for the answer of the client. *)
Definition responseText (isWindows : bool) (execute : Execute) : string :=
  match reportedErr execute with
  | Some err => "Failed to execute command: " +:+ err
  | None =>
      let output := capturedOutput execute in
      if (String.length output =? 0)%nat then
        if isWindows
        then "Command executed successfully on Windows (no output). Note that some Windows commands may not produce output when run through cmd.exe or PowerShell."
        else "Command executed successfully (no output)"
      else if isWindows
      then "Output from Windows command:" +:+ LF +:+ normalizeWindowsOutput output
      else "Output:" +:+ LF +:+ output
  end.

(** [isWindows] of [HandleExecute]. *)
Definition isWindowsSession (session : Session) : bool :=
  negb (String.eqb (OS session) "")
  && String.eqb (Strings.ToLower (OS session)) "windows".

Section Handlers.
Context {World : Type} (host : Host World).

(** [%v] and [%+v] of a decoded JSON value ([fmt]). *)
Variable fmt_v : JValue -> string.

(** [int64(x)] of a [float64]. *)
Variable int64 : Z -> Z.

(** [json.Marshal] of a response object. *)
Variable json_Marshal : gmap string JValue -> string.

(** The end of [HandleGenerateImplant], once the server has answered
    with file data: the artifact is written under the output
    directory and the response is serialized.  It reads
    [arguments["includeBinary"]] and [arguments["outputDir"]], the
    name and the configuration, the name and the data of the file. *)
Variable saveImplant :
  bool -> option string -> string -> ImplantConfig -> string -> string ->
  World -> (string + string) * World.

(** The warnings of the ["mtlsc2"] loop, from index [i] on. *)
Fixpoint mtlsWarnings (i : nat) (servers : list JValue) : list string :=
  match servers with
  | [] => []
  | server :: rest =>
      match server with
      | JStr _ => mtlsWarnings (S i) rest
      | _ => ("WARNING: Invalid mtlsc2 server format at index " +:+ fmt_d i
                +:+ ": " +:+ fmt_v server +:+ LF) :: mtlsWarnings (S i) rest
      end
  end.

(** "Process C2 configuration": [foundC2Config] and
    [implantConfig.C2] after the chain of [if ... else if]. *)
Definition resolveC2 (configMap : gmap string JValue) :
    M World (bool * list ImplantC2) :=
  match asSlice (configMap !! "c2") with
  | Some (c2Config :: rest) =>
      mret (true, structuredEndpoints 0 (c2Config :: rest))
  | _ =>
      match asSlice (configMap !! "mtlsc2") with
      | Some mtlsC2 =>
          SliverClient.PrintfAll (mtlsWarnings 0 mtlsC2) ;;
          let c2s := prefixedEndpoints "mtls://" 0 mtlsC2 in
          if (List.length c2s =? 0)%nat && (0 <? List.length mtlsC2)%nat
          then throw (NewInvalidArgsError
                        ("invalid mtlsc2 configuration: " +:+ fmt_v (JArr mtlsC2)
                           +:+ " - mtlsc2 must be an array of strings"))
          else mret (true, c2s)
      | None =>
          match asSlice (configMap !! "httpc2") with
          | Some (server :: rest) =>
              mret (true, prefixedEndpoints "http://" 0 (server :: rest))
          | _ =>
              match asSlice (configMap !! "httpsc2") with
              | Some (server :: rest) =>
                  mret (true, prefixedEndpoints "https://" 0 (server :: rest))
              | _ =>
                  match asString (configMap !! "c2") with
                  | Some (String c u) =>
                      mret (true, [ {| Priority := 0; URL := String c u |} ])
                  | _ => mret (false, [])
                  end
              end
          end
      end
  end.

(** The optional flags, copied when present with the right type. *)
Definition copyFlags (configMap : gmap string JValue) (c : ImplantConfig) :
    ImplantConfig :=
  let c := match asBool (configMap !! "isBeacon") with
           | Some isBeacon => set_IsBeacon isBeacon c | None => c end in
  let c := match asFloat64 (configMap !! "beaconInterval") with
           | Some beaconInterval => set_BeaconInterval (int64 beaconInterval) c
           | None => c end in
  let c := match asFloat64 (configMap !! "beaconJitter") with
           | Some beaconJitter => set_BeaconJitter (int64 beaconJitter) c
           | None => c end in
  let c := match asBool (configMap !! "debug") with
           | Some debug => set_Debug debug c | None => c end in
  let c := match asBool (configMap !! "evasion") with
           | Some evasion => set_Evasion evasion c | None => c end in
  match asBool (configMap !! "obfuscateSymbols") with
  | Some obfuscateSymbols => set_ObfuscateSymbols obfuscateSymbols c
  | None => c
  end.

(** "Check for required toolchain components". *)
Definition checkToolchain (c : ImplantConfig) : M World unit :=
  if String.eqb (GOOS c) "windows" && String.eqb (GOARCH c) "amd64" then
    let compilerPath := "/usr/bin/x86_64-w64-mingw32-gcc" in
    missing ← readWorld (statNotExist host compilerPath);
    if (missing : bool)
    then throw ("missing required compiler for Windows/amd64: " +:+ compilerPath
                  +:+ " - please install mingw-w64 package")
    else mret tt
  else if String.eqb (GOOS c) "windows" && String.eqb (GOARCH c) "386" then
    let compilerPath := "/usr/bin/i686-w64-mingw32-gcc" in
    missing ← readWorld (statNotExist host compilerPath);
    if (missing : bool)
    then throw ("missing required compiler for Windows/386: " +:+ compilerPath
                  +:+ " - please install mingw-w64 package")
    else mret tt
  else mret tt.

(** [client.Generate] and what the handler makes of its error. *)
Definition generateImplant (implantConfig : ImplantConfig)
    (implantName platform : string) : M World (ImplantConfig * Generate) :=
  r ← attempt (SliverClient.Generate host implantConfig implantName);
  match r with
  | inl errorMsg => throw (buildError errorMsg platform)
  | inr answer => mret answer
  end.

(** [HandleGenerateImplant] from "Process C2 configuration" on:
    [implantConfig] holds the platform and the format, [platform] is
    their joined text. *)
Definition composeAndGenerate (arguments configMap : gmap string JValue)
    (implantConfig : ImplantConfig) (platform : string) : M World string :=
  let includeBinary :=
    match asBool (arguments !! "includeBinary") with
    | Some includeParam => includeParam
    | None => false
    end in
  '(foundC2Config, c2s) ← resolveC2 configMap;
  let implantConfig := set_C2 c2s implantConfig in
  if negb foundC2Config || (List.length (C2 implantConfig) =? 0)%nat
  then throw noC2Error
  else
    match validateC2URLs 0 (C2 implantConfig) with
    | Some err => throw err
    | None =>
        let implantConfig := copyFlags configMap implantConfig in
        let implantName :=
          match asString (arguments !! "name") with
          | Some (String c n) => String c n
          | _ => "generated-implant"
          end in
        Printf ("Generating implant with platform: " +:+ platform
                  +:+ ", format: "
                  +:+ OutputFormat_String (Format implantConfig) +:+ LF) ;;
        Printf ("C2 Endpoints: " +:+ fmt_d (List.length (C2 implantConfig))
                  +:+ " configured" +:+ LF) ;;
        checkToolchain implantConfig ;;
        '(implantConfig, generate) ←
          generateImplant implantConfig implantName platform;
        match GenFile generate with
        | Some (mkFile fileName (Some data)) =>
            io (saveImplant includeBinary
                  (asString (arguments !! "outputDir"))
                  implantName implantConfig fileName data)
        | _ =>
            throw "failed to generate implant: no file data returned from server - build may have failed"
        end
    end.

Definition HandleGenerateImplant (arguments : gmap string JValue) : M World string :=
  match asMap (arguments !! "config") with
  | None =>
      throw (NewInvalidArgsError
               "config must be an object with OS, architecture, and C2 configuration")
  | Some configMap =>
      let implantConfig := platformConfig configMap in
      let platform := platformOf implantConfig in
      match supportedPlatforms !! platform with
      | None => throw (unsupportedPlatformError platform)
      | Some _ =>
          let implantConfig := set_Format EXECUTABLE implantConfig in
          match generateFormatWarning configMap with
          | Some warning => Printf warning
          | None => mret tt
          end ;;
          composeAndGenerate arguments configMap implantConfig platform
      end
  end.

(** The ["c2"] entry as [HandleSaveImplantProfile] reads it. *)
Definition profileC2 (configMap : gmap string JValue) : list ImplantC2 :=
  match asSlice (configMap !! "c2") with
  | Some c2Configs => structuredEndpoints 0 c2Configs
  | None =>
      match asString (configMap !! "c2") with
      | Some c2URL => [ {| Priority := 0; URL := c2URL |} ]
      | None => []
      end
  end.

(** [HandleSaveImplantProfile] from "Log format configuration" on. *)
Definition composeAndSave (name : string) (configMap : gmap string JValue)
    (implantConfig : ImplantConfig) : M World string :=
  Printf ("Profile format: Format="
            +:+ fmt_d (OutputFormat_number (Format implantConfig))
            +:+ ", IsSharedLib=" +:+ fmt_bool (IsSharedLib implantConfig)
            +:+ ", IsShellcode=" +:+ fmt_bool (IsShellcode implantConfig)
            +:+ ", IsService=" +:+ fmt_bool (IsService implantConfig) +:+ LF) ;;
  let implantConfig := set_C2 (profileC2 configMap) implantConfig in
  let implantConfig := copyFlags configMap implantConfig in
  let profile := {| ProfileName := name; Config := Some implantConfig |} in
  savedProfile ← SliverClient.SaveImplantProfile host profile;
  match Config savedProfile with
  | None => panic nilDereference
  | Some config =>
      mret (json_Marshal
              {[ "name" := JStr (ProfileName savedProfile);
                 "os" := JStr (GOOS config);
                 "arch" := JStr (GOARCH config);
                 "format" := JStr (OutputFormat_String (Format config));
                 "isBeacon" := JBool (IsBeacon config) ]})
  end.

Definition HandleSaveImplantProfile (arguments : gmap string JValue) : M World string :=
  match asString (arguments !! "name") with
  | Some (String c n) =>
      let name := String c n in
      match asMap (arguments !! "config") with
      | None => throw (NewInvalidArgsError "config must be an object")
      | Some configMap =>
          let implantConfig := platformConfig configMap in
          let implantConfig := set_Format EXECUTABLE implantConfig in
          match profileFormatWarning configMap with
          | Some warning => Printf warning
          | None => mret tt
          end ;;
          composeAndSave name configMap implantConfig
      end
  | _ => throw (NewInvalidArgsError "name must be a non-empty string")
  end.

Definition HandleExecute (arguments : gmap string JValue) : M World string :=
  match asString (arguments !! "sessionID") with
  | None => throw (NewInvalidArgsError "sessionID must be a string")
  | Some sessionID =>
      match asString (arguments !! "command") with
      | None => throw (NewInvalidArgsError "command must be a string")
      | Some command =>
          r ← attempt (SliverClient.GetSession host sessionID);
          match r with
          | inl err => throw ("failed to get session info: " +:+ err)
          | inr session =>
              let isWindows := isWindowsSession session in
              execute ← SliverClient.Execute host sessionID command;
              mret (responseText isWindows execute)
          end
      end
  end.

End Handlers.
End Tools.

(* ================================================================= *)
(** ** The specification's reading of the engine *)

Module Spec.

(** "strip NUL bytes" *)
Fixpoint stripNUL (s : string) : string :=
  match s with
  | EmptyString => EmptyString
  | String c s' =>
      if Ascii.eqb c "000" then stripNUL s' else String c (stripNUL s')
  end.

(** "mark CRLF": every carriage return followed by a line feed becomes
    the temporary marker. *)
Fixpoint markCRLF (s : string) : string :=
  match s with
  | String c (String d s'' as s') =>
      if Ascii.eqb c "013" && Ascii.eqb d "010"
      then "##CRLF##" +:+ markCRLF s''
      else String c (markCRLF s')
  | _ => s
  end.

(** "convert bare CR to LF" *)
Fixpoint crToLF (s : string) : string :=
  match s with
  | EmptyString => EmptyString
  | String c s' =>
      String (if Ascii.eqb c "013" then "010"%char else c) (crToLF s')
  end.

(** "restore marked CRLF to LF" *)
Definition restoreCRLF (s : string) : string :=
  Strings.ReplaceAll s "##CRLF##" LF.

(** Output normalization (4.4, step 4). *)
Definition normalize (output : string) : string :=
  Strings.TrimSpace (restoreCRLF (crToLF (markCRLF (stripNUL output)))).

(** "no embedded NUL bytes" *)
Definition noNUL (s : string) : bool := negb (Strings.Contains s NUL).

(** "no bare carriage returns": every carriage return is followed by a
    line feed. *)
Fixpoint noBareCR (s : string) : bool :=
  match s with
  | EmptyString => true
  | String c s' =>
      (negb (Ascii.eqb c "013") || Strings.HasPrefix s' LF) && noBareCR s'
  end.

Definition normalizedText (s : string) : Prop :=
  noNUL s = true /\ noBareCR s = true.

(** The six supported platform pairs. *)
Definition supportedPairs : list (string * string) :=
  [ ("windows", "amd64"); ("windows", "386");
    ("linux", "amd64"); ("linux", "386");
    ("darwin", "amd64"); ("darwin", "arm64") ].

(** The alias tables of 4.1. *)
Definition osAliases : list (string * string) :=
  [ ("mac", "darwin"); ("macos", "darwin"); ("osx", "darwin");
    ("win", "windows"); ("lin", "linux") ].

Definition archAliases : list (string * string) :=
  [ ("x64", "amd64"); ("x86_64", "amd64"); ("amd64", "amd64");
    ("64", "amd64"); ("64bit", "amd64");
    ("x86", "386"); ("i386", "386"); ("386", "386"); ("32", "386");
    ("32bit", "386"); ("arm64", "arm64"); ("aarch64", "arm64") ].

(** The markers the Error Classifier looks for in the error text of a
build, in the order of the chain. *)
Definition knownMarkers : list string :=
  [ "CC"; "gcc"; "mingw"; "go build"; "exit status";
    "connect"; "network"; "connection" ].

Definition unmarked (err : string) : Prop :=
  Forall (fun marker => Strings.Contains err marker = false) knownMarkers.

(** The claim that a request whose two attempts failed surfaces the
    error text of the fallback as the Error Classifier renders it. *)
Definition surfacedByClassifier (surfaced raw : string) : Prop :=
  exists platform format,
    surfaced = SliverClient.generateError raw platform format.

End Spec.

(* ================================================================= *)
(** ** Concrete hosts and requests *)

(** A server with a fixed session list whose answers to [Execute] are
    scripted: the world is the list of answers still to give.  Builds are
    answered with [gen]; profiles are saved as sent.  The compilers are
    installed and the environment is empty. *)
Definition scriptedHost (sessions : list Session) (gen : string + Generate) :
    Host (list (string + Execute)) :=
  {| rpcGetSessions := fun w => (inr sessions, w);
     rpcExecute := fun _ w =>
       match w with
       | answer :: w' => (answer, w')
       | [] => (inl "rpc error: no answer", [])
       end;
     rpcGenerate := fun _ w => (gen, w);
     rpcSaveImplantProfile := fun profile w => (inr profile, w);
     statNotExist := fun _ _ => false;
     getenv := fun _ _ => "" |}.

Definition linuxSession : Session := {| ID := "s1"; OS := "linux" |}.
Definition windowsSession : Session := {| ID := "s2"; OS := "Windows" |}.

Definition sessions0 : list Session := [linuxSession; windowsSession].

Definition host0 : Host (list (string + Execute)) :=
  scriptedHost sessions0 (inl "exit status 1: gcc not found").

Definition fmt_v0 (v : JValue) : string := "<value>".
Definition int64_0 (x : Z) : Z := x.
Definition json_Marshal0 (m : gmap string JValue) : string := "{}".
Definition saveImplant0 (includeBinary : bool) (outputDir : option string)
    (name : string) (c : ImplantConfig) (fileName data : string)
    (w : list (string + Execute)) : (string + string) * list (string + Execute) :=
  (inr "saved", w).

Definition executeArgs (sessionID command : string) : gmap string JValue :=
  {[ "sessionID" := JStr sessionID; "command" := JStr command ]}.

Definition configArgs (configMap : gmap string JValue) : gmap string JValue :=
  {[ "config" := JObj configMap ]}.

Definition bashReq (sessionID command : string) : ExecuteReq :=
  {| SessionID := sessionID; Path := "/bin/bash"; Args := ["-c"; command];
     Output := true |}.

Definition shReq (sessionID command : string) : ExecuteReq :=
  {| SessionID := sessionID; Path := "/bin/sh"; Args := ["-c"; command];
     Output := true |}.

(** A request with one endpoint, for a name [p1]. *)
Definition sampleConfig : gmap string JValue :=
  {[ "os" := JStr "linux"; "mtlsc2" := JArr [JStr "10.0.0.1:8888"] ]}.

Definition unsupportedConfig : gmap string JValue :=
  {[ "os" := JStr "darwin"; "arch" := JStr "386";
     "c2" := JArr [JObj {[ "url" := JStr "mtls://10.0.0.1:8888" ]}] ]}.

Definition sampleArgs : gmap string JValue := {[ "name" := JStr "p1" ]}.

Definition sampleWindowsOutput : string :=
  "line1" +:+ CR +:+ LF +:+ NUL +:+ "line2" +:+ CR.

(* ================================================================= *)
(** ** Predicates used in the statements *)

(** The byte [c] does not occur in [s]. *)
Fixpoint absent (c : ascii) (s : string) : bool :=
  match s with
  | EmptyString => true
  | String d s' => negb (Ascii.eqb d c) && absent c s'
  end.

(** [m] succeeds, leaves the world as it is and emits printed lines
    only. *)
Definition printsOnly {World A} (m : M World A) : Prop :=
  forall w, exists x lines, m w = (inr x, w, EvPrintf <$> lines).

(** Every configuration [m] sends to the server satisfies [P]. *)
Definition sendsOnly {World} (P : ImplantConfig -> Prop) {A} (m : M World A) : Prop :=
  forall w, Forall P (configsSent (m w).2).

(** An entry that is no slice with at least one element. *)
Definition noElements (v : option JValue) : Prop :=
  forall x xs, asSlice v <> Some (x :: xs).

Definition httpFormatError (i : nat) (url : string) : string :=
  NewInvalidArgsError
    ("invalid HTTP(S) URL format at index " +:+ fmt_d i +:+ ": " +:+ url
       +:+ " - format should include host, e.g., http://domain.com").

(** What a request comes to once its endpoints are the list [servers]
    read under the scheme [scheme]. *)
Definition bareHostsRejected {World} (host : Host World)
    (fmt_v : JValue -> string) (int64 : Z -> Z)
    (saveImplant : bool -> option string -> string -> ImplantConfig -> string ->
                   string -> World -> (string + string) * World)
    (scheme : string) (arguments configMap : gmap string JValue)
    (servers : list JValue) (w : World) : Prop :=
  (forall ep, ep ∈ Tools.prefixedEndpoints scheme 0 servers ->
     Strings.Count (URL ep) "/" = 2%nat)
  /\ (exists e, (Tools.HandleGenerateImplant host fmt_v int64 saveImplant arguments w).1.1 = inl e)
  /\ configsSent (Tools.HandleGenerateImplant host fmt_v int64 saveImplant arguments w).2 = []
  /\ (forall ep eps,
        Tools.prefixedEndpoints scheme 0 servers = ep :: eps ->
        is_Some (supportedPlatforms !! Tools.platformOf (Tools.platformConfig configMap)) ->
        (Tools.HandleGenerateImplant host fmt_v int64 saveImplant arguments w).1.1
        = inl (httpFormatError 0 (URL ep))).

(** The lines a handler prints on account of the requested format. *)
Definition warningLines (warning : option string) : list string :=
  match warning with Some t => [t] | None => [] end.

(* ================================================================= *)
(** ** Requests, reference functions and hosts for the further properties *)

(** The two requests [Execute] sends for a Windows session. *)
Definition cmdReq (sessionID command : string) : ExecuteReq :=
  {| SessionID := sessionID; Path := "cmd.exe";
     Args := ["/D"; "/u"; "/V:OFF"; "/C"; command]; Output := true |}.

Definition psReq (sessionID command : string) : ExecuteReq :=
  {| SessionID := sessionID; Path := "powershell.exe";
     Args := ["-NoProfile"; "-NonInteractive"; "-OutputFormat"; "Text"; "-Command";
              "$OutputEncoding = [System.Text.Encoding]::UTF8; " +:+ command
                +:+ "; exit $LASTEXITCODE"];
     Output := true |}.

(** The request of the first attempt, by the OS the session reports. *)
Definition primaryReq (session : Session) (sessionID command : string) : ExecuteReq :=
  if String.eqb (Strings.ToLower (OS session)) "windows"
  then cmdReq sessionID command else bashReq sessionID command.

(** Line endings unified in one pass: every CRLF and every lone CR
    becomes one LF.  What the comments of step 2 of the Windows branch
    of [HandleExecute] aim at. *)
Fixpoint unifyLineEndings (s : string) : string :=
  match s with
  | EmptyString => EmptyString
  | String c s' =>
      if Ascii.eqb c "013" then
        match s' with
        | String d s'' =>
            if Ascii.eqb d "010" then String "010" (unifyLineEndings s'')
            else String "010" (unifyLineEndings s')
        | EmptyString => String "010" EmptyString
        end
      else String c (unifyLineEndings s')
  end.

(** A server whose session list changes between two calls: the session
    [s1] is listed with the OS [windows] at the first call and with
    [linux] from then on.  The world tells whether the list has been
    asked for. *)
Definition relistingHost : Host bool :=
  {| rpcGetSessions := fun asked =>
       (inr [ {| ID := "s1"; OS := if (asked : bool) then "linux" else "windows" |} ],
        true);
     rpcExecute := fun _ w => (inr (mkExecute "uid=0" "" None), w);
     rpcGenerate := fun _ w => (inl "rpc error: unavailable", w);
     rpcSaveImplantProfile := fun _ w => (inl "rpc error: unavailable", w);
     statNotExist := fun _ _ => false;
     getenv := fun _ _ => "" |}.

(** A server that cannot be reached: every RPC fails. *)
Definition offlineHost : Host unit :=
  {| rpcGetSessions := fun w => (inl "rpc error: unavailable", w);
     rpcExecute := fun _ w => (inl "rpc error: unavailable", w);
     rpcGenerate := fun _ w => (inl "rpc error: unavailable", w);
     rpcSaveImplantProfile := fun _ w => (inl "rpc error: unavailable", w);
     statNotExist := fun _ _ => true;
     getenv := fun _ _ => "" |}.

Definition saveImplantUnit (includeBinary : bool) (outputDir : option string)
    (name : string) (c : ImplantConfig) (fileName data : string) (w : unit) :
    (string + string) * unit :=
  (inr ("saved " +:+ fileName), w).

(** A server that builds: the answer to [Generate] is [gen]. *)
Definition buildHost (gen : string + Generate) : Host (list (string + Execute)) :=
  scriptedHost sessions0 gen.

Definition builtFile : Generate :=
  {| GenFile := Some {| FileName := "implant.bin"; Data := Some "ELF" |} |}.

(** [implantName] of [HandleGenerateImplant]: the ["name"] argument
    when it is a non-empty string. *)
Definition implantName (arguments : gmap string JValue) : string :=
  match asString (arguments !! "name") with
  | Some (String c n) => String c n
  | _ => "generated-implant"
  end.

(** [implantConfig] of [HandleGenerateImplant] at the call of
    [client.Generate], for the endpoints [c2s]. *)
Definition composedConfig (int64 : Z -> Z) (configMap : gmap string JValue)
    (c2s : list ImplantC2) : ImplantConfig :=
  Tools.copyFlags int64 configMap
    (set_C2 c2s (set_Format EXECUTABLE (Tools.platformConfig configMap))).

(** What holds of a configuration a build is asked for. *)
Definition wellFormedBuild (arguments : gmap string JValue) (c : ImplantConfig) : Prop :=
  is_Some (supportedPlatforms !! Tools.platformOf c)
  /\ C2 c <> []
  /\ Tools.validateC2URLs 0 (C2 c) = None
  /\ Name c = implantName arguments
  /\ Name c <> ""
  /\ Format c = EXECUTABLE
  /\ IsSharedLib c = false /\ IsShellcode c = false /\ IsService c = false.

(** The compiler [checkToolchain] looks for, by the architecture of a
    Windows target. *)
Definition mingwCompiler (goarch : string) : string :=
  if String.eqb goarch "amd64" then "/usr/bin/x86_64-w64-mingw32-gcc"
  else "/usr/bin/i686-w64-mingw32-gcc".

(** The profile [HandleSaveImplantProfile] hands to the server. *)
Definition composedProfile (int64 : Z -> Z) (name : string)
    (configMap : gmap string JValue) : ImplantProfile :=
  {| ProfileName := name;
     Config := Some (Tools.copyFlags int64 configMap
                       (set_C2 (Tools.profileC2 configMap)
                          (set_Format EXECUTABLE (Tools.platformConfig configMap)))) |}.

(** A server whose answer to [SaveImplantProfile] is a profile without
    [Config]. *)
Definition configlessHost : Host (list (string + Execute)) :=
  {| rpcGetSessions := fun w => (inr sessions0, w);
     rpcExecute := fun _ w => (inl "rpc error: no answer", w);
     rpcGenerate := fun _ w => (inl "rpc error: no answer", w);
     rpcSaveImplantProfile := fun profile w =>
       (inr {| ProfileName := ProfileName profile; Config := None |}, w);
     statNotExist := fun _ _ => false;
     getenv := fun _ _ => "" |}.

(** The entries of ["config"] that [HandleSaveImplantProfile] reads, and
    those [HandleGenerateImplant] reads. *)
Definition profileKeys : list string :=
  [ "OS"; "os"; "arch"; "format"; "c2"; "isBeacon"; "beaconInterval";
    "beaconJitter"; "debug"; "evasion"; "obfuscateSymbols" ].

Definition buildKeys : list string :=
  profileKeys ++ [ "mtlsc2"; "httpc2"; "httpsc2" ].

(** A request for a Windows build, and one whose empty ["mtlsc2"] stands
    before an ["httpc2"] list. *)
Definition windowsConfig : gmap string JValue :=
  {[ "mtlsc2" := JArr [JStr "10.0.0.1:8888"] ]}.

Definition emptyMtlsConfig : gmap string JValue :=
  {[ "os" := JStr "linux"; "mtlsc2" := JArr [];
     "httpc2" := JArr [JStr "http://example.com/"] ]}.

(** A structured endpoint that names a port and no URL. *)
Definition portOnlyEndpoint : gmap string JValue := {[ "port" := JStr "8888" ]}.

Definition portOnlyConfig : gmap string JValue :=
  {[ "os" := JStr "linux"; "c2" := JArr [JObj portOnlyEndpoint] ]}.

(** Text made of NUL and ASCII white space only: TAB, LF, VT, FF, CR,
    SPACE. *)
Fixpoint blank (s : string) : bool :=
  match s with
  | EmptyString => true
  | String c s' =>
      (Ascii.eqb c "000" || Ascii.eqb c "009" || Ascii.eqb c "010"
       || Ascii.eqb c "011" || Ascii.eqb c "012" || Ascii.eqb c "013"
       || Ascii.eqb c " ") && blank s'
  end.

(* ================================================================= *)
(** ** The string functions on samples *)

Example ToLower_ex : Strings.ToLower "X86_64" = "x86_64".
Proof. reflexivity. Qed.

(** Beyond ASCII: [L], U+0130, [NUX]; [WIND], U+00D6, [WS]; a byte that
    is no UTF-8. *)
Example ToLower_unicode :
  Strings.ToLower (Utf8.EncodeRune 76 +:+ Utf8.EncodeRune 304 +:+ "NUX") = "linux"
  /\ Strings.ToLower ("WIND" +:+ Utf8.EncodeRune 214 +:+ "WS")
     = "wind" +:+ Utf8.EncodeRune 246 +:+ "ws"
  /\ Strings.ToLower (String (Utf8.byte 255) "A") = Utf8.EncodeRune Utf8.RuneError +:+ "a".
Proof. repeat split; vm_compute; reflexivity. Qed.

Example ReplaceAll_ex : Strings.ReplaceAll "aXXXb" "XX" "-" = "a-Xb".
Proof. reflexivity. Qed.

Example Split_ex :
  Strings.Split "a:b" ":" = ["a"; "b"] /\ Strings.Split "" ":" = [""] /\
  Strings.Split "h:1:" ":" = ["h"; "1"; ""].
Proof. repeat split. Qed.

Example Count_ex : Strings.Count "http://h/p" "/" = 3%nat.
Proof. reflexivity. Qed.

Example TrimSpace_ex :
  Strings.TrimSpace (String "009" (String "194" (String "160" " a b
"))) = "a b".
Proof. vm_compute. reflexivity. Qed.

Example fmt_d_ex : fmt_d 0 = "0" /\ fmt_d 12 = "12".
Proof. split; reflexivity. Qed.

(* ================================================================= *)
(** ** Facts about the string functions *)

#[local] Arguments String.append !_ _ / : simpl nomatch.

Lemma append_nil_r (s : string) : s +:+ "" = s.
Proof. induction s as [|c s IH]; simpl; [reflexivity | now f_equal]. Qed.

Lemma append_assoc (a b c : string) : (a +:+ b) +:+ c = a +:+ (b +:+ c).
Proof. induction a as [|x a IH]; simpl; [reflexivity | now f_equal]. Qed.

Lemma lowerByte_idem (c : ascii) :
  Strings.lowerByte (Strings.lowerByte c) = Strings.lowerByte c.
Proof. destruct c as [[] [] [] [] [] [] [] []]; reflexivity. Qed.

Lemma lowerASCII_idem (s : string) :
  Strings.lowerASCII (Strings.lowerASCII s) = Strings.lowerASCII s.
Proof.
  induction s as [|c s IH]; [reflexivity|]. simpl.
  now rewrite lowerByte_idem, IH.
Qed.

(** *** UTF-8: what is decoded is a scalar value, and the encoding of a
    scalar value decodes to it *)

Ltac divlia := zify; Z.to_euclidean_division_equations; lia.

Lemma ValidRune_spec (r : N) :
  Utf8.ValidRune r = true <-> ((r < 55296 \/ 57343 < r) /\ r <= 1114111)%N.
Proof.
  unfold Utf8.ValidRune, Utf8.MaxRune.
  rewrite orb_true_iff, andb_true_iff, !N.ltb_lt, N.leb_le. lia.
Qed.

Lemma between_spec (lo hi b : N) :
  Utf8.between lo hi b = true <-> (lo <= b /\ b <= hi)%N.
Proof. unfold Utf8.between. rewrite andb_true_iff, !N.leb_le. tauto. Qed.

Lemma between_true (lo hi b : N) : (lo <= b)%N -> (b <= hi)%N -> Utf8.between lo hi b = true.
Proof. intros. now apply between_spec. Qed.

Lemma between_false (lo hi b : N) : (b < lo \/ hi < b)%N -> Utf8.between lo hi b = false.
Proof.
  intros H. destruct (Utf8.between lo hi b) eqn:E; [|reflexivity].
  apply between_spec in E. lia.
Qed.

Lemma N_of_byte (n : N) : (n < 256)%N -> N_of_ascii (Utf8.byte n) = n.
Proof. apply N_ascii_embedding. Qed.

Lemma DecodeRuneInString_valid (s : string) :
  Utf8.ValidRune (Utf8.DecodeRuneInString s).1 = true.
Proof.
  destruct s as [|c0 s1]; [reflexivity|]. cbn [Utf8.DecodeRuneInString].
  pose proof (N_ascii_bounded c0) as B0. cbv zeta.
  destruct (N.ltb_spec (N_of_ascii c0) 128); [apply ValidRune_spec; cbn [fst]; lia|].
  destruct (Utf8.between 194 223 (N_of_ascii c0)) eqn:E1.
  { apply between_spec in E1. destruct s1 as [|c1 s2]; [reflexivity|].
    destruct (Utf8.between 128 191 (N_of_ascii c1)) eqn:E2; [|reflexivity].
    apply between_spec in E2. apply ValidRune_spec. cbn [fst]. lia. }
  destruct (Utf8.between 224 239 (N_of_ascii c0)) eqn:E2.
  { apply between_spec in E2. destruct s1 as [|c1 [|c2 s3]]; try reflexivity.
    destruct (_ && _) eqn:E3; [|reflexivity].
    apply andb_true_iff in E3 as [E3 E4].
    apply between_spec in E3, E4. apply ValidRune_spec. cbn [fst].
    destruct (N.eqb_spec (N_of_ascii c0) 224), (N.eqb_spec (N_of_ascii c0) 237); lia. }
  destruct (Utf8.between 240 244 (N_of_ascii c0)) eqn:E3; [|reflexivity].
  apply between_spec in E3. destruct s1 as [|c1 [|c2 [|c3 s4]]]; try reflexivity.
  destruct (_ && _ && _) eqn:E4; [|reflexivity].
  apply andb_true_iff in E4 as [E4 E6]. apply andb_true_iff in E4 as [E4 E5].
  apply between_spec in E4, E5, E6. apply ValidRune_spec. cbn [fst].
  destruct (N.eqb_spec (N_of_ascii c0) 240), (N.eqb_spec (N_of_ascii c0) 244); lia.
Qed.

(** The encoding of a scalar value, followed by anything, decodes to
    that value with the width of the encoding. *)
Lemma Decode_Encode (r : N) (rest : string) :
  Utf8.ValidRune r = true ->
  Utf8.DecodeRuneInString (Utf8.EncodeRune r +:+ rest)
  = (r, String.length (Utf8.EncodeRune r))
  /\ (0 < String.length (Utf8.EncodeRune r))%nat.
Proof.
  intros Hv. apply ValidRune_spec in Hv. unfold Utf8.EncodeRune.
  destruct (N.ltb_spec r 128).
  { cbn [String.append Utf8.DecodeRuneInString String.length]. cbv zeta.
    rewrite N_of_byte by lia.
    destruct (N.ltb_spec r 128); [split; [reflexivity | lia] | lia]. }
  destruct (N.ltb_spec r 2048).
  { cbn [String.append Utf8.DecodeRuneInString String.length]. cbv zeta.
    rewrite !N_of_byte by divlia.
    destruct (N.ltb_spec (192 + r / 64) 128); [divlia|].
    rewrite (between_true 194 223) by divlia.
    rewrite (between_true 128 191) by divlia.
    split; [f_equal; divlia | lia]. }
  rewrite (proj2 (N.ltb_ge Utf8.MaxRune r)) by (unfold Utf8.MaxRune; lia).
  rewrite (between_false 55296 57343 r) by lia. cbn [orb].
  destruct (N.ltb_spec r 65536).
  { unfold Utf8.encode3.
    cbn [String.append Utf8.DecodeRuneInString String.length]. cbv zeta.
    rewrite !N_of_byte by divlia.
    destruct (N.ltb_spec (224 + r / 4096) 128); [divlia|].
    rewrite (between_false 194 223) by divlia.
    rewrite (between_true 224 239) by divlia.
    rewrite (between_true _ _ (128 + (r / 64) mod 64))
      by (destruct (N.eqb_spec (224 + r / 4096) 224), (N.eqb_spec (224 + r / 4096) 237);
          divlia).
    rewrite (between_true 128 191) by divlia. cbn [andb].
    split; [f_equal; divlia | lia]. }
  cbn [String.append Utf8.DecodeRuneInString String.length]. cbv zeta.
  rewrite !N_of_byte by divlia.
  destruct (N.ltb_spec (240 + r / 262144) 128); [divlia|].
  rewrite (between_false 194 223) by divlia.
  rewrite (between_false 224 239) by divlia.
  rewrite (between_true 240 244) by divlia.
  rewrite (between_true _ _ (128 + (r / 4096) mod 64))
    by (destruct (N.eqb_spec (240 + r / 262144) 240), (N.eqb_spec (240 + r / 262144) 244);
        divlia).
  rewrite !(between_true 128 191) by divlia. cbn [andb].
  split; [f_equal; divlia | lia].
Qed.

(** *** The table of [unicode.ToLower] *)

(** Checked on the runes of every range: the lower-case form is a scalar
    value that [unicode.ToLower] leaves as it is. *)
Lemma lowerRanges_checked :
  forallb
    (fun cr =>
       (0 <? Unicode.Stride cr)%N
       && forallb
            (fun r =>
               Utf8.ValidRune (Unicode.ToLower r)
               && (Unicode.ToLower (Unicode.ToLower r) =? Unicode.ToLower r)%N
               && ((r <? 128)%N || (128 <=? Unicode.ToLower r)%N
                   || (Unicode.ToLower r <? 65)%N || (90 <? Unicode.ToLower r)%N))
            (Unicode.members cr))
    Unicode.lowerRanges = true.
Proof. vm_compute. reflexivity. Qed.

Lemma inRange_members (r : N) (cr : Unicode.CaseRange) :
  (0 < Unicode.Stride cr)%N ->
  Unicode.inRange r cr = true -> r ∈ Unicode.members cr.
Proof.
  intros Hs H. unfold Unicode.inRange in H.
  apply andb_true_iff in H as [H Hm]. apply andb_true_iff in H as [Hlo Hhi].
  apply N.leb_le in Hlo, Hhi. apply N.eqb_eq in Hm.
  unfold Unicode.members. apply list_elem_of_fmap.
  exists (N.to_nat ((r - Unicode.Lo cr) / Unicode.Stride cr)). split.
  - rewrite N2Nat.id.
    pose proof (N.div_mod (r - Unicode.Lo cr) (Unicode.Stride cr) ltac:(lia)) as D.
    rewrite Hm in D. lia.
  - assert ((r - Unicode.Lo cr) / Unicode.Stride cr
            <= (Unicode.Hi cr - Unicode.Lo cr) / Unicode.Stride cr)%N
      by (apply N.Div0.div_le_mono; lia).
    revert H. generalize ((r - Unicode.Lo cr) / Unicode.Stride cr)%N
                         ((Unicode.Hi cr - Unicode.Lo cr) / Unicode.Stride cr)%N.
    intros q q' H. apply elem_of_seq. lia.
Qed.

Lemma ToLower_cases (r : N) :
  Unicode.ToLower r = r
  \/ exists cr, cr ∈ Unicode.lowerRanges /\ (0 < Unicode.Stride cr)%N
                /\ r ∈ Unicode.members cr.
Proof.
  unfold Unicode.ToLower.
  destruct (List.find (Unicode.inRange r) Unicode.lowerRanges) as [cr|] eqn:E;
    [|now left].
  right. apply List.find_some in E as [Hin Hr]. exists cr.
  pose proof lowerRanges_checked as C. rewrite forallb_forall in C.
  specialize (C cr Hin). apply andb_true_iff in C as [Hs _].
  apply N.ltb_lt in Hs. split; [now apply list_elem_of_In|].
  split; [exact Hs | now apply inRange_members].
Qed.

Lemma ToLower_checked (r : N) :
  (Utf8.ValidRune r = true -> Utf8.ValidRune (Unicode.ToLower r) = true)
  /\ Unicode.ToLower (Unicode.ToLower r) = Unicode.ToLower r.
Proof.
  destruct (ToLower_cases r) as [E | (cr & Hin & Hs & Hr)].
  { rewrite !E. now split. }
  pose proof lowerRanges_checked as C. rewrite forallb_forall in C.
  specialize (C cr (proj1 (list_elem_of_In _ _) Hin)).
  apply andb_true_iff in C as [_ C]. rewrite forallb_forall in C.
  specialize (C r (proj1 (list_elem_of_In _ _) Hr)).
  apply andb_true_iff in C as [C _]. apply andb_true_iff in C as [C1 C2].
  apply N.eqb_eq in C2. now split.
Qed.

(** *** [strings.Map] and [strings.ToLower] *)

Lemma mapFrom_skip (mapping : N -> N) (a rest : string) :
  Strings.mapFrom mapping (String.length a) (a +:+ rest)
  = Strings.mapFrom mapping 0 rest.
Proof.
  induction a as [|c a IH]; [now destruct rest|]. exact IH.
Qed.

(** The encoding of a scalar value is read back as one rune. *)
Lemma mapFrom_rune (mapping : N -> N) (r : N) (rest : string) :
  Utf8.ValidRune r = true ->
  Strings.mapFrom mapping 0 (Utf8.EncodeRune r +:+ rest)
  = Utf8.EncodeRune (mapping r) +:+ Strings.mapFrom mapping 0 rest.
Proof.
  intros Hv. destruct (Decode_Encode r rest Hv) as [E Hlen].
  destruct (Utf8.EncodeRune r) as [|c a]; [simpl in Hlen; lia|].
  change (String c a +:+ rest) with (String c (a +:+ rest)) in *.
  cbn [Strings.mapFrom]. rewrite E.
  cbn [String.length Nat.sub]. rewrite Nat.sub_0_r.
  now rewrite mapFrom_skip.
Qed.

Lemma mapFrom_idem (s : string) (skip : nat) :
  Strings.mapFrom Unicode.ToLower 0 (Strings.mapFrom Unicode.ToLower skip s)
  = Strings.mapFrom Unicode.ToLower skip s.
Proof.
  revert skip. induction s as [|c s IH]; intros skip; [reflexivity|].
  destruct skip as [|k]; [|apply IH].
  cbn [Strings.mapFrom].
  pose proof (DecodeRuneInString_valid (String c s)) as Hv.
  destruct (Utf8.DecodeRuneInString (String c s)) as [r width]. cbn [fst] in Hv.
  destruct (ToLower_checked r) as [Hvalid Hidem].
  rewrite mapFrom_rune by now apply Hvalid.
  now rewrite Hidem, IH.
Qed.

Lemma lowerByte_ASCII (c : ascii) :
  (N_of_ascii c <? 128)%N = true ->
  Utf8.EncodeRune (Unicode.ToLower (N_of_ascii c)) = String (Strings.lowerByte c) ""
  /\ (N_of_ascii (Strings.lowerByte c) <? 128)%N = true.
Proof.
  destruct c as [a0 a1 a2 a3 a4 a5 a6 a7].
  destruct a7; [destruct a0, a1, a2, a3, a4, a5, a6; discriminate|].
  intros _. destruct a0, a1, a2, a3, a4, a5, a6; vm_compute; split; reflexivity.
Qed.

(** On an ASCII string the two branches of [strings.ToLower] agree. *)
Lemma Map_ASCII (s : string) :
  Strings.isASCII s = true ->
  Strings.Map Unicode.ToLower s = Strings.lowerASCII s
  /\ Strings.isASCII (Strings.lowerASCII s) = true.
Proof.
  unfold Strings.Map. induction s as [|c s IH]; [now split|].
  cbn [Strings.isASCII]. intros H. apply andb_true_iff in H as [Hc Hs].
  destruct (IH Hs) as [IH1 IH2]. destruct (lowerByte_ASCII c Hc) as [E1 E2].
  cbn [Strings.mapFrom Strings.lowerASCII Strings.isASCII Utf8.DecodeRuneInString].
  cbv zeta. rewrite Hc, E1, E2, IH2. cbn [Nat.sub]. rewrite IH1.
  now split.
Qed.

Lemma ToLower_Map (s : string) :
  Strings.ToLower s = Strings.Map Unicode.ToLower s.
Proof.
  unfold Strings.ToLower. destruct (Strings.isASCII s) eqn:E; [|reflexivity].
  symmetry. now apply Map_ASCII.
Qed.

Lemma ToLower_idem (s : string) :
  Strings.ToLower (Strings.ToLower s) = Strings.ToLower s.
Proof. rewrite !ToLower_Map. apply mapFrom_idem. Qed.

Lemma HasPrefix_refl_app (p s : string) : Strings.HasPrefix (p +:+ s) p = true.
Proof.
  induction p as [|c p IH]; simpl; [reflexivity|].
  now rewrite Ascii.eqb_refl, IH.
Qed.

Lemma HasPrefix_app_l (s t p : string) :
  Strings.HasPrefix s p = true -> Strings.HasPrefix (s +:+ t) p = true.
Proof.
  revert s; induction p as [|c p IH]; intros s H; [reflexivity|].
  destruct s as [|d s]; simpl in *; [discriminate|].
  apply andb_true_iff in H as [-> H]. simpl. now apply IH.
Qed.

Lemma Contains_app_l (s t m : string) :
  Strings.Contains s m = true -> Strings.Contains (s +:+ t) m = true.
Proof.
  induction s as [|c s IH]; simpl; intros H.
  - rewrite orb_false_r in H. destruct m; [|discriminate].
    destruct t; reflexivity.
  - apply orb_true_iff in H as [H|H].
    + change (String c (s +:+ t)) with (String c s +:+ t).
      now rewrite (HasPrefix_app_l _ _ _ H).
    + rewrite (IH H). apply orb_true_r.
Qed.

Lemma Contains_app_r (s t m : string) :
  Strings.Contains t m = true -> Strings.Contains (s +:+ t) m = true.
Proof.
  intros H. induction s as [|c s IH]; simpl; [exact H|].
  rewrite IH. apply orb_true_r.
Qed.

(** An occurrence in a suffix is an occurrence in the string. *)
Lemma Contains_tail (c : ascii) (s m : string) :
  Strings.Contains (String c s) m = false -> Strings.Contains s m = false.
Proof. simpl. intros H. now apply orb_false_iff in H as [_ H]. Qed.

(** *** Bytes that do not occur *)

Lemma absent_app (c : ascii) (a b : string) :
  absent c (a +:+ b) = absent c a && absent c b.
Proof.
  induction a as [|d a IH]; simpl; [reflexivity|].
  now rewrite IH, andb_assoc.
Qed.

Lemma absent_Contains (c : ascii) (s : string) :
  absent c s = negb (Strings.Contains s (String c "")).
Proof.
  induction s as [|d s IH]; simpl; [reflexivity|].
  rewrite IH. destruct s; simpl; destruct (Ascii.eqb d c); reflexivity.
Qed.

Lemma absent_replaceFrom (c : ascii) (old new : string) (skip : nat) (s : string) :
  absent c new = true -> absent c s = true ->
  absent c (Strings.replaceFrom old new skip s) = true.
Proof.
  intros Hnew. revert skip.
  induction s as [|d s IH]; intros skip Hs; simpl; [reflexivity|].
  simpl in Hs. apply andb_true_iff in Hs as [Hd Hs].
  destruct skip as [|k]; [|now apply IH].
  destruct (Strings.HasPrefix (String d s) old).
  - rewrite absent_app, Hnew. now apply IH.
  - simpl. rewrite Hd. now apply IH.
Qed.

(** Replacing a one-byte pattern leaves no occurrence of that byte. *)
Lemma absent_replace_byte (c : ascii) (new s : string) :
  absent c new = true ->
  absent c (Strings.replaceFrom (String c "") new 0 s) = true.
Proof.
  intros Hnew. induction s as [|d s IH]; simpl; [reflexivity|].
  destruct (Ascii.eqb_spec d c) as [->|Hne]; simpl.
  - rewrite absent_app, Hnew. exact IH.
  - rewrite IH. destruct (Ascii.eqb_spec d c); [contradiction | reflexivity].
Qed.

Lemma absent_trimLeftFrom (c : ascii) rs (skip : nat) (s : string) :
  absent c s = true -> absent c (Strings.trimLeftFrom rs skip s) = true.
Proof.
  revert skip. induction s as [|d s IH]; intros skip Hs; simpl; [reflexivity|].
  pose proof Hs as Hs'. simpl in Hs'. apply andb_true_iff in Hs' as [_ Hs'].
  destruct skip as [|k]; [|now apply IH].
  destruct (Strings.spaceWidth rs (String d s)); [exact Hs | now apply IH].
Qed.

Lemma absent_of_list (c : ascii) (l : list ascii) :
  absent c (string_of_list_ascii l) = forallb (fun d => negb (Ascii.eqb d c)) l.
Proof. induction l as [|d l IH]; simpl; [reflexivity | now rewrite IH]. Qed.

Lemma absent_to_list (c : ascii) (s : string) :
  absent c s = forallb (fun d => negb (Ascii.eqb d c)) (list_ascii_of_string s).
Proof. induction s as [|d s IH]; simpl; [reflexivity | now rewrite IH]. Qed.

Lemma forallb_reverse {A} (f : A -> bool) (l : list A) :
  forallb f (reverse l) = forallb f l.
Proof.
  induction l as [|x l IH]; [reflexivity|].
  rewrite reverse_cons, forallb_app, IH. simpl.
  rewrite andb_true_r. apply andb_comm.
Qed.

Lemma absent_revString (c : ascii) (s : string) :
  absent c (Strings.revString s) = absent c s.
Proof.
  unfold Strings.revString.
  now rewrite absent_of_list, absent_to_list, forallb_reverse.
Qed.

Lemma absent_TrimSpace (c : ascii) (s : string) :
  absent c s = true -> absent c (Strings.TrimSpace s) = true.
Proof.
  intros H. unfold Strings.TrimSpace.
  rewrite absent_revString. apply absent_trimLeftFrom.
  rewrite absent_revString. now apply absent_trimLeftFrom.
Qed.

(* ================================================================= *)
(** ** Platform identifiers *)

Ltac eqb_cases :=
  repeat match goal with
         | |- context [String.eqb ?a ?b] =>
             destruct (String.eqb_spec a b); subst; simpl; try reflexivity
         end.

Lemma standardizeOS_lowered (y : string) :
  Strings.ToLower y = y ->
  standardizeOS (Strings.ToLower (standardizeOS y)) = standardizeOS y.
Proof.
  intros Hy. unfold standardizeOS at 2 3. eqb_cases.
  rewrite Hy. unfold standardizeOS.
  repeat match goal with
         | H : ?a <> ?b |- context [String.eqb ?a ?b] =>
             rewrite (proj2 (String.eqb_neq a b) H)
         end.
  reflexivity.
Qed.

Lemma standardizeArch_lowered (y : string) :
  Strings.ToLower y = y ->
  Tools.standardizeArch (Strings.ToLower (Tools.standardizeArch y))
  = Tools.standardizeArch y.
Proof.
  intros Hy. unfold Tools.standardizeArch at 2 3. eqb_cases.
  rewrite Hy. unfold Tools.standardizeArch.
  repeat match goal with
         | H : ?a <> ?b |- context [String.eqb ?a ?b] =>
             rewrite (proj2 (String.eqb_neq a b) H)
         end.
  reflexivity.
Qed.

(** The handlers store the canonical form of the string they are given,
    or its default. *)
Lemma platformConfig_OS (configMap : gmap string JValue) (goos : string) :
  asString (configMap !! "OS") = Some goos ->
  GOOS (Tools.platformConfig configMap) = Tools.defaultOS (Tools.canonicalOS goos).
Proof.
  intros H. unfold Tools.platformConfig, Tools.lookupOS. now rewrite H.
Qed.

Lemma platformConfig_os (configMap : gmap string JValue) (goos : string) :
  asString (configMap !! "OS") = None ->
  asString (configMap !! "os") = Some goos ->
  GOOS (Tools.platformConfig configMap) = Tools.defaultOS (Tools.canonicalOS goos).
Proof.
  intros H1 H2. unfold Tools.platformConfig, Tools.lookupOS. now rewrite H1, H2.
Qed.

Lemma platformConfig_arch (configMap : gmap string JValue) (goarch : string) :
  asString (configMap !! "arch") = Some goarch ->
  GOARCH (Tools.platformConfig configMap)
  = Tools.defaultArch (Tools.canonicalArch goarch).
Proof.
  intros H. unfold Tools.platformConfig, Tools.lookupArch. now rewrite H.
Qed.

(** (C9) Alias canonicalization of the OS and of the architecture is
    idempotent; every alias of the tables is sent to its one canonical
    value, which is sent to itself; every string whose lower-cased form
    is no alias comes out lower-cased and otherwise unchanged. *)
Theorem canonicalization_idempotent_total :
  (forall x, Tools.canonicalOS (Tools.canonicalOS x) = Tools.canonicalOS x) /\
  (forall x, Tools.canonicalArch (Tools.canonicalArch x) = Tools.canonicalArch x) /\
  (forall x v, (Strings.ToLower x, v) ∈ Spec.osAliases ->
     Tools.canonicalOS x = v /\ Tools.canonicalOS v = v) /\
  (forall x v, (Strings.ToLower x, v) ∈ Spec.archAliases ->
     Tools.canonicalArch x = v /\ Tools.canonicalArch v = v) /\
  (forall x, Strings.ToLower x ∉ Spec.osAliases.*1 ->
     Tools.canonicalOS x = Strings.ToLower x) /\
  (forall x, Strings.ToLower x ∉ Spec.archAliases.*1 ->
     Tools.canonicalArch x = Strings.ToLower x).
Proof.
  repeat split.
  - intros x. apply standardizeOS_lowered, ToLower_idem.
  - intros x. apply standardizeArch_lowered, ToLower_idem.
  - unfold Tools.canonicalOS. revert H. generalize (Strings.ToLower x) as y.
    intros y H. unfold Spec.osAliases in H.
    repeat (apply elem_of_cons in H as [H|H]; [injection H as -> ->; reflexivity|]).
    now apply elem_of_nil in H.
  - unfold Spec.osAliases in H.
    repeat (apply elem_of_cons in H as [H|H]; [injection H as _ ->; reflexivity|]).
    now apply elem_of_nil in H.
  - unfold Tools.canonicalArch. revert H. generalize (Strings.ToLower x) as y.
    intros y H. unfold Spec.archAliases in H.
    repeat (apply elem_of_cons in H as [H|H]; [injection H as -> ->; reflexivity|]).
    now apply elem_of_nil in H.
  - unfold Spec.archAliases in H.
    repeat (apply elem_of_cons in H as [H|H]; [injection H as _ ->; reflexivity|]).
    now apply elem_of_nil in H.
  - intros x H. unfold Tools.canonicalOS, standardizeOS.
    eqb_cases; exfalso; apply H; rewrite e; compute_done.
  - intros x H. unfold Tools.canonicalArch, Tools.standardizeArch.
    eqb_cases; exfalso; apply H; rewrite e; compute_done.
Qed.

Lemma canonicalization_idempotent_total_witness :
  (Tools.canonicalOS "MacOS" = "darwin" /\ Tools.canonicalOS "darwin" = "darwin") /\
  (Tools.canonicalArch "X86_64" = "amd64" /\ Tools.canonicalArch "amd64" = "amd64") /\
  Tools.canonicalOS "FreeBSD" = Strings.ToLower "FreeBSD" /\
  Tools.canonicalArch "MIPS" = Strings.ToLower "MIPS" /\
  Tools.canonicalOS (Utf8.EncodeRune 76 +:+ Utf8.EncodeRune 304 +:+ "NUX") = "linux" /\
  Tools.canonicalOS (Tools.canonicalOS ("WIND" +:+ Utf8.EncodeRune 214 +:+ "WS"))
  = Tools.canonicalOS ("WIND" +:+ Utf8.EncodeRune 214 +:+ "WS").
Proof.
  pose proof canonicalization_idempotent_total
    as (Ios & _ & Hos & Harch & Uos & Uarch).
  split; [|split; [|split; [|split; [|split]]]].
  - apply (Hos "MacOS" "darwin"). compute_done.
  - apply (Harch "X86_64" "amd64"). compute_done.
  - apply (Uos "FreeBSD"). compute_done.
  - apply (Uarch "MIPS"). compute_done.
  - apply (Uos (Utf8.EncodeRune 76 +:+ Utf8.EncodeRune 304 +:+ "NUX")). compute_done.
  - apply Ios.
Defined.

(* ================================================================= *)
(** ** Execution output *)

Lemma ReplaceAll_NUL (s : string) :
  Strings.ReplaceAll s NUL "" = Spec.stripNUL s.
Proof.
  unfold Strings.ReplaceAll, NUL.
  induction s as [|c s IH]; simpl; [reflexivity|].
  rewrite IH. destruct (Ascii.eqb c "000"); reflexivity.
Qed.

Lemma ReplaceAll_CR (s : string) :
  Strings.ReplaceAll s CR LF = Spec.crToLF s.
Proof.
  unfold Strings.ReplaceAll, CR, LF.
  induction s as [|c s IH]; simpl; [reflexivity|].
  rewrite IH. destruct (Ascii.eqb c "013"); reflexivity.
Qed.

Lemma ReplaceAll_CRLF (s : string) :
  Strings.ReplaceAll s (CR +:+ LF) "##CRLF##" = Spec.markCRLF s.
Proof.
  unfold Strings.ReplaceAll, CR, LF. simpl.
  enough (H : Strings.replaceFrom (String "013" (String "010" "")) "##CRLF##" 0 s
              = Spec.markCRLF s
              /\ forall c, Strings.replaceFrom (String "013" (String "010" "")) "##CRLF##" 0
                             (String c s)
                           = Spec.markCRLF (String c s)) by apply H.
  induction s as [|d s [IH1 IH2]]; split; try reflexivity.
  - intros c. simpl. destruct (Ascii.eqb c "013"); reflexivity.
  - apply IH2.
  - intros c. specialize (IH2 d).
    change (Spec.markCRLF (String c (String d s)))
      with (if Ascii.eqb c "013" && Ascii.eqb d "010"
            then "##CRLF##" +:+ Spec.markCRLF s
            else String c (Spec.markCRLF (String d s))).
    rewrite <- IH1, <- IH2.
    change (Strings.replaceFrom (String "013" (String "010" "")) "##CRLF##" 0
              (String c (String d s)))
      with (if Ascii.eqb c "013" && (Ascii.eqb d "010" && true)
            then "##CRLF##" +:+ Strings.replaceFrom (String "013" (String "010" ""))
                                   "##CRLF##" 0 s
            else String c (Strings.replaceFrom (String "013" (String "010" ""))
                             "##CRLF##" 0 (String d s))).
    now rewrite andb_true_r.
Qed.

(** The handler's four replacements and the trim are the normalization
    the specification words. *)
Lemma normalizeWindowsOutput_spec (output : string) :
  Tools.normalizeWindowsOutput output = Spec.normalize output.
Proof.
  unfold Tools.normalizeWindowsOutput, Spec.normalize, Spec.restoreCRLF.
  now rewrite ReplaceAll_NUL, ReplaceAll_CRLF, ReplaceAll_CR.
Qed.

Lemma absent_NUL_stripNUL (s : string) : absent "000" (Spec.stripNUL s) = true.
Proof.
  induction s as [|c s IH]; simpl; [reflexivity|].
  destruct (Ascii.eqb c "000") eqn:E; simpl; [exact IH | now rewrite E].
Qed.

Lemma absent_markCRLF (c : ascii) (s : string) :
  absent c "##CRLF##" = true -> absent c s = true ->
  absent c (Spec.markCRLF s) = true.
Proof.
  intros Hm Hs. rewrite <- ReplaceAll_CRLF.
  unfold Strings.ReplaceAll, CR, LF. simpl. now apply absent_replaceFrom.
Qed.

Lemma absent_crToLF (c : ascii) (s : string) :
  absent c LF = true -> absent c s = true -> absent c (Spec.crToLF s) = true.
Proof.
  intros Hm Hs. rewrite <- ReplaceAll_CR.
  unfold Strings.ReplaceAll, CR. now apply absent_replaceFrom.
Qed.

Lemma absent_CR_crToLF (s : string) : absent "013" (Spec.crToLF s) = true.
Proof.
  rewrite <- ReplaceAll_CR. unfold Strings.ReplaceAll, CR.
  now apply absent_replace_byte.
Qed.

Lemma absent_restoreCRLF (c : ascii) (s : string) :
  absent c LF = true -> absent c s = true ->
  absent c (Spec.restoreCRLF s) = true.
Proof.
  intros Hm Hs. unfold Spec.restoreCRLF, Strings.ReplaceAll. simpl.
  now apply absent_replaceFrom.
Qed.

(** The normalized output has no NUL byte and no carriage return. *)
Lemma normalize_absent (output : string) :
  absent "000" (Spec.normalize output) = true /\
  absent "013" (Spec.normalize output) = true.
Proof.
  unfold Spec.normalize. split; apply absent_TrimSpace, absent_restoreCRLF;
    try reflexivity.
  - apply absent_crToLF; [reflexivity|]. apply absent_markCRLF; [reflexivity|].
    apply absent_NUL_stripNUL.
  - apply absent_CR_crToLF.
Qed.

Lemma absent_normalizedText (s : string) :
  absent "000" s = true -> absent "013" s = true -> Spec.normalizedText s.
Proof.
  intros H0 H13. split.
  - unfold Spec.noNUL, NUL. now rewrite <- absent_Contains.
  - clear H0. induction s as [|c s IH]; [reflexivity|].
    simpl in *. apply andb_true_iff in H13 as [Hc Hs].
    now rewrite Hc, IH.
Qed.

(** [HandleExecute], once the two look-ups of the session have answered. *)
Lemma HandleExecute_run {World} (host : Host World)
    (arguments : gmap string JValue) (sessionID command : string)
    (w w1 w2 : World) (tr1 tr2 : list Event) (session : Session)
    (r : string + Execute) :
  asString (arguments !! "sessionID") = Some sessionID ->
  asString (arguments !! "command") = Some command ->
  SliverClient.GetSession host sessionID w = (inr session, w1, tr1) ->
  SliverClient.Execute host sessionID command w1 = (r, w2, tr2) ->
  Tools.HandleExecute host arguments w
  = (match r with
     | inl err => inl err
     | inr execute => inr (Tools.responseText (Tools.isWindowsSession session) execute)
     end, w2, (tr1 ++ tr2)%list).
Proof.
  intros Hs Hc Hget Hexec. unfold Tools.HandleExecute. rewrite Hs, Hc.
  unfold mbind, M_bind, attempt, mret, M_ret. rewrite Hget. simpl.
  rewrite Hexec. destruct r; simpl; [reflexivity|].
  now rewrite app_nil_r.
Qed.

(** (C2) On a session classified as Windows, a command that ran without
    a reported error and left some output is answered with that output
    normalized: NUL bytes stripped, CRLF marked, remaining CR turned into
    LF, the marks restored to LF, white space trimmed at both ends.  The
    sample [line1 CR LF NUL line2 CR] becomes [line1 LF line2]. *)
Theorem windows_output_normalized {World} (host : Host World)
    (arguments : gmap string JValue) (sessionID command : string)
    (w w1 w2 : World) (tr1 tr2 : list Event) (session : Session)
    (execute : Execute) :
  asString (arguments !! "sessionID") = Some sessionID ->
  asString (arguments !! "command") = Some command ->
  SliverClient.GetSession host sessionID w = (inr session, w1, tr1) ->
  Tools.isWindowsSession session = true ->
  SliverClient.Execute host sessionID command w1 = (inr execute, w2, tr2) ->
  Tools.reportedErr execute = None ->
  Tools.capturedOutput execute <> "" ->
  Tools.HandleExecute host arguments w
  = (inr ("Output from Windows command:" +:+ LF
            +:+ Spec.normalize (Tools.capturedOutput execute)),
     w2, (tr1 ++ tr2)%list)
  /\ Spec.normalize ("line1" +:+ CR +:+ LF +:+ NUL +:+ "line2" +:+ CR)
     = "line1" +:+ LF +:+ "line2".
Proof.
  intros Hs Hc Hget Hwin Hexec Herr Hout. split; [|reflexivity].
  rewrite (HandleExecute_run host arguments sessionID command w w1 w2 tr1 tr2
             session (inr execute) Hs Hc Hget Hexec).
  unfold Tools.responseText. rewrite Herr, Hwin, normalizeWindowsOutput_spec.
  destruct (Tools.capturedOutput execute); [contradiction | reflexivity].
Qed.

Lemma windows_output_normalized_witness :
  Tools.HandleExecute host0 (executeArgs "s2" "dir")
    [inr (mkExecute sampleWindowsOutput "" None)]
  = (inr ("Output from Windows command:" +:+ LF +:+ "line1" +:+ LF +:+ "line2"),
     [],
     [EvGetSessions; EvGetSessions;
      EvExecute (mkExecuteReq "s2" "cmd.exe" ["/D"; "/u"; "/V:OFF"; "/C"; "dir"] true)]).
Proof.
  apply (windows_output_normalized host0 (executeArgs "s2" "dir") "s2" "dir"
           [inr (mkExecute sampleWindowsOutput "" None)]
           [inr (mkExecute sampleWindowsOutput "" None)] []
           [EvGetSessions]
           [EvGetSessions;
            EvExecute (mkExecuteReq "s2" "cmd.exe" ["/D"; "/u"; "/V:OFF"; "/C"; "dir"] true)]
           windowsSession (mkExecute sampleWindowsOutput "" None));
    try reflexivity.
  discriminate.
Defined.

(** A posix session hands the captured output back as it came: here
    with its NUL byte and its bare carriage return. *)
Lemma posix_output_not_normalized :
  exists text w tr,
    Tools.HandleExecute host0 (executeArgs "s1" "cat f")
      [inr (mkExecute ("a" +:+ CR +:+ NUL +:+ "b") "" None)]
    = (inr text, w, tr)
    /\ text = "Output:" +:+ LF +:+ "a" +:+ CR +:+ NUL +:+ "b"
    /\ Spec.noNUL text = false
    /\ Spec.noBareCR text = false
    /\ ~ Spec.normalizedText text.
Proof.
  eexists _, _, _. split; [reflexivity|]. split; [reflexivity|].
  split; [reflexivity|]. split; [reflexivity|].
  intros [H _]. vm_compute in H. discriminate.
Qed.

(** (C7, amended) On a session classified as Windows, the text answered
    for a command that ran without a reported error has no NUL byte and
    no carriage return, whether it was captured on standard output or on
    standard error; on any other session the captured output is answered
    unchanged. *)
Theorem windows_output_invariant {World} (host : Host World)
    (arguments : gmap string JValue) (sessionID command : string)
    (w w1 w2 : World) (tr1 tr2 : list Event) (session : Session)
    (execute : Execute) :
  asString (arguments !! "sessionID") = Some sessionID ->
  asString (arguments !! "command") = Some command ->
  SliverClient.GetSession host sessionID w = (inr session, w1, tr1) ->
  SliverClient.Execute host sessionID command w1 = (inr execute, w2, tr2) ->
  Tools.reportedErr execute = None ->
  exists text,
    Tools.HandleExecute host arguments w = (inr text, w2, (tr1 ++ tr2)%list)
    /\ (Tools.isWindowsSession session = true ->
        Spec.normalizedText text /\ absent "000" text = true
        /\ absent "013" text = true)
    /\ (Tools.isWindowsSession session = false ->
        Tools.capturedOutput execute <> "" ->
        text = "Output:" +:+ LF +:+ Tools.capturedOutput execute).
Proof.
  intros Hs Hc Hget Hexec Herr. eexists. split.
  - apply (HandleExecute_run host arguments sessionID command w w1 w2 tr1 tr2
             session (inr execute) Hs Hc Hget Hexec).
  - unfold Tools.responseText. rewrite Herr. split.
    + intros ->.
      assert (absent "000" (if (String.length (Tools.capturedOutput execute) =? 0)%nat
                then "Command executed successfully on Windows (no output). Note that some Windows commands may not produce output when run through cmd.exe or PowerShell."
                else "Output from Windows command:" +:+ LF
                       +:+ Tools.normalizeWindowsOutput (Tools.capturedOutput execute))
              = true
              /\ absent "013" (if (String.length (Tools.capturedOutput execute) =? 0)%nat
                then "Command executed successfully on Windows (no output). Note that some Windows commands may not produce output when run through cmd.exe or PowerShell."
                else "Output from Windows command:" +:+ LF
                       +:+ Tools.normalizeWindowsOutput (Tools.capturedOutput execute))
              = true) as [H0 H13].
      { destruct (String.length (Tools.capturedOutput execute) =? 0)%nat;
          [split; reflexivity|].
        rewrite normalizeWindowsOutput_spec, !absent_app.
        destruct (normalize_absent (Tools.capturedOutput execute)) as [-> ->].
        split; reflexivity. }
      split; [now apply absent_normalizedText | now split].
    + intros -> Hout.
      destruct (Tools.capturedOutput execute); [contradiction | reflexivity].
Qed.

Lemma windows_output_invariant_witness :
  exists text,
    Tools.HandleExecute host0 (executeArgs "s2" "dir")
      [inr (mkExecute "" ("e" +:+ CR +:+ NUL +:+ "f") None)]
    = (inr text, [],
       ([EvGetSessions] ++
        [EvGetSessions;
         EvExecute (mkExecuteReq "s2" "cmd.exe" ["/D"; "/u"; "/V:OFF"; "/C"; "dir"] true)])%list)
    /\ (Tools.isWindowsSession windowsSession = true ->
        Spec.normalizedText text /\ absent "000" text = true
        /\ absent "013" text = true)
    /\ (Tools.isWindowsSession windowsSession = false ->
        Tools.capturedOutput (mkExecute "" ("e" +:+ CR +:+ NUL +:+ "f") None) <> "" ->
        text = "Output:" +:+ LF
                 +:+ Tools.capturedOutput (mkExecute "" ("e" +:+ CR +:+ NUL +:+ "f") None)).
Proof.
  apply (windows_output_invariant host0 (executeArgs "s2" "dir") "s2" "dir"
           [inr (mkExecute "" ("e" +:+ CR +:+ NUL +:+ "f") None)]
           [inr (mkExecute "" ("e" +:+ CR +:+ NUL +:+ "f") None)] []
           [EvGetSessions]
           [EvGetSessions;
            EvExecute (mkExecuteReq "s2" "cmd.exe" ["/D"; "/u"; "/V:OFF"; "/C"; "dir"] true)]
           windowsSession (mkExecute "" ("e" +:+ CR +:+ NUL +:+ "f") None));
    reflexivity.
Defined.

(* ================================================================= *)
(** ** Execution attempts *)

Lemma GetSession_run {World} (host : Host World) (sessionID : string)
    (w w0 : World) (sessions : list Session) (session : Session) :
  rpcGetSessions host w = (inr sessions, w0) ->
  List.find (fun s => String.eqb (ID s) sessionID) sessions = Some session ->
  SliverClient.GetSession host sessionID w = (inr session, w0, [EvGetSessions]).
Proof.
  intros Hrpc Hfind. unfold SliverClient.GetSession, mbind, M_bind, call.
  rewrite Hrpc. simpl. now rewrite Hfind.
Qed.

(** Both attempts of a posix session failed with the text [connection
    refused].  The Error Classifier sorts that text under network
    failures; what [Execute] returns is the fixed two-shell message
    around the text, which is no rendering of the classifier. *)
Lemma double_failure_not_classified :
  SliverClient.Execute host0 "s1" "ls" [inl "e1"; inl "connection refused"]
  = (inl "failed to execute command with both bash and sh: connection refused",
     [], [EvGetSessions; EvExecute (bashReq "s1" "ls"); EvExecute (shReq "s1" "ls")])
  /\ SliverClient.classify "connection refused" = NetworkFailure
  /\ ~ Spec.surfacedByClassifier
         "failed to execute command with both bash and sh: connection refused"
         "connection refused".
Proof.
  split; [reflexivity|]. split; [reflexivity|].
  intros (platform & format & H). vm_compute in H. discriminate.
Qed.

(** (C1, amended) On a posix session, when the attempt with [/bin/bash -c]
    fails, [Execute] makes one more attempt, with [/bin/sh -c], and none
    after it.  If that one fails too, the request returns an error, the
    text of the fallback's error behind the fixed message [failed to
    execute command with both bash and sh]; the handler returns that
    error as it is. *)
Theorem posix_fallback_once {World} (host : Host World)
    (sessionID command : string) (w w0 w1 w2 : World)
    (sessions : list Session) (session : Session) (e1 : string)
    (r2 : string + Execute) :
  rpcGetSessions host w = (inr sessions, w0) ->
  List.find (fun s => String.eqb (ID s) sessionID) sessions = Some session ->
  Strings.ToLower (OS session) <> "windows" ->
  rpcExecute host (bashReq sessionID command) w0 = (inl e1, w1) ->
  rpcExecute host (shReq sessionID command) w1 = (r2, w2) ->
  let outcome :=
    match r2 with
    | inl e2 => inl ("failed to execute command with both bash and sh: " +:+ e2)
    | inr execute => inr execute
    end in
  SliverClient.Execute host sessionID command w
  = (outcome, w2,
     [EvGetSessions; EvExecute (bashReq sessionID command);
      EvExecute (shReq sessionID command)])
  /\ (forall arguments wa tra sessiona,
        asString (arguments !! "sessionID") = Some sessionID ->
        asString (arguments !! "command") = Some command ->
        SliverClient.GetSession host sessionID wa = (inr sessiona, w, tra) ->
        (Tools.HandleExecute host arguments wa).1.1
        = match outcome with
          | inl err => inl err
          | inr execute =>
              inr (Tools.responseText (Tools.isWindowsSession sessiona) execute)
          end
        /\ executeCalls (Tools.HandleExecute host arguments wa).2
           = (executeCalls tra
                ++ [bashReq sessionID command; shReq sessionID command])%list).
Proof.
  intros Hrpc Hfind Hposix Hbash Hsh outcome.
  assert (Hexec : SliverClient.Execute host sessionID command w
                  = (outcome, w2,
                     [EvGetSessions; EvExecute (bashReq sessionID command);
                      EvExecute (shReq sessionID command)])).
  { unfold SliverClient.Execute, mbind, M_bind, attempt.
    rewrite (GetSession_run host sessionID w w0 sessions session Hrpc Hfind).
    simpl. apply String.eqb_neq in Hposix. rewrite Hposix.
    unfold call. fold (bashReq sessionID command). rewrite Hbash. simpl.
    fold (shReq sessionID command). rewrite Hsh. subst outcome.
    destruct r2; reflexivity. }
  split; [exact Hexec|].
  intros arguments wa tra sessiona Hs Hc Hget.
  rewrite (HandleExecute_run host arguments sessionID command wa w w2 tra _
             sessiona outcome Hs Hc Hget Hexec).
  split; [reflexivity|]. simpl.
  unfold executeCalls. now rewrite omap_app.
Qed.

Lemma posix_fallback_once_witness :
  SliverClient.Execute host0 "s1" "ls" [inl "bash: not found"; inl "sh: not found"]
  = (inl "failed to execute command with both bash and sh: sh: not found", [],
     [EvGetSessions; EvExecute (bashReq "s1" "ls"); EvExecute (shReq "s1" "ls")]).
Proof.
  apply (posix_fallback_once host0 "s1" "ls"
           [inl "bash: not found"; inl "sh: not found"]
           [inl "bash: not found"; inl "sh: not found"]
           [inl "sh: not found"] [] sessions0 linuxSession "bash: not found"
           (inl "sh: not found"));
    try reflexivity.
  discriminate.
Defined.

(* ================================================================= *)
(** ** Build failures *)

Lemma PrintfAll_run {World} (lines : list string) (w : World) :
  SliverClient.PrintfAll lines w = (inr tt, w, EvPrintf <$> lines).
Proof.
  induction lines as [|l lines IH]; [reflexivity|].
  change (SliverClient.PrintfAll (l :: lines) w)
    with ((Printf l ;; SliverClient.PrintfAll lines) w).
  unfold mbind, M_bind. simpl. now rewrite IH.
Qed.

Lemma omap_fmap_Printf {A} (f : Event -> option A) (lines : list string) :
  (forall t, f (EvPrintf t) = None) -> omap f (EvPrintf <$> lines) = [].
Proof.
  intros Hf. induction lines as [|l lines IH]; [reflexivity|].
  simpl. now rewrite Hf.
Qed.

(** *** Steps that only print *)

Section Steps.
Context {World : Type}.

Lemma printsOnly_ret {A} (x : A) : printsOnly (mret x : M World A).
Proof. intros w. now exists x, []. Qed.

Lemma printsOnly_Printf (text : string) : printsOnly (Printf text : M World unit).
Proof. intros w. now exists tt, [text]. Qed.

Lemma printsOnly_readWorld {A} (f : World -> A) : printsOnly (readWorld f).
Proof. intros w. now exists (f w), []. Qed.

Lemma printsOnly_PrintfAll (lines : list string) :
  printsOnly (SliverClient.PrintfAll lines : M World unit).
Proof. intros w. exists tt, lines. apply PrintfAll_run. Qed.

Lemma printsOnly_bind {A B} (m : M World A) (k : A -> M World B) :
  printsOnly m -> (forall x, printsOnly (k x)) -> printsOnly (m ≫= k).
Proof.
  intros Hm Hk w. destruct (Hm w) as (x & l1 & E1).
  destruct (Hk x w) as (y & l2 & E2).
  exists y, (l1 ++ l2)%list. unfold mbind, M_bind. rewrite E1, E2.
  now rewrite fmap_app.
Qed.

Lemma printsOnly_if {A} (b : bool) (m1 m2 : M World A) :
  printsOnly m1 -> printsOnly m2 -> printsOnly (if b then m1 else m2).
Proof. now destruct b. Qed.

(** A step that only prints does not change what the rest of the
    computation returns, where it leaves the world, nor what it sends. *)
Lemma step_prints {A B C} (f : Event -> option C) (m : M World A)
    (k : A -> M World B) (w w' : World) (r : string + B) (sent : list C) :
  (forall t, f (EvPrintf t) = None) ->
  printsOnly m ->
  (forall x, exists tr, k x w = (r, w', tr) /\ omap f tr = sent) ->
  exists tr, (m ≫= k) w = (r, w', tr) /\ omap f tr = sent.
Proof.
  intros Hf Hm Hk. destruct (Hm w) as (x & lines & E).
  destruct (Hk x) as (tr & Ek & Hsent).
  exists ((EvPrintf <$> lines) ++ tr)%list. unfold mbind, M_bind.
  rewrite E, Ek. split; [reflexivity|].
  now rewrite omap_app, omap_fmap_Printf.
Qed.

End Steps.

Create HintDb prints.

#[local] Hint Resolve printsOnly_ret printsOnly_Printf printsOnly_readWorld
  printsOnly_PrintfAll : prints.

Ltac prints :=
  repeat first
    [ apply printsOnly_bind; [|intros]
    | apply printsOnly_if
    | match goal with |- printsOnly (match ?o with _ => _ end) => destruct o end
    | solve [auto with prints] ].

Lemma reportCompiler_prints {World} (host : Host World) (bits path : string) :
  printsOnly (SliverClient.reportCompiler host bits path).
Proof. unfold SliverClient.reportCompiler. prints. Qed.

(** The outcome of [Generate] is decided by the answer of the server to
    the normalized configuration, which is the one configuration sent;
    the steps before the RPC only print. *)
Lemma Generate_outcome {World} (host : Host World) (config : ImplantConfig)
    (name : string) (w : World) :
  let config' := SliverClient.normalizeConfig config name in
  exists tr,
    SliverClient.Generate host config name w
    = (match (rpcGenerate host config' w).1 with
       | inl err =>
           inl (SliverClient.generateError err
                  (GOOS config' +:+ "/" +:+ GOARCH config')
                  (OutputFormat_String (Format config')))
       | inr generate => inr (config', generate)
       end, (rpcGenerate host config' w).2, tr)
    /\ configsSent tr = [config'].
Proof.
  intros config'. unfold SliverClient.Generate. fold config'.
  unfold configsSent.
  repeat (apply step_prints;
          [ reflexivity
          | solve [prints; auto using reportCompiler_prints with prints]
          | intros ]).
  unfold mbind, M_bind, call.
  destruct (rpcGenerate host config' w) as [[err|generate] w']; cbv beta iota.
  - rewrite PrintfAll_run. eexists. split; [reflexivity|].
    simpl. rewrite omap_app, omap_fmap_Printf by reflexivity. reflexivity.
  - eexists. split; reflexivity.
Qed.

Lemma HasPrefix_app_m (s m1 m2 : string) :
  Strings.HasPrefix s (m1 +:+ m2) = true -> Strings.HasPrefix s m1 = true.
Proof.
  revert s. induction m1 as [|p m1 IH]; intros s H; [reflexivity|].
  destruct s as [|c s]; simpl in *; [discriminate|].
  apply andb_true_iff in H as [-> H]. simpl. now apply IH.
Qed.

Lemma Contains_app_m (s m1 m2 : string) :
  Strings.Contains s m1 = false -> Strings.Contains s (m1 +:+ m2) = false.
Proof.
  induction s as [|c s IH]; simpl; intros H.
  - apply orb_false_iff in H as [H _]. rewrite orb_false_r.
    destruct (Strings.HasPrefix "" (m1 +:+ m2)) eqn:E; [|reflexivity].
    now rewrite (HasPrefix_app_m _ _ _ E) in H.
  - apply orb_false_iff in H as [H1 H2]. rewrite (IH H2), orb_false_r.
    destruct (Strings.HasPrefix (String c s) (m1 +:+ m2)) eqn:E; [|reflexivity].
    now rewrite (HasPrefix_app_m _ _ _ E) in H1.
Qed.

(** A pattern at the head of [x +:+ b] lies in [x] or runs over its end
    into [b]. *)
Lemma HasPrefix_app_cases (x b m : string) :
  Strings.HasPrefix (x +:+ b) m = true ->
  Strings.HasPrefix x m = true
  \/ ((String.length x < String.length m)%nat
      /\ Strings.HasPrefix b (Strings.dropBytes (String.length x) m) = true).
Proof.
  revert x. induction m as [|p m IH]; intros x H; [now left|].
  destruct x as [|c x].
  - right. split; [simpl; lia | exact H].
  - simpl in H. apply andb_true_iff in H as [Hc H].
    destruct (IH x H) as [Hx | [Hlen Hb]].
    + left. simpl. now rewrite Hc, Hx.
    + right. split; [simpl; lia | exact Hb].
Qed.

(** No occurrence of [m] in [a] nor in [b], and no proper tail of [m] at
    the head of [b]: no occurrence in [a +:+ b]. *)
Lemma Contains_app_false (a b m : string) :
  Strings.Contains a m = false ->
  Strings.Contains b m = false ->
  forallb (fun k => negb (Strings.HasPrefix b (Strings.dropBytes k m)))
    (seq 1 (String.length m - 1)) = true ->
  Strings.Contains (a +:+ b) m = false.
Proof.
  intros Ha Hb Hk. induction a as [|c a IH]; [exact Hb|].
  simpl in Ha. apply orb_false_iff in Ha as [Hc Ha].
  change (String c a +:+ b) with (String c (a +:+ b)).
  cbn [Strings.Contains]. rewrite (IH Ha), orb_false_r.
  destruct (Strings.HasPrefix (String c (a +:+ b)) m) eqn:E; [|reflexivity].
  destruct (HasPrefix_app_cases (String c a) b m E) as [H | [Hlen H]].
  - congruence.
  - rewrite forallb_forall in Hk.
    specialize (Hk (String.length (String c a))).
    rewrite H in Hk. discriminate Hk.
    apply in_seq. simpl in *. lia.
Qed.

Lemma supported_cases (platform : string) :
  is_Some (supportedPlatforms !! platform) ->
  platform ∈ [ "windows/amd64"; "windows/386"; "linux/amd64"; "linux/386";
               "darwin/amd64"; "darwin/arm64" ].
Proof.
  intros [b H]. unfold supportedPlatforms in H.
  repeat (rewrite lookup_insert in H; case_decide;
          [subst; compute_done|]).
  rewrite lookup_singleton in H. case_decide; [subst; compute_done | discriminate].
Qed.

Lemma classify_gcc (err : string) :
  Strings.Contains err "gcc" = true ->
  SliverClient.classify err = MissingCrossCompiler.
Proof.
  intros H. unfold SliverClient.classify. now rewrite H, orb_true_r.
Qed.

Lemma classify_unmarked (err : string) :
  Spec.unmarked err -> SliverClient.classify err = Generic.
Proof.
  intros H. unfold Spec.unmarked, Spec.knownMarkers in H.
  repeat (apply Forall_cons in H as [? H]).
  unfold SliverClient.classify.
  repeat match goal with E : Strings.Contains _ _ = false |- _ => rewrite E; clear E end.
  reflexivity.
Qed.

(** The error of [Generate] for an unmarked text does not hold the
    marker [exit status 1] the handler looks for first. *)
Lemma generic_error_not_gated (err platform : string) :
  Spec.unmarked err ->
  is_Some (supportedPlatforms !! platform) ->
  Strings.Contains
    ("failed to generate implant: " +:+ err +:+ " (platform: " +:+ platform
       +:+ ", format: " +:+ "EXECUTABLE" +:+ ")") "exit status 1" = false.
Proof.
  intros H Hp. unfold Spec.unmarked, Spec.knownMarkers in H.
  assert (He : Strings.Contains err "exit status 1" = false).
  { apply (Contains_app_m err "exit status" " 1").
    repeat (apply Forall_cons in H as [? H]). assumption. }
  assert (Hrest : Strings.Contains
            (err +:+ " (platform: " +:+ platform +:+ ", format: " +:+ "EXECUTABLE" +:+ ")")
            "exit status 1" = false).
  { apply supported_cases in Hp.
    repeat (apply elem_of_cons in Hp as [->|Hp];
            [apply Contains_app_false; [exact He | reflexivity | reflexivity]|]).
    now apply elem_of_nil in Hp. }
  simpl. exact Hrest.
Qed.

(** What the handler returns when the server fails a build. *)
Lemma generateImplant_outcome {World} (host : Host World)
    (config : ImplantConfig) (name platform : string) (w : World) :
  let config' := SliverClient.normalizeConfig config name in
  exists tr,
    Tools.generateImplant host config name platform w
    = (match (rpcGenerate host config' w).1 with
       | inl err =>
           inl (Tools.buildError
                  (SliverClient.generateError err
                     (GOOS config' +:+ "/" +:+ GOARCH config')
                     (OutputFormat_String (Format config')))
                  platform)
       | inr generate => inr (config', generate)
       end, (rpcGenerate host config' w).2, tr)
    /\ configsSent tr = [config'].
Proof.
  intros config'.
  destruct (Generate_outcome host config name w) as (tr & E & Hsent).
  fold config' in E, Hsent.
  exists tr. split; [|exact Hsent].
  unfold Tools.generateImplant, mbind, M_bind, attempt. rewrite E.
  destruct (rpcGenerate host config' w) as [[err|generate] w']; simpl;
    now rewrite app_nil_r.
Qed.

(** (C3) For every failure the server answers to a build: an error text
    holding [gcc] is classified as a missing cross-compiler whatever
    surrounds it, and the error the handler surfaces names the
    cross-compiler; a text with none of the known markers is classified
    as generic, and the error surfaced still carries the text, the
    platform and the format; and the classification is total: whatever
    the text, the failed build ends in an error value of the handler. *)
Theorem build_failure_classified {World} (host : Host World) :
  (forall err platform format platform',
     Strings.Contains err "gcc" = true ->
     SliverClient.classify err = MissingCrossCompiler
     /\ SliverClient.generateError err platform format
        = "failed to generate implant: cross-compiler error - " +:+ err
     /\ Strings.Contains
          (Tools.buildError (SliverClient.generateError err platform format) platform')
          "cross-compiler error" = true)
  /\ (forall err platform format,
        Spec.unmarked err ->
        SliverClient.classify err = Generic
        /\ SliverClient.generateError err platform format
           = "failed to generate implant: " +:+ err +:+ " (platform: " +:+ platform
               +:+ ", format: " +:+ format +:+ ")")
  /\ (forall err platform,
        Spec.unmarked err ->
        is_Some (supportedPlatforms !! platform) ->
        Tools.classify (SliverClient.generateError err platform "EXECUTABLE") = Generic
        /\ Tools.buildError (SliverClient.generateError err platform "EXECUTABLE") platform
           = "failed to generate implant: failed to generate implant: " +:+ err
               +:+ " (platform: " +:+ platform +:+ ", format: EXECUTABLE)"
               +:+ " - check server logs for more details")
  /\ (forall config name platform w err w',
        rpcGenerate host (SliverClient.normalizeConfig config name) w = (inl err, w') ->
        let config' := SliverClient.normalizeConfig config name in
        (Tools.generateImplant host config name platform w).1
        = (inl (Tools.buildError
                  (SliverClient.generateError err
                     (GOOS config' +:+ "/" +:+ GOARCH config')
                     (OutputFormat_String (Format config')))
                  platform), w')).
Proof.
  split; [|split; [|split]].
  - intros err platform format platform' H.
    pose proof (classify_gcc err H) as Hc.
    assert (Hg : SliverClient.generateError err platform format
                 = "failed to generate implant: cross-compiler error - " +:+ err)
      by (unfold SliverClient.generateError; now rewrite Hc).
    split; [exact Hc|]. split; [exact Hg|].
    rewrite Hg. unfold Tools.buildError, Tools.classify.
    rewrite (Contains_app_r _ err "gcc" H), orb_true_r.
    destruct (Strings.Contains _ "exit status 1"); [reflexivity|].
    apply Contains_app_r, Contains_app_l, Contains_app_l. reflexivity.
  - intros err platform format H.
    pose proof (classify_unmarked err H) as Hc.
    split; [exact Hc|]. unfold SliverClient.generateError. now rewrite Hc.
  - intros err platform H Hp.
    assert (Hg : SliverClient.generateError err platform "EXECUTABLE"
                 = "failed to generate implant: " +:+ err +:+ " (platform: "
                     +:+ platform +:+ ", format: " +:+ "EXECUTABLE" +:+ ")")
      by (unfold SliverClient.generateError; now rewrite (classify_unmarked err H)).
    assert (Hc : Tools.classify (SliverClient.generateError err platform "EXECUTABLE")
                 = Generic).
    { rewrite Hg. unfold Tools.classify.
      now rewrite (generic_error_not_gated err platform H Hp). }
    split; [exact Hc|]. unfold Tools.buildError. rewrite Hc, Hg.
    rewrite ?append_assoc. simpl. rewrite ?append_assoc. reflexivity.
  - intros config name platform w err w' Hrpc config'.
    destruct (generateImplant_outcome host config name platform w) as (tr & E & _).
    fold config' in E. rewrite E. fold config' in Hrpc. now rewrite Hrpc.
Qed.

Lemma build_failure_classified_witness :
  (SliverClient.classify "x86_64-w64-mingw32-gcc: not found" = MissingCrossCompiler
   /\ SliverClient.generateError "x86_64-w64-mingw32-gcc: not found" "windows/amd64"
        "EXECUTABLE"
      = "failed to generate implant: cross-compiler error - "
          +:+ "x86_64-w64-mingw32-gcc: not found"
   /\ Strings.Contains
        (Tools.buildError
           (SliverClient.generateError "x86_64-w64-mingw32-gcc: not found"
              "windows/amd64" "EXECUTABLE") "windows/amd64")
        "cross-compiler error" = true)
  /\ (SliverClient.classify "rpc deadline exceeded" = Generic
      /\ SliverClient.generateError "rpc deadline exceeded" "linux/386" "EXECUTABLE"
         = "failed to generate implant: " +:+ "rpc deadline exceeded" +:+ " (platform: "
             +:+ "linux/386" +:+ ", format: " +:+ "EXECUTABLE" +:+ ")")
  /\ (Tools.classify
        (SliverClient.generateError "rpc deadline exceeded" "linux/386" "EXECUTABLE")
      = Generic
      /\ Tools.buildError
           (SliverClient.generateError "rpc deadline exceeded" "linux/386" "EXECUTABLE")
           "linux/386"
         = "failed to generate implant: failed to generate implant: "
             +:+ "rpc deadline exceeded" +:+ " (platform: " +:+ "linux/386"
             +:+ ", format: EXECUTABLE)" +:+ " - check server logs for more details")
  /\ (Tools.generateImplant host0 emptyImplantConfig "n" "windows/amd64" []).1
     = (inl "cross-compiler error: required cross-compiler not found or failed. For Windows targets, ensure mingw-w64 is installed. For Linux targets, ensure gcc is installed",
        []).
Proof.
  pose proof (build_failure_classified host0) as (Hgcc & Hun & Hend & Hrun).
  assert (Hu : Spec.unmarked "rpc deadline exceeded")
    by (unfold Spec.unmarked, Spec.knownMarkers; repeat constructor).
  split; [|split; [|split]].
  - apply (Hgcc "x86_64-w64-mingw32-gcc: not found" "windows/amd64" "EXECUTABLE"
             "windows/amd64"). reflexivity.
  - apply (Hun "rpc deadline exceeded" "linux/386" "EXECUTABLE" Hu).
  - apply (Hend "rpc deadline exceeded" "linux/386" Hu). now exists true.
  - apply (Hrun emptyImplantConfig "n" "windows/amd64" []
             "exit status 1: gcc not found" []). reflexivity.
Defined.

(* ================================================================= *)
(** ** C2 endpoints *)

Lemma platformConfig_ext (m1 m2 : gmap string JValue) :
  m1 !! "OS" = m2 !! "OS" -> m1 !! "os" = m2 !! "os" ->
  m1 !! "arch" = m2 !! "arch" ->
  Tools.platformConfig m1 = Tools.platformConfig m2.
Proof.
  intros H1 H2 H3.
  unfold Tools.platformConfig, Tools.lookupOS, Tools.lookupArch.
  now rewrite H1, H2, H3.
Qed.

Lemma generateFormatWarning_ext (m1 m2 : gmap string JValue) :
  m1 !! "format" = m2 !! "format" ->
  Tools.generateFormatWarning m1 = Tools.generateFormatWarning m2.
Proof. intros H. unfold Tools.generateFormatWarning. now rewrite H. Qed.

Lemma profileFormatWarning_ext (m1 m2 : gmap string JValue) :
  m1 !! "format" = m2 !! "format" ->
  Tools.profileFormatWarning m1 = Tools.profileFormatWarning m2.
Proof. intros H. unfold Tools.profileFormatWarning. now rewrite H. Qed.

Lemma copyFlags_ext (int64 : Z -> Z) (m1 m2 : gmap string JValue) (c : ImplantConfig) :
  m1 !! "isBeacon" = m2 !! "isBeacon" ->
  m1 !! "beaconInterval" = m2 !! "beaconInterval" ->
  m1 !! "beaconJitter" = m2 !! "beaconJitter" ->
  m1 !! "debug" = m2 !! "debug" ->
  m1 !! "evasion" = m2 !! "evasion" ->
  m1 !! "obfuscateSymbols" = m2 !! "obfuscateSymbols" ->
  Tools.copyFlags int64 m1 c = Tools.copyFlags int64 m2 c.
Proof.
  intros H1 H2 H3 H4 H5 H6. unfold Tools.copyFlags.
  now rewrite H1, H2, H3, H4, H5, H6.
Qed.

Lemma resolveC2_ext {World} (fmt_v : JValue -> string) (m1 m2 : gmap string JValue)
    (w : World) :
  m1 !! "c2" = m2 !! "c2" -> m1 !! "mtlsc2" = m2 !! "mtlsc2" ->
  m1 !! "httpc2" = m2 !! "httpc2" -> m1 !! "httpsc2" = m2 !! "httpsc2" ->
  Tools.resolveC2 fmt_v m1 w = Tools.resolveC2 fmt_v m2 w.
Proof.
  intros H1 H2 H3 H4. unfold Tools.resolveC2. now rewrite H1, H2, H3, H4.
Qed.

Lemma profileC2_ext (m1 m2 : gmap string JValue) :
  m1 !! "c2" = m2 !! "c2" -> Tools.profileC2 m1 = Tools.profileC2 m2.
Proof. intros H. unfold Tools.profileC2. now rewrite H. Qed.

Section Endpoints.
Context {World : Type} (host : Host World).
Variable fmt_v : JValue -> string.
Variable int64 : Z -> Z.
Variable saveImplant :
  bool -> option string -> string -> ImplantConfig -> string -> string ->
  World -> (string + string) * World.

Abbreviation resolveC2 := (Tools.resolveC2 (World:=World) fmt_v).
Abbreviation composeAndGenerate :=
  (Tools.composeAndGenerate host fmt_v int64 saveImplant).
Abbreviation HandleGenerateImplant :=
  (Tools.HandleGenerateImplant host fmt_v int64 saveImplant).

Lemma resolveC2_structured (configMap : gmap string JValue) x xs (w : World) :
  asSlice (configMap !! "c2") = Some (x :: xs) ->
  resolveC2 configMap w = (inr (true, Tools.structuredEndpoints 0 (x :: xs)), w, []).
Proof. intros H. unfold Tools.resolveC2. now rewrite H. Qed.

Lemma resolveC2_skip_c2 (configMap : gmap string JValue) (w : World) :
  noElements (configMap !! "c2") ->
  resolveC2 configMap w
  = match asSlice (configMap !! "mtlsc2") with
    | Some mtlsC2 =>
        (if (List.length (Tools.prefixedEndpoints "mtls://" 0 mtlsC2) =? 0)%nat
            && (0 <? List.length mtlsC2)%nat
         then inl (NewInvalidArgsError
                     ("invalid mtlsc2 configuration: " +:+ fmt_v (JArr mtlsC2)
                        +:+ " - mtlsc2 must be an array of strings"))
         else inr (true, Tools.prefixedEndpoints "mtls://" 0 mtlsC2),
         w, EvPrintf <$> Tools.mtlsWarnings fmt_v 0 mtlsC2)
    | None =>
        match asSlice (configMap !! "httpc2") with
        | Some (server :: rest) =>
            (inr (true, Tools.prefixedEndpoints "http://" 0 (server :: rest)), w, [])
        | _ =>
            match asSlice (configMap !! "httpsc2") with
            | Some (server :: rest) =>
                (inr (true, Tools.prefixedEndpoints "https://" 0 (server :: rest)), w, [])
            | _ =>
                match asString (configMap !! "c2") with
                | Some (String c u) =>
                    (inr (true, [ {| Priority := 0; URL := String c u |} ]), w, [])
                | _ => (inr (false, []), w, [])
                end
            end
        end
    end.
Proof.
  intros Hc2. unfold Tools.resolveC2.
  destruct (asSlice (configMap !! "c2")) as [[|x xs]|] eqn:E;
    try (exfalso; exact (Hc2 x xs E)).
  all: destruct (asSlice (configMap !! "mtlsc2")) as [mtlsC2|];
    [ unfold mbind, M_bind; rewrite PrintfAll_run;
      destruct (_ && _); simpl; now rewrite app_nil_r
    | repeat case_match; reflexivity ].
Qed.

(** The steps after the format depend on the configuration map through
    the endpoints resolved and the flags copied, and on the arguments
    through three entries. *)
Lemma composeAndGenerate_ext (args1 args2 m1 m2 : gmap string JValue)
    (c : ImplantConfig) (platform : string) (w : World) :
  args1 !! "includeBinary" = args2 !! "includeBinary" ->
  args1 !! "name" = args2 !! "name" ->
  args1 !! "outputDir" = args2 !! "outputDir" ->
  resolveC2 m1 w = resolveC2 m2 w ->
  (forall c', Tools.copyFlags int64 m1 c' = Tools.copyFlags int64 m2 c') ->
  composeAndGenerate args1 m1 c platform w = composeAndGenerate args2 m2 c platform w.
Proof.
  intros Hi Hn Ho Hr Hf. unfold Tools.composeAndGenerate, mbind, M_bind.
  rewrite Hi, Hn, Ho, Hr.
  destruct (resolveC2 m2 w) as [[[e|[found c2s]] w'] tr]; [reflexivity|].
  destruct (negb found || _); [reflexivity|].
  destruct (Tools.validateC2URLs _ _); [reflexivity|].
  now rewrite Hf.
Qed.

Lemma format_step (warning : option string) {A} (k : M World A) (w : World) :
  ((match warning with Some t => Printf t | None => mret tt end) ;; k) w
  = let '(r, w', tr) := k w in
    (r, w', (match warning with Some t => [EvPrintf t] | None => [] end ++ tr)%list).
Proof.
  unfold mbind, M_bind.
  destruct warning; simpl; destruct (k w) as [[r w'] tr]; reflexivity.
Qed.

(** The handler, unfolded down to the steps after the format. *)
Lemma HandleGenerateImplant_config (arguments configMap : gmap string JValue)
    (w : World) :
  asMap (arguments !! "config") = Some configMap ->
  HandleGenerateImplant arguments w
  = let platform := Tools.platformOf (Tools.platformConfig configMap) in
    match supportedPlatforms !! platform with
    | None => (inl (Tools.unsupportedPlatformError platform), w, [])
    | Some _ =>
        let '(r, w', tr) :=
          composeAndGenerate arguments configMap
            (set_Format EXECUTABLE (Tools.platformConfig configMap)) platform w in
        (r, w',
         (match Tools.generateFormatWarning configMap with
          | Some t => [EvPrintf t] | None => [] end ++ tr)%list)
    end.
Proof.
  intros H. unfold Tools.HandleGenerateImplant. rewrite H. cbv zeta.
  destruct (supportedPlatforms !! _); [|reflexivity].
  apply format_step.
Qed.

Lemma HandleGenerateImplant_ext (arguments m1 m2 : gmap string JValue) (w : World) :
  Tools.platformConfig m1 = Tools.platformConfig m2 ->
  Tools.generateFormatWarning m1 = Tools.generateFormatWarning m2 ->
  resolveC2 m1 w = resolveC2 m2 w ->
  (forall c', Tools.copyFlags int64 m1 c' = Tools.copyFlags int64 m2 c') ->
  HandleGenerateImplant (<["config" := JObj m1]> arguments) w
  = HandleGenerateImplant (<["config" := JObj m2]> arguments) w.
Proof.
  intros Hp Hw Hr Hf.
  rewrite (HandleGenerateImplant_config _ m1), (HandleGenerateImplant_config _ m2)
    by now rewrite lookup_insert_eq.
  rewrite Hp, Hw. cbv zeta. destruct (supportedPlatforms !! _); [|reflexivity].
  rewrite (composeAndGenerate_ext _ (<["config" := JObj m2]> arguments) m1 m2);
    try assumption; try reflexivity.
  all: now rewrite !lookup_insert_ne by discriminate.
Qed.

(** (C4) The endpoints are resolved from the first shape that matches,
    in the order: structured [c2] list, [mtlsc2], [httpc2], [httpsc2],
    [c2] string.  With a structured [c2] list of at least one element,
    an [mtlsc2] entry next to it changes nothing, neither for the
    resolution nor for the request.  An [httpc2] entry that is an empty
    list counts as absent: resolution goes on with the next shape. *)
Theorem c2_shapes_in_order (arguments configMap : gmap string JValue) (w : World) :
  (forall x xs,
     asSlice (configMap !! "c2") = Some (x :: xs) ->
     resolveC2 configMap w
     = (inr (true, Tools.structuredEndpoints 0 (x :: xs)), w, [])
     /\ forall v,
          resolveC2 (<["mtlsc2" := v]> configMap) w = resolveC2 configMap w
          /\ HandleGenerateImplant
               (<["config" := JObj (<["mtlsc2" := v]> configMap)]> arguments) w
             = HandleGenerateImplant (<["config" := JObj configMap]> arguments) w)
  /\ (noElements (configMap !! "c2") ->
      resolveC2 configMap w
      = match asSlice (configMap !! "mtlsc2") with
        | Some mtlsC2 =>
            (if (List.length (Tools.prefixedEndpoints "mtls://" 0 mtlsC2) =? 0)%nat
                && (0 <? List.length mtlsC2)%nat
             then inl (NewInvalidArgsError
                         ("invalid mtlsc2 configuration: " +:+ fmt_v (JArr mtlsC2)
                            +:+ " - mtlsc2 must be an array of strings"))
             else inr (true, Tools.prefixedEndpoints "mtls://" 0 mtlsC2),
             w, EvPrintf <$> Tools.mtlsWarnings fmt_v 0 mtlsC2)
        | None =>
            match asSlice (configMap !! "httpc2") with
            | Some (server :: rest) =>
                (inr (true, Tools.prefixedEndpoints "http://" 0 (server :: rest)), w, [])
            | _ =>
                match asSlice (configMap !! "httpsc2") with
                | Some (server :: rest) =>
                    (inr (true, Tools.prefixedEndpoints "https://" 0 (server :: rest)),
                     w, [])
                | _ =>
                    match asString (configMap !! "c2") with
                    | Some (String c u) =>
                        (inr (true, [ {| Priority := 0; URL := String c u |} ]), w, [])
                    | _ => (inr (false, []), w, [])
                    end
                end
            end
        end)
  /\ (configMap !! "httpc2" = Some (JArr []) ->
      resolveC2 configMap w = resolveC2 (delete "httpc2" configMap) w
      /\ HandleGenerateImplant (<["config" := JObj configMap]> arguments) w
         = HandleGenerateImplant
             (<["config" := JObj (delete "httpc2" configMap)]> arguments) w).
Proof.
  split; [|split].
  - intros x xs Hc2. split; [now apply resolveC2_structured|].
    intros v.
    assert (Hr : resolveC2 (<["mtlsc2" := v]> configMap) w = resolveC2 configMap w).
    { rewrite (resolveC2_structured configMap x xs w Hc2).
      apply resolveC2_structured. now rewrite lookup_insert_ne by discriminate. }
    split; [exact Hr|].
    apply HandleGenerateImplant_ext; [| |exact Hr|].
    + apply platformConfig_ext; now rewrite lookup_insert_ne by discriminate.
    + apply generateFormatWarning_ext; now rewrite lookup_insert_ne by discriminate.
    + intros c'. apply copyFlags_ext; now rewrite lookup_insert_ne by discriminate.
  - apply resolveC2_skip_c2.
  - intros Hhttp.
    assert (Hr : resolveC2 configMap w = resolveC2 (delete "httpc2" configMap) w).
    { unfold Tools.resolveC2.
      rewrite (lookup_delete_ne configMap "httpc2" "c2"),
        (lookup_delete_ne configMap "httpc2" "mtlsc2"),
        (lookup_delete_ne configMap "httpc2" "httpsc2") by discriminate.
      rewrite lookup_delete_eq, Hhttp.
      destruct (asSlice (configMap !! "c2")) as [[|? ?]|]; try reflexivity;
        destruct (asSlice (configMap !! "mtlsc2")); reflexivity. }
    split; [exact Hr|].
    apply HandleGenerateImplant_ext; [| |exact Hr|].
    + apply platformConfig_ext; now rewrite lookup_delete_ne by discriminate.
    + apply generateFormatWarning_ext; now rewrite lookup_delete_ne by discriminate.
    + intros c'. apply copyFlags_ext; now rewrite lookup_delete_ne by discriminate.
Qed.

End Endpoints.

Lemma c2_shapes_in_order_witness :
  (Tools.resolveC2 fmt_v0
     (<["mtlsc2" := JArr [JStr "10.0.0.2"]]>
        ({[ "c2" := JArr [JObj {[ "url" := JStr "mtls://10.0.0.1:8888" ]}] ]}
           : gmap string JValue)) ([] : list (string + Execute))
   = Tools.resolveC2 fmt_v0
       ({[ "c2" := JArr [JObj {[ "url" := JStr "mtls://10.0.0.1:8888" ]}] ]}
          : gmap string JValue) [])
  /\ (Tools.resolveC2 fmt_v0
        ({[ "httpc2" := JArr []; "httpsc2" := JArr [JStr "https://h/x"] ]}
           : gmap string JValue) ([] : list (string + Execute))
      = (inr (true, [ {| Priority := 0; URL := "https://h/x" |} ]), [], []))
  /\ (Tools.resolveC2 fmt_v0
        ({[ "httpc2" := JArr [] ]} : gmap string JValue) ([] : list (string + Execute))
      = Tools.resolveC2 fmt_v0
          (delete "httpc2" ({[ "httpc2" := JArr [] ]} : gmap string JValue)) []).
Proof.
  split; [|split].
  - pose proof (c2_shapes_in_order host0 fmt_v0 int64_0 saveImplant0 ∅
                  {[ "c2" := JArr [JObj {[ "url" := JStr "mtls://10.0.0.1:8888" ]}] ]} [])
      as (H & _ & _).
    destruct (H (JObj {[ "url" := JStr "mtls://10.0.0.1:8888" ]}) [] eq_refl)
      as [_ Hv].
    exact (proj1 (Hv (JArr [JStr "10.0.0.2"]))).
  - pose proof (c2_shapes_in_order host0 fmt_v0 int64_0 saveImplant0 ∅
                  {[ "httpc2" := JArr []; "httpsc2" := JArr [JStr "https://h/x"] ]} [])
      as (_ & H & _).
    apply H. intros x xs E. discriminate E.
  - pose proof (c2_shapes_in_order host0 fmt_v0 int64_0 saveImplant0 ∅
                  {[ "httpc2" := JArr [] ]} [])
      as (_ & _ & H).
    exact (proj1 (H eq_refl)).
Defined.

(** *** The prefixed lists *)

Lemma prefixedEndpoints_lookup (scheme : string) (servers : list JValue)
    (i k : nat) (s : string) :
  servers !! k = Some (JStr s) ->
  {| Priority := uint32 (i + k);
     URL := if Strings.HasPrefix s scheme then s else scheme +:+ s |}
  ∈ Tools.prefixedEndpoints scheme i servers.
Proof.
  revert i k. induction servers as [|v servers IH]; intros i k H; [discriminate|].
  destruct k as [|k]; simpl in H.
  - injection H as ->. simpl. rewrite Nat.add_0_r. apply list_elem_of_here.
  - replace (i + S k)%nat with (S i + k)%nat by lia.
    specialize (IH (S i) k H). simpl.
    destruct v; try exact IH. now apply list_elem_of_further.
Qed.

Lemma prefixedEndpoints_elem (scheme : string) (servers : list JValue)
    (i : nat) (ep : ImplantC2) :
  ep ∈ Tools.prefixedEndpoints scheme i servers ->
  exists k s, servers !! k = Some (JStr s)
              /\ ep = {| Priority := uint32 (i + k);
                         URL := if Strings.HasPrefix s scheme then s
                                else scheme +:+ s |}.
Proof.
  revert i. induction servers as [|v servers IH]; intros i H; simpl in H.
  - now apply elem_of_nil in H.
  - assert (Hrest : ep ∈ Tools.prefixedEndpoints scheme (S i) servers ->
                    exists k s, (v :: servers) !! k = Some (JStr s)
                                /\ ep = {| Priority := uint32 (i + k);
                                           URL := if Strings.HasPrefix s scheme then s
                                                  else scheme +:+ s |}).
    { intros Hin. destruct (IH (S i) Hin) as (k & s & Hk & ->).
      exists (S k), s. split; [exact Hk|]. f_equal. f_equal. lia. }
    destruct v; try (now apply Hrest).
    apply elem_of_cons in H as [->|H]; [|now apply Hrest].
    exists 0%nat, s. split; [reflexivity|]. now rewrite Nat.add_0_r.
Qed.

(** A list without strings gives no endpoint, and conversely. *)
Lemma prefixedEndpoints_nil (scheme : string) (servers : list JValue) (i : nat) :
  Tools.prefixedEndpoints scheme i servers = [] <->
  forall s, JStr s ∉ servers.
Proof.
  revert i. induction servers as [|v servers IH]; intros i; simpl.
  - split; [intros _ s H; now apply elem_of_nil in H | reflexivity].
  - destruct v; try (rewrite IH; split; intros H s' Hin;
      [ apply elem_of_cons in Hin as [Hin|Hin]; [discriminate | exact (H s' Hin)]
      | apply (H s'); now apply list_elem_of_further ]).
    split; [discriminate|]. intros H. exfalso. apply (H s). apply list_elem_of_here.
Qed.

Lemma uint32_small (k : nat) : (k < 2 ^ 32)%nat -> uint32 k = Z.of_nat k.
Proof.
  intros H. unfold uint32. apply Z.mod_small. split; [lia|].
  apply Nat2Z.inj_lt in H. rewrite Nat2Z.inj_pow in H. exact H.
Qed.

Section Compose.
Context {World : Type} (host : Host World).
Variable fmt_v : JValue -> string.
Variable int64 : Z -> Z.
Variable saveImplant :
  bool -> option string -> string -> ImplantConfig -> string -> string ->
  World -> (string + string) * World.

Abbreviation resolveC2' := (Tools.resolveC2 (World:=World) fmt_v).
Abbreviation composeAndGenerate' :=
  (Tools.composeAndGenerate host fmt_v int64 saveImplant).
Abbreviation HandleGenerateImplant' :=
  (Tools.HandleGenerateImplant host fmt_v int64 saveImplant).

(** The request ends where the resolution or the URL check fails. *)
Lemma composeAndGenerate_rejected (arguments configMap : gmap string JValue)
    (c : ImplantConfig) (platform : string) (w w' : World) (tr : list Event)
    (r : string + bool * list ImplantC2) (err : string) :
  resolveC2' configMap w = (r, w', tr) ->
  match r with
  | inl e => err = e
  | inr (found, c2s) =>
      if negb found || (List.length c2s =? 0)%nat then err = Tools.noC2Error
      else Tools.validateC2URLs 0 c2s = Some err
  end ->
  composeAndGenerate' arguments configMap c platform w = (inl err, w', tr).
Proof.
  intros Hr Herr. unfold Tools.composeAndGenerate, mbind, M_bind. rewrite Hr.
  destruct r as [e|[found c2s]]; [now subst|].
  change (C2 (set_C2 c2s c)) with c2s.
  destruct (negb found || _); [subst; simpl; now rewrite app_nil_r|].
  rewrite Herr. simpl. now rewrite app_nil_r.
Qed.

(** A request rejected after the platform check: it fails, and nothing
    is sent to the server. *)
Lemma HandleGenerateImplant_rejected (arguments configMap : gmap string JValue)
    (w w' : World) (lines : list string)
    (r : string + bool * list ImplantC2) (err : string) :
  asMap (arguments !! "config") = Some configMap ->
  resolveC2' configMap w = (r, w', EvPrintf <$> lines) ->
  match r with
  | inl e => err = e
  | inr (found, c2s) =>
      if negb found || (List.length c2s =? 0)%nat then err = Tools.noC2Error
      else Tools.validateC2URLs 0 c2s = Some err
  end ->
  (exists e, (HandleGenerateImplant' arguments w).1.1 = inl e)
  /\ configsSent (HandleGenerateImplant' arguments w).2 = []
  /\ (is_Some (supportedPlatforms !! Tools.platformOf (Tools.platformConfig configMap)) ->
      (HandleGenerateImplant' arguments w).1.1 = inl err).
Proof.
  intros Hcfg Hr Herr.
  rewrite (HandleGenerateImplant_config host fmt_v int64 saveImplant _ _ _ Hcfg).
  cbv zeta. destruct (supportedPlatforms !! _) as [b|].
  - rewrite (composeAndGenerate_rejected _ _ _ _ _ _ _ _ _ Hr Herr). simpl.
    split; [now eexists|]. split; [|reflexivity].
    unfold configsSent. rewrite omap_app, omap_fmap_Printf by reflexivity.
    destruct (Tools.generateFormatWarning configMap); reflexivity.
  - simpl. split; [now eexists|]. split; [reflexivity|].
    intros [? ?]. discriminate.
Qed.

(** (C8) With the [mtlsc2] shape selected: every string element that
    does not start with [mtls://] gives an endpoint whose URL is the
    element behind [mtls://] and whose priority is the index of the
    element in the list; the list [["10.0.0.1"]] gives the one endpoint
    [mtls://10.0.0.1] of priority 0, which passes the URL check; a list
    with elements but no string makes the request fail. *)
Theorem mtlsc2_endpoints (arguments configMap : gmap string JValue)
    (mtlsC2 : list JValue) (w : World) :
  asMap (arguments !! "config") = Some configMap ->
  noElements (configMap !! "c2") ->
  asSlice (configMap !! "mtlsc2") = Some mtlsC2 ->
  (forall k s,
     mtlsC2 !! k = Some (JStr s) ->
     Strings.HasPrefix s "mtls://" = false ->
     (k < 2 ^ 32)%nat ->
     {| Priority := Z.of_nat k; URL := "mtls://" +:+ s |}
     ∈ Tools.prefixedEndpoints "mtls://" 0 mtlsC2
     /\ (resolveC2' configMap w).1.1
        = inr (true, Tools.prefixedEndpoints "mtls://" 0 mtlsC2))
  /\ (mtlsC2 = [JStr "10.0.0.1"] ->
      resolveC2' configMap w
      = (inr (true, [ {| Priority := 0; URL := "mtls://10.0.0.1" |} ]), w, [])
      /\ Tools.validateC2URLs 0 [ {| Priority := 0; URL := "mtls://10.0.0.1" |} ] = None)
  /\ (mtlsC2 <> [] ->
      Tools.prefixedEndpoints "mtls://" 0 mtlsC2 = [] ->
      (resolveC2' configMap w).1.1
      = inl (NewInvalidArgsError
               ("invalid mtlsc2 configuration: " +:+ fmt_v (JArr mtlsC2)
                  +:+ " - mtlsc2 must be an array of strings"))
      /\ (exists e, (HandleGenerateImplant' arguments w).1.1 = inl e)
      /\ configsSent (HandleGenerateImplant' arguments w).2 = []
      /\ (is_Some (supportedPlatforms
                     !! Tools.platformOf (Tools.platformConfig configMap)) ->
          (HandleGenerateImplant' arguments w).1.1
          = inl (NewInvalidArgsError
                   ("invalid mtlsc2 configuration: " +:+ fmt_v (JArr mtlsC2)
                      +:+ " - mtlsc2 must be an array of strings")))).
Proof.
  intros Hcfg Hc2 Hmtls.
  pose proof (resolveC2_skip_c2 fmt_v configMap w Hc2) as Hr.
  rewrite Hmtls in Hr. split; [|split].
  - intros k s Hk Hpre Hsmall.
    pose proof (prefixedEndpoints_lookup "mtls://" mtlsC2 0 k s Hk) as Hin.
    rewrite Hpre in Hin. simpl in Hin. rewrite (uint32_small k Hsmall) in Hin.
    split; [exact Hin|]. rewrite Hr.
    destruct (Tools.prefixedEndpoints "mtls://" 0 mtlsC2) as [|ep eps];
      [now apply elem_of_nil in Hin | reflexivity].
  - intros ->. split; [exact Hr | reflexivity].
  - intros Hne Hnil. rewrite Hnil in Hr.
    assert (Hlen : (0 <? List.length mtlsC2)%nat = true)
      by (destruct mtlsC2; [contradiction | reflexivity]).
    simpl in Hr. rewrite Hlen in Hr. split; [now rewrite Hr|].
    apply (HandleGenerateImplant_rejected arguments configMap w w
             (Tools.mtlsWarnings fmt_v 0 mtlsC2) _ _ Hcfg Hr eq_refl).
Qed.

End Compose.

Lemma mtlsc2_endpoints_witness :
  ({| Priority := 1; URL := "mtls://" +:+ "10.0.0.1" |}
   ∈ Tools.prefixedEndpoints "mtls://" 0 [JNum 7; JStr "10.0.0.1"])
  /\ (Tools.resolveC2 fmt_v0
        ({[ "mtlsc2" := JArr [JStr "10.0.0.1"] ]} : gmap string JValue)
        ([] : list (string + Execute))
      = (inr (true, [ {| Priority := 0; URL := "mtls://10.0.0.1" |} ]), [], []))
  /\ ((Tools.HandleGenerateImplant host0 fmt_v0 int64_0 saveImplant0
         (configArgs {[ "mtlsc2" := JArr [JNum 7] ]}) []).1.1
      = inl (NewInvalidArgsError
               ("invalid mtlsc2 configuration: " +:+ fmt_v0 (JArr [JNum 7])
                  +:+ " - mtlsc2 must be an array of strings"))).
Proof.
  assert (Hno : forall l, noElements
                  (({[ "mtlsc2" := JArr l ]} : gmap string JValue) !! "c2"))
    by (intros l x xs E; discriminate E).
  split; [|split].
  - pose proof (mtlsc2_endpoints host0 fmt_v0 int64_0 saveImplant0
                  (configArgs {[ "mtlsc2" := JArr [JNum 7; JStr "10.0.0.1"] ]})
                  {[ "mtlsc2" := JArr [JNum 7; JStr "10.0.0.1"] ]}
                  [JNum 7; JStr "10.0.0.1"] [] eq_refl (Hno _) eq_refl)
      as (H & _ & _).
    apply (H 1%nat "10.0.0.1" eq_refl eq_refl).
    apply (Nat.lt_le_trans _ (2 ^ 1)); [simpl; lia|].
    apply Nat.pow_le_mono_r; lia.
  - pose proof (mtlsc2_endpoints host0 fmt_v0 int64_0 saveImplant0
                  (configArgs {[ "mtlsc2" := JArr [JStr "10.0.0.1"] ]})
                  {[ "mtlsc2" := JArr [JStr "10.0.0.1"] ]}
                  [JStr "10.0.0.1"] [] eq_refl (Hno _) eq_refl)
      as (_ & H & _).
    apply (H eq_refl).
  - pose proof (mtlsc2_endpoints host0 fmt_v0 int64_0 saveImplant0
                  (configArgs {[ "mtlsc2" := JArr [JNum 7] ]})
                  {[ "mtlsc2" := JArr [JNum 7] ]}
                  [JNum 7] [] eq_refl (Hno _) eq_refl)
      as (_ & _ & H).
    destruct H as (_ & _ & _ & H); [discriminate | reflexivity |].
    apply H. now exists true.
Defined.

(** *** Bare hosts under [httpc2] and [httpsc2] *)

Lemma countFrom_no_slash (s : string) :
  Strings.Contains s "/" = false -> Strings.countFrom "/" 0 s = 0%nat.
Proof.
  induction s as [|c s IH]; [reflexivity|]. simpl.
  intros H. apply orb_false_iff in H as [Hc Hs].
  rewrite andb_true_r in Hc. now rewrite Hc, (IH Hs).
Qed.

Lemma HasPrefix_split (s p : string) :
  Strings.HasPrefix s p = true -> exists t, s = p +:+ t.
Proof.
  revert s. induction p as [|c p IH]; intros s H; [now exists s|].
  destruct s as [|d s]; simpl in H; [discriminate|].
  apply andb_true_iff in H as [Hc H]. apply Ascii.eqb_eq in Hc as ->.
  destruct (IH s H) as [t ->]. now exists t.
Qed.

Lemma no_slash_no_scheme (s p : string) :
  Strings.Contains p "/" = true ->
  Strings.Contains s "/" = false -> Strings.HasPrefix s p = false.
Proof.
  intros Hp Hs. destruct (Strings.HasPrefix s p) eqn:E; [|reflexivity].
  destruct (HasPrefix_split s p E) as [t ->].
  now rewrite (Contains_app_l p t "/" Hp) in Hs.
Qed.

(** The scheme before a text without [/]: two [/] in all. *)
Lemma prefixed_count (s : string) :
  Strings.Contains s "/" = false ->
  Strings.Count ("http://" +:+ s) "/" = 2%nat
  /\ Strings.Count ("https://" +:+ s) "/" = 2%nat.
Proof.
  intros H. unfold Strings.Count. simpl.
  now rewrite (countFrom_no_slash s H).
Qed.

Lemma validateC2URL_bare (i : nat) (priority : Z) (s : string) :
  Strings.Contains s "/" = false ->
  Tools.validateC2URL i {| Priority := priority; URL := "http://" +:+ s |}
  = Some (httpFormatError i ("http://" +:+ s))
  /\ Tools.validateC2URL i {| Priority := priority; URL := "https://" +:+ s |}
     = Some (httpFormatError i ("https://" +:+ s)).
Proof.
  intros H. destruct (prefixed_count s H) as [H1 H2].
  unfold Tools.validateC2URL, httpFormatError.
  cbn [URL]. rewrite H1, H2. split; reflexivity.
Qed.

Section BareHosts.
Context {World : Type} (host : Host World).
Variable fmt_v : JValue -> string.
Variable int64 : Z -> Z.
Variable saveImplant :
  bool -> option string -> string -> ImplantConfig -> string -> string ->
  World -> (string + string) * World.

Abbreviation rejected := (bareHostsRejected host fmt_v int64 saveImplant).

Lemma bare_hosts (scheme : string) (arguments configMap : gmap string JValue)
    (servers : list JValue) (w : World) :
  scheme = "http://" \/ scheme = "https://" ->
  asMap (arguments !! "config") = Some configMap ->
  Tools.resolveC2 fmt_v configMap w
  = (inr (true, Tools.prefixedEndpoints scheme 0 servers), w, []) ->
  (forall s, JStr s ∈ servers -> Strings.Contains s "/" = false) ->
  rejected scheme arguments configMap servers w.
Proof.
  intros Hscheme Hcfg Hr Hbare.
  assert (Hurl : forall ep, ep ∈ Tools.prefixedEndpoints scheme 0 servers ->
            exists s, Strings.Contains s "/" = false /\ URL ep = scheme +:+ s).
  { intros ep Hin.
    destruct (prefixedEndpoints_elem scheme servers 0 ep Hin) as (k & s & Hk & ->).
    exists s. assert (Hs : Strings.Contains s "/" = false).
    { apply Hbare. apply list_elem_of_lookup. now exists k. }
    split; [exact Hs|]. cbn [URL].
    rewrite (no_slash_no_scheme s scheme); [reflexivity | | exact Hs].
    destruct Hscheme as [-> | ->]; reflexivity. }
  assert (Hval : forall ep, ep ∈ Tools.prefixedEndpoints scheme 0 servers ->
            forall i, Tools.validateC2URL i ep = Some (httpFormatError i (URL ep))).
  { intros [priority url] Hin i. destruct (Hurl _ Hin) as (s & Hs & E).
    cbn [URL] in *. subst url.
    destruct (validateC2URL_bare i priority s Hs) as [H1 H2].
    destruct Hscheme as [-> | ->]; assumption. }
  split; [|].
  { intros ep Hin. destruct (Hurl ep Hin) as (s & Hs & ->).
    destruct (prefixed_count s Hs) as [H1 H2].
    destruct Hscheme as [-> | ->]; assumption. }
  destruct (Tools.prefixedEndpoints scheme 0 servers) as [|ep eps] eqn:E.
  - destruct (HandleGenerateImplant_rejected host fmt_v int64 saveImplant
                arguments configMap w w [] _ Tools.noC2Error Hcfg Hr eq_refl)
      as (H1 & H2 & _).
    split; [exact H1|]. split; [exact H2|]. intros ? ? ?. discriminate.
  - assert (Hv : Tools.validateC2URLs 0 (ep :: eps) = Some (httpFormatError 0 (URL ep))).
    { simpl. rewrite (Hval ep); [reflexivity | apply list_elem_of_here]. }
    destruct (HandleGenerateImplant_rejected host fmt_v int64 saveImplant
                arguments configMap w w [] _ _ Hcfg Hr Hv) as (H1 & H2 & H3).
    split; [exact H1|]. split; [exact H2|].
    intros ep' eps' Heq Hp. injection Heq as <- _. now apply H3.
Qed.

(** (C10) With the [httpc2] shape selected, respectively the [httpsc2]
    shape, and no [/] in any string of the list: every endpoint's URL, the
    string behind the scheme, holds two [/], one less than the check asks
    for; the request fails and no configuration is sent; when there is an
    endpoint at all, the failure is the invalid-HTTP(S)-URL-format error
    at index 0, for the first endpoint. *)
Theorem bare_http_hosts_rejected (arguments configMap : gmap string JValue)
    (servers : list JValue) (w : World) :
  asMap (arguments !! "config") = Some configMap ->
  noElements (configMap !! "c2") ->
  asSlice (configMap !! "mtlsc2") = None ->
  servers <> [] ->
  (forall s, JStr s ∈ servers -> Strings.Contains s "/" = false) ->
  (asSlice (configMap !! "httpc2") = Some servers ->
   rejected "http://" arguments configMap servers w)
  /\ (noElements (configMap !! "httpc2") ->
      asSlice (configMap !! "httpsc2") = Some servers ->
      rejected "https://" arguments configMap servers w).
Proof.
  intros Hcfg Hc2 Hmtls Hne Hbare.
  pose proof (resolveC2_skip_c2 fmt_v configMap w Hc2) as Hr.
  rewrite Hmtls in Hr.
  destruct servers as [|server rest]; [contradiction|].
  split.
  - intros Hhttp. rewrite Hhttp in Hr.
    apply bare_hosts; auto.
  - intros Hno Hhttps.
    destruct (asSlice (configMap !! "httpc2")) as [[|x xs]|] eqn:E;
      try (exfalso; exact (Hno x xs E));
      rewrite Hhttps in Hr; apply bare_hosts; auto.
Qed.

End BareHosts.

Lemma bare_http_hosts_rejected_witness :
  (Tools.HandleGenerateImplant host0 fmt_v0 int64_0 saveImplant0
     (configArgs {[ "httpc2" := JArr [JStr "10.0.0.1"] ]}) []).1.1
  = inl (httpFormatError 0 "http://10.0.0.1")
  /\ (Tools.HandleGenerateImplant host0 fmt_v0 int64_0 saveImplant0
        (configArgs {[ "httpsc2" := JArr [JStr "example.com:8443"] ]}) []).1.1
     = inl (httpFormatError 0 "https://example.com:8443").
Proof.
  assert (Hbare : forall h s, JStr s ∈ [JStr h] -> Strings.Contains h "/" = false ->
                  Strings.Contains s "/" = false).
  { intros h s Hin Hh. apply list_elem_of_singleton in Hin. now injection Hin as ->. }
  split.
  - pose proof (bare_http_hosts_rejected host0 fmt_v0 int64_0 saveImplant0
                  (configArgs {[ "httpc2" := JArr [JStr "10.0.0.1"] ]})
                  {[ "httpc2" := JArr [JStr "10.0.0.1"] ]} [JStr "10.0.0.1"] []
                  eq_refl) as H.
    destruct H as [H _].
    + intros x xs E. discriminate E.
    + reflexivity.
    + discriminate.
    + intros s Hin. now apply (Hbare "10.0.0.1").
    + destruct (H eq_refl) as (_ & _ & _ & Hfirst).
      apply (Hfirst {| Priority := 0; URL := "http://10.0.0.1" |} [] eq_refl).
      now exists true.
  - pose proof (bare_http_hosts_rejected host0 fmt_v0 int64_0 saveImplant0
                  (configArgs {[ "httpsc2" := JArr [JStr "example.com:8443"] ]})
                  {[ "httpsc2" := JArr [JStr "example.com:8443"] ]}
                  [JStr "example.com:8443"] [] eq_refl) as H.
    destruct H as [_ H].
    + intros x xs E. discriminate E.
    + reflexivity.
    + discriminate.
    + intros s Hin. now apply (Hbare "example.com:8443").
    + destruct H as (_ & _ & _ & Hfirst).
      * intros x xs E. discriminate E.
      * reflexivity.
      * apply (Hfirst {| Priority := 0; URL := "https://example.com:8443" |} [] eq_refl).
        now exists true.
Defined.

(* ================================================================= *)
(** ** Format and platform of the configurations sent *)

Lemma Format_normalizeConfig (c : ImplantConfig) (name : string) :
  Format (SliverClient.normalizeConfig c name) = Format c.
Proof.
  unfold SliverClient.normalizeConfig. destruct (String.eqb name ""); reflexivity.
Qed.

Lemma Format_copyFlags (int64 : Z -> Z) (m : gmap string JValue) (c : ImplantConfig) :
  Format (Tools.copyFlags int64 m c) = Format c.
Proof. unfold Tools.copyFlags. repeat case_match; reflexivity. Qed.

Section Sent.
Context {World : Type}.

Lemma sendsOnly_bind P {A B} (m : M World A) (k : A -> M World B) :
  sendsOnly P m -> (forall x, sendsOnly P (k x)) -> sendsOnly P (m ≫= k).
Proof.
  intros Hm Hk w. specialize (Hm w). unfold mbind, M_bind.
  destruct (m w) as [[[e|x] w'] tr]; [exact Hm|].
  specialize (Hk x w'). destruct (k x w') as [[r w''] tr']. simpl in *.
  unfold configsSent in *. rewrite omap_app. now apply Forall_app.
Qed.

Lemma sendsOnly_quiet P {A} (m : M World A) :
  (forall w, exists lines, (m w).2 = EvPrintf <$> lines) -> sendsOnly P m.
Proof.
  intros H w. destruct (H w) as [lines ->].
  unfold configsSent. rewrite omap_fmap_Printf by reflexivity. constructor.
Qed.

Lemma sendsOnly_ret P {A} (x : A) : sendsOnly P (mret x : M World A).
Proof. apply sendsOnly_quiet. intros w. now exists []. Qed.

Lemma sendsOnly_throw P {A} (e : string) : sendsOnly P (throw e : M World A).
Proof. apply sendsOnly_quiet. intros w. now exists []. Qed.

Lemma sendsOnly_Printf P (t : string) : sendsOnly P (Printf t : M World unit).
Proof. apply sendsOnly_quiet. intros w. now exists [t]. Qed.

Lemma sendsOnly_readWorld P {A} (f : World -> A) : sendsOnly P (readWorld f).
Proof. apply sendsOnly_quiet. intros w. now exists []. Qed.

Lemma sendsOnly_io P {A} (f : World -> (string + A) * World) : sendsOnly P (io f).
Proof.
  apply sendsOnly_quiet. intros w. exists []. unfold io. now destruct (f w).
Qed.

Lemma sendsOnly_resolveC2 P (fmt_v : JValue -> string) (m : gmap string JValue) :
  sendsOnly P (Tools.resolveC2 (World:=World) fmt_v m).
Proof.
  apply sendsOnly_quiet. intros w.
  destruct (asSlice (m !! "c2")) as [[|x xs]|] eqn:E.
  2: { rewrite (resolveC2_structured fmt_v m x xs w E). now exists []. }
  all: rewrite resolveC2_skip_c2 by (intros x xs E'; congruence).
  all: destruct (asSlice (m !! "mtlsc2")) as [l|]; [now exists (Tools.mtlsWarnings fmt_v 0 l)|].
  all: repeat case_match; now exists [].
Qed.

End Sent.

Create HintDb sends.

#[local] Hint Resolve sendsOnly_ret sendsOnly_throw sendsOnly_Printf
  sendsOnly_readWorld sendsOnly_io sendsOnly_resolveC2 : sends.

Ltac sends :=
  repeat first
    [ solve [auto with sends]
    | apply sendsOnly_bind; [|intros]
    | match goal with
      | |- sendsOnly _ (match ?o with _ => _ end) => destruct o
      | |- sendsOnly _ (if ?b then _ else _) => destruct b
      | |- sendsOnly _ (let '(_, _) := ?p in _) => destruct p
      end ].

Section Format.
Context {World : Type} (host : Host World).
Variable fmt_v : JValue -> string.
Variable int64 : Z -> Z.
Variable json_Marshal : gmap string JValue -> string.
Variable saveImplant :
  bool -> option string -> string -> ImplantConfig -> string -> string ->
  World -> (string + string) * World.

Abbreviation Generate_ := (Tools.HandleGenerateImplant host fmt_v int64 saveImplant).
Abbreviation Save_ := (Tools.HandleSaveImplantProfile host int64 json_Marshal).

Lemma sendsOnly_generateImplant (P : ImplantConfig -> Prop) (c : ImplantConfig)
    (name platform : string) :
  P (SliverClient.normalizeConfig c name) ->
  sendsOnly P (Tools.generateImplant host c name platform).
Proof.
  intros HP w.
  destruct (generateImplant_outcome host c name platform w) as (tr & E & Hs).
  rewrite E. cbn [snd]. rewrite Hs. now repeat constructor.
Qed.

Lemma sendsOnly_checkToolchain P (c : ImplantConfig) :
  sendsOnly P (Tools.checkToolchain host c).
Proof. unfold Tools.checkToolchain. sends. Qed.

Lemma sendsOnly_SaveImplantProfile (P : ImplantConfig -> Prop) (p : ImplantProfile) :
  (forall c, Config p = Some c -> P c) ->
  sendsOnly P (SliverClient.SaveImplantProfile host p).
Proof.
  intros HP w. unfold SliverClient.SaveImplantProfile, mbind, M_bind, call.
  destruct (rpcSaveImplantProfile host p w) as [[e|saved] w']; simpl;
    destruct (Config p) as [c|] eqn:E; repeat constructor; now apply HP.
Qed.

(** Both handlers send configurations of format [EXECUTABLE] only. *)
Lemma HandleGenerateImplant_sends (arguments : gmap string JValue) :
  sendsOnly (fun c => Format c = EXECUTABLE) (Generate_ arguments).
Proof.
  unfold Tools.HandleGenerateImplant.
  destruct (asMap (arguments !! "config")) as [configMap|]; [|sends].
  cbv zeta. destruct (supportedPlatforms !! _); [|sends].
  apply sendsOnly_bind; [sends|intros _].
  unfold Tools.composeAndGenerate.
  apply sendsOnly_bind; [sends|intros [found c2s]].
  destruct (negb found || _); [sends|].
  destruct (Tools.validateC2URLs _ _); [sends|].
  apply sendsOnly_bind; [sends|intros _].
  apply sendsOnly_bind; [sends|intros _].
  apply sendsOnly_bind; [apply sendsOnly_checkToolchain|intros _].
  apply sendsOnly_bind; [|intros [c' generate]; sends].
  apply sendsOnly_generateImplant.
  now rewrite Format_normalizeConfig, Format_copyFlags.
Qed.

Lemma HandleSaveImplantProfile_sends (arguments : gmap string JValue) :
  sendsOnly (fun c => Format c = EXECUTABLE) (Save_ arguments).
Proof.
  unfold Tools.HandleSaveImplantProfile.
  destruct (asString (arguments !! "name")) as [[|c n]|]; [sends| |sends].
  destruct (asMap (arguments !! "config")) as [configMap|]; [|sends].
  cbv zeta. apply sendsOnly_bind; [sends|intros _].
  unfold Tools.composeAndSave.
  apply sendsOnly_bind; [sends|intros _].
  apply sendsOnly_bind; [|intros saved; unfold panic; sends].
  apply sendsOnly_SaveImplantProfile. cbn [Config]. intros c0 [= <-].
  now rewrite Format_copyFlags.
Qed.

End Format.

Section FormatForced.
Context {World : Type} (host : Host World).
Variable fmt_v : JValue -> string.
Variable int64 : Z -> Z.
Variable json_Marshal : gmap string JValue -> string.
Variable saveImplant :
  bool -> option string -> string -> ImplantConfig -> string -> string ->
  World -> (string + string) * World.

Abbreviation generate_ := (Tools.HandleGenerateImplant host fmt_v int64 saveImplant).
Abbreviation save_ := (Tools.HandleSaveImplantProfile host int64 json_Marshal).

Lemma generate_format_independent (arguments configMap : gmap string JValue)
    (v : JValue) (w : World) :
  let platform := Tools.platformOf (Tools.platformConfig configMap) in
  generate_ (<["config" := JObj (<["format" := v]> configMap)]> arguments) w
  = ((generate_ (<["config" := JObj (delete "format" configMap)]> arguments) w).1,
     ((EvPrintf <$>
         match supportedPlatforms !! platform with
         | Some _ => warningLines
                       (Tools.generateFormatWarning (<["format" := v]> configMap))
         | None => []
         end)
      ++ (generate_ (<["config" := JObj (delete "format" configMap)]> arguments) w).2)%list).
Proof.
  intros platform.
  rewrite (HandleGenerateImplant_config host fmt_v int64 saveImplant _
             (<["format" := v]> configMap)),
    (HandleGenerateImplant_config host fmt_v int64 saveImplant _
       (delete "format" configMap)) by now rewrite lookup_insert_eq.
  assert (Hp : Tools.platformConfig (<["format" := v]> configMap)
               = Tools.platformConfig configMap)
    by (apply platformConfig_ext; now rewrite lookup_insert_ne by discriminate).
  assert (Hp' : Tools.platformConfig (delete "format" configMap)
                = Tools.platformConfig configMap)
    by (apply platformConfig_ext; now rewrite lookup_delete_ne by discriminate).
  rewrite Hp, Hp'. cbv zeta. fold platform.
  destruct (supportedPlatforms !! platform); [|reflexivity].
  assert (Hw : Tools.generateFormatWarning (delete "format" configMap) = None)
    by (unfold Tools.generateFormatWarning; now rewrite lookup_delete_eq).
  rewrite Hw.
  rewrite (composeAndGenerate_ext host fmt_v int64 saveImplant
             (<["config" := JObj (<["format" := v]> configMap)]> arguments)
             (<["config" := JObj (delete "format" configMap)]> arguments)
             (<["format" := v]> configMap) (delete "format" configMap)).
  - destruct (Tools.composeAndGenerate _ _ _ _ _ _ _ _ _) as [[r w'] tr].
    simpl. rewrite ?Hw.
    destruct (Tools.generateFormatWarning (<["format" := v]> configMap)); reflexivity.
  - now rewrite !lookup_insert_ne by discriminate.
  - now rewrite !lookup_insert_ne by discriminate.
  - now rewrite !lookup_insert_ne by discriminate.
  - apply resolveC2_ext;
      now rewrite lookup_insert_ne, lookup_delete_ne by discriminate.
  - intros c'. apply copyFlags_ext;
      now rewrite lookup_insert_ne, lookup_delete_ne by discriminate.
Qed.

Lemma save_format_independent (arguments configMap : gmap string JValue)
    (v : JValue) (w : World) :
  save_ (<["config" := JObj (<["format" := v]> configMap)]> arguments) w
  = ((save_ (<["config" := JObj (delete "format" configMap)]> arguments) w).1,
     ((EvPrintf <$>
         match asString (arguments !! "name") with
         | Some (String _ _) =>
             warningLines (Tools.profileFormatWarning (<["format" := v]> configMap))
         | _ => []
         end)
      ++ (save_ (<["config" := JObj (delete "format" configMap)]> arguments) w).2)%list).
Proof.
  unfold Tools.HandleSaveImplantProfile.
  rewrite !(lookup_insert_ne arguments "config" "name") by discriminate.
  destruct (asString (arguments !! "name")) as [[|c n]|]; try reflexivity.
  rewrite !lookup_insert_eq. cbn [asMap]. cbv zeta.
  rewrite !format_step.
  assert (Hp : Tools.platformConfig (<["format" := v]> configMap)
               = Tools.platformConfig (delete "format" configMap))
    by (apply platformConfig_ext;
        now rewrite lookup_insert_ne, lookup_delete_ne by discriminate).
  assert (Hw : Tools.profileFormatWarning (delete "format" configMap) = None)
    by (unfold Tools.profileFormatWarning; now rewrite lookup_delete_eq).
  rewrite Hp, Hw.
  assert (Hk : Tools.composeAndSave host int64 json_Marshal (String c n)
                 (<["format" := v]> configMap)
                 (set_Format EXECUTABLE (Tools.platformConfig (delete "format" configMap))) w
               = Tools.composeAndSave host int64 json_Marshal (String c n)
                   (delete "format" configMap)
                   (set_Format EXECUTABLE (Tools.platformConfig (delete "format" configMap))) w).
  { unfold Tools.composeAndSave.
    rewrite (profileC2_ext (<["format" := v]> configMap) (delete "format" configMap))
      by now rewrite lookup_insert_ne, lookup_delete_ne by discriminate.
    rewrite (copyFlags_ext int64 (<["format" := v]> configMap)
               (delete "format" configMap))
      by now rewrite lookup_insert_ne, lookup_delete_ne by discriminate.
    reflexivity. }
  rewrite Hk. clear Hk.
  destruct (Tools.composeAndSave _ _ _ _ _ _ _) as [[r w'] tr].
  simpl. rewrite ?Hw.
  destruct (Tools.profileFormatWarning (<["format" := v]> configMap)); reflexivity.
Qed.

(** (C5) In both flows the configuration handed to the server has the
    format [EXECUTABLE], whatever the request asks for.  The requested
    format has no effect on the request but a line printed: result,
    world and RPC calls are those of the request without the [format]
    entry.  For a shared-library, shellcode or service format that line
    is the warning, printed once the request has passed the checks that
    come before the format. *)
Theorem format_forced_executable (arguments configMap : gmap string JValue)
    (v : JValue) (w : World) :
  let withFormat := <["config" := JObj (<["format" := v]> configMap)]> arguments in
  let withoutFormat := <["config" := JObj (delete "format" configMap)]> arguments in
  (Forall (fun c => Format c = EXECUTABLE) (configsSent (generate_ withFormat w).2)
   /\ (generate_ withFormat w).1 = (generate_ withoutFormat w).1
   /\ rpcCalls (generate_ withFormat w).2 = rpcCalls (generate_ withoutFormat w).2
   /\ (forall f,
         v = JStr f -> Tools.requestedFormat f <> Tools.ReqOther ->
         is_Some (supportedPlatforms !! Tools.platformOf (Tools.platformConfig configMap)) ->
         exists t,
           Tools.generateFormatWarning (<["format" := v]> configMap) = Some t
           /\ (generate_ withFormat w).2 = EvPrintf t :: (generate_ withoutFormat w).2))
  /\ (Forall (fun c => Format c = EXECUTABLE) (configsSent (save_ withFormat w).2)
      /\ (save_ withFormat w).1 = (save_ withoutFormat w).1
      /\ rpcCalls (save_ withFormat w).2 = rpcCalls (save_ withoutFormat w).2
      /\ (forall f c n,
            v = JStr f -> Tools.requestedFormat f <> Tools.ReqOther ->
            asString (arguments !! "name") = Some (String c n) ->
            exists t,
              Tools.profileFormatWarning (<["format" := v]> configMap) = Some t
              /\ (save_ withFormat w).2 = EvPrintf t :: (save_ withoutFormat w).2)).
Proof.
  intros withFormat withoutFormat.
  assert (Hcalls : forall lines tr, rpcCalls ((EvPrintf <$> lines) ++ tr)%list = rpcCalls tr).
  { intros lines tr. unfold rpcCalls. rewrite List.filter_app.
    induction lines as [|l lines IH]; [reflexivity | exact IH]. }
  split.
  - pose proof (generate_format_independent arguments configMap v w) as E.
    cbv zeta in E. fold withFormat withoutFormat in E.
    split; [apply (HandleGenerateImplant_sends host fmt_v int64 saveImplant)|].
    split; [now rewrite E|]. split; [rewrite E; apply Hcalls|].
    intros f -> Hf Hp. rewrite E. cbn [snd]. destruct Hp as [b ->].
    unfold Tools.generateFormatWarning. rewrite lookup_insert_eq. cbn [asString].
    destruct (Tools.requestedFormat f); try contradiction; eexists; split; reflexivity.
  - pose proof (save_format_independent arguments configMap v w) as E.
    fold withFormat withoutFormat in E.
    split; [apply (HandleSaveImplantProfile_sends host int64 json_Marshal)|].
    split; [now rewrite E|]. split; [rewrite E; apply Hcalls|].
    intros f c n -> Hf Hn. rewrite E. cbn [snd]. rewrite Hn.
    unfold Tools.profileFormatWarning. rewrite lookup_insert_eq. cbn [asString].
    destruct (Tools.requestedFormat f); try contradiction; eexists; split; reflexivity.
Qed.

End FormatForced.

Lemma format_forced_executable_witness :
  (exists t,
     Tools.generateFormatWarning
       (<["format" := JStr "shellcode"]> (sampleConfig : gmap string JValue)) = Some t
     /\ (Tools.HandleGenerateImplant host0 fmt_v0 int64_0 saveImplant0
           (<["config" := JObj (<["format" := JStr "shellcode"]> sampleConfig)]> sampleArgs)
           []).2
        = EvPrintf t
            :: (Tools.HandleGenerateImplant host0 fmt_v0 int64_0 saveImplant0
                  (<["config" := JObj (delete "format" sampleConfig)]> sampleArgs) []).2)
  /\ (exists t,
        Tools.profileFormatWarning
          (<["format" := JStr "shellcode"]> (sampleConfig : gmap string JValue)) = Some t
        /\ (Tools.HandleSaveImplantProfile host0 int64_0 json_Marshal0
              (<["config" := JObj (<["format" := JStr "shellcode"]> sampleConfig)]> sampleArgs)
              []).2
           = EvPrintf t
               :: (Tools.HandleSaveImplantProfile host0 int64_0 json_Marshal0
                     (<["config" := JObj (delete "format" sampleConfig)]> sampleArgs) []).2).
Proof.
  pose proof (format_forced_executable host0 fmt_v0 int64_0 json_Marshal0 saveImplant0
                sampleArgs sampleConfig (JStr "shellcode") [])
    as [(_ & _ & _ & Hg) (_ & _ & _ & Hs)].
  split.
  - apply (Hg "shellcode" eq_refl); [discriminate | now exists true].
  - apply (Hs "shellcode" "p"%char "1" eq_refl); [discriminate | reflexivity].
Defined.

(** In the generate flow an unsupported pair ends the request before
    anything is printed or sent: the error names the pair and lists the
    six supported ones. *)
Lemma generate_rejects_unsupported_platform {World} (host : Host World)
    (fmt_v : JValue -> string) (int64 : Z -> Z)
    (saveImplant : bool -> option string -> string -> ImplantConfig -> string ->
                   string -> World -> (string + string) * World)
    (arguments configMap : gmap string JValue) (w : World) :
  asMap (arguments !! "config") = Some configMap ->
  supportedPlatforms !! Tools.platformOf (Tools.platformConfig configMap) = None ->
  Tools.HandleGenerateImplant host fmt_v int64 saveImplant arguments w
  = (inl ("invalid arguments: unsupported platform: "
            +:+ GOOS (Tools.platformConfig configMap) +:+ "/"
            +:+ GOARCH (Tools.platformConfig configMap)
            +:+ " - supported platforms are: windows/amd64, windows/386, linux/amd64, linux/386, darwin/amd64, darwin/arm64"),
     w, []).
Proof.
  intros Hcfg Hp.
  rewrite (HandleGenerateImplant_config host fmt_v int64 saveImplant _ _ _ Hcfg).
  cbv zeta. rewrite Hp.
  unfold Tools.unsupportedPlatformError, NewInvalidArgsError, Tools.platformOf.
  now rewrite !append_assoc.
Qed.

(** The supported pairs are those of the map literal. *)
Lemma supportedPlatforms_pairs (goos goarch : string) :
  (goos, goarch) ∈ Spec.supportedPairs ->
  is_Some (supportedPlatforms !! (goos +:+ "/" +:+ goarch)).
Proof.
  unfold Spec.supportedPairs. intros H.
  repeat (apply elem_of_cons in H as [H|H];
          [injection H as -> ->; now exists true|]).
  now apply elem_of_nil in H.
Qed.

(** (C6) The request [saveImplantProfile] with the pair [darwin/386],
    which is outside the supported set: the generate flow rejects the
    pair, the save-profile flow does not: it hands the configuration,
    with that pair, to the server and answers with success. *)
Theorem save_profile_skips_platform_check :
  supportedPlatforms !! "darwin/386" = None
  /\ (("darwin", "386") ∉ Spec.supportedPairs)
  /\ Tools.HandleGenerateImplant host0 fmt_v0 int64_0 saveImplant0
       (<["config" := JObj unsupportedConfig]> sampleArgs) []
     = (inl (Tools.unsupportedPlatformError "darwin/386"), [], [])
  /\ (Tools.HandleSaveImplantProfile host0 int64_0 json_Marshal0
        (<["config" := JObj unsupportedConfig]> sampleArgs) []).1
     = (inr (json_Marshal0 ∅), [])
  /\ (fun c => (GOOS c, GOARCH c))
       <$> configsSent
             (Tools.HandleSaveImplantProfile host0 int64_0 json_Marshal0
                (<["config" := JObj unsupportedConfig]> sampleArgs) []).2
     = [("darwin", "386")].
Proof.
  split; [reflexivity|]. split; [compute_done|].
  split; [vm_compute; reflexivity|]. split; vm_compute; reflexivity.
Qed.

(* ================================================================= *)
(** ** Further properties: session look-up and execution attempts *)

Lemma find_first {A} (f : A -> bool) (l : list A) (x : A) :
  List.find f l = Some x ->
  f x = true /\ exists pre post, l = (pre ++ x :: post)%list
                                 /\ Forall (fun y => f y = false) pre.
Proof.
  induction l as [|y l IH]; [discriminate|]. simpl.
  destruct (f y) eqn:E.
  - intros [= ->]. split; [exact E|]. now exists [], l.
  - intros H. destruct (IH H) as (Hx & pre & post & -> & Hpre).
    split; [exact Hx|]. exists (y :: pre), post. split; [reflexivity|].
    now constructor.
Qed.

Lemma find_absent {A} (f : A -> bool) (l : list A) :
  Forall (fun y => f y = false) l -> List.find f l = None.
Proof.
  induction 1 as [|y l Hy _ IH]; [reflexivity|]. simpl. now rewrite Hy.
Qed.

(** [GetSession] in terms of the answer of the server. *)
Lemma GetSession_cases {World} (host : Host World) (sessionID : string) (w : World) :
  SliverClient.GetSession host sessionID w
  = (match (rpcGetSessions host w).1 with
     | inl err => inl ("failed to get sessions: " +:+ err)
     | inr sessions =>
         match List.find (fun s => String.eqb (ID s) sessionID) sessions with
         | Some session => inr session
         | None => inl ("session with ID " +:+ sessionID +:+ " not found")
         end
     end, (rpcGetSessions host w).2, [EvGetSessions]).
Proof.
  unfold SliverClient.GetSession, mbind, M_bind, call.
  destruct (rpcGetSessions host w) as [[err|sessions] w']; simpl; [reflexivity|].
  destruct (List.find _ sessions); reflexivity.
Qed.

(** (X1) [GetSession] asks the server once for the list of sessions and
    answers with the first session of the list whose ID is the one asked
    for; when no session of the list has that ID it fails with [session
    with ID ... not found], and when one has it succeeds. *)
Theorem GetSession_first_match {World} (host : Host World)
    (sessionID : string) (w w' : World) (sessions : list Session) :
  rpcGetSessions host w = (inr sessions, w') ->
  (forall session,
     (SliverClient.GetSession host sessionID w).1.1 = inr session ->
     ID session = sessionID
     /\ exists pre post,
          sessions = (pre ++ session :: post)%list
          /\ Forall (fun s => ID s <> sessionID) pre)
  /\ (Forall (fun s => ID s <> sessionID) sessions ->
      SliverClient.GetSession host sessionID w
      = (inl ("session with ID " +:+ sessionID +:+ " not found"), w', [EvGetSessions]))
  /\ ((exists s, s ∈ sessions /\ ID s = sessionID) ->
      exists session,
        SliverClient.GetSession host sessionID w = (inr session, w', [EvGetSessions])).
Proof.
  intros Hrpc. rewrite GetSession_cases, Hrpc. cbn [fst snd]. split; [|split].
  - intros session H.
    destruct (List.find _ sessions) as [s|] eqn:E; [|discriminate].
    injection H as ->. destruct (find_first _ _ _ E) as (Hid & pre & post & -> & Hpre).
    split; [now apply String.eqb_eq|]. exists pre, post. split; [reflexivity|].
    eapply Forall_impl; [exact Hpre|]. intros s Hs. now apply String.eqb_neq.
  - intros Hnone. rewrite find_absent; [reflexivity|].
    eapply Forall_impl; [exact Hnone|]. intros s Hs. now apply String.eqb_neq.
  - intros (s & Hin & Hid).
    destruct (List.find _ sessions) as [session|] eqn:E; [now exists session|].
    exfalso. apply list_elem_of_In in Hin.
    pose proof (List.find_none _ _ E s Hin) as Hf. cbv beta in Hf.
    apply String.eqb_neq in Hf. contradiction.
Qed.

Lemma GetSession_first_match_witness :
  (ID windowsSession = "s2"
   /\ exists pre post,
        sessions0 = (pre ++ windowsSession :: post)%list
        /\ Forall (fun s => ID s <> "s2") pre)
  /\ SliverClient.GetSession host0 "s9" ([] : list (string + Execute))
     = (inl ("session with ID " +:+ "s9" +:+ " not found"), [], [EvGetSessions])
  /\ exists session,
       SliverClient.GetSession host0 "s2" ([] : list (string + Execute))
       = (inr session, [], [EvGetSessions]).
Proof.
  destruct (GetSession_first_match host0 "s9" [] [] sessions0 eq_refl) as (_ & H9 & _).
  destruct (GetSession_first_match host0 "s2" [] [] sessions0 eq_refl) as (H1 & _ & H2).
  split; [|split].
  - apply H1. reflexivity.
  - apply H9. repeat constructor; discriminate.
  - apply H2. exists windowsSession.
    split; [apply list_elem_of_further, list_elem_of_here | reflexivity].
Defined.

(** [Execute], once the session is found, in terms of the answers of the
    server to the two requests. *)
Lemma Execute_found {World} (host : Host World) (sessionID command : string)
    (w w0 : World) (sessions : list Session) (session : Session) :
  rpcGetSessions host w = (inr sessions, w0) ->
  List.find (fun s => String.eqb (ID s) sessionID) sessions = Some session ->
  let windows := String.eqb (Strings.ToLower (OS session)) "windows" in
  let primary := primaryReq session sessionID command in
  let fallback := if windows then psReq sessionID command
                  else shReq sessionID command in
  let both := if windows
              then "failed to execute command with both cmd.exe and powershell.exe: "
              else "failed to execute command with both bash and sh: " in
  SliverClient.Execute host sessionID command w
  = match rpcExecute host primary w0 with
    | (inr execute, w1) => (inr execute, w1, [EvGetSessions; EvExecute primary])
    | (inl _, w1) =>
        match rpcExecute host fallback w1 with
        | (inr execute, w2) =>
            (inr execute, w2, [EvGetSessions; EvExecute primary; EvExecute fallback])
        | (inl err, w2) =>
            (inl (both +:+ err), w2,
             [EvGetSessions; EvExecute primary; EvExecute fallback])
        end
    end.
Proof.
  intros Hrpc Hfind windows primary fallback both.
  unfold SliverClient.Execute, mbind, M_bind, attempt.
  rewrite (GetSession_run host sessionID w w0 sessions session Hrpc Hfind).
  subst primary fallback both. unfold primaryReq. fold windows.
  destruct windows; unfold call, cmdReq, psReq, bashReq, shReq.
  - destruct (rpcExecute host _ w0) as [[e1|x1] w1]; [|reflexivity].
    cbv beta iota zeta. destruct (rpcExecute host _ w1) as [[e2|x2] w2]; reflexivity.
  - destruct (rpcExecute host _ w0) as [[e1|x1] w1]; [|reflexivity].
    cbv beta iota zeta. destruct (rpcExecute host _ w1) as [[e2|x2] w2]; reflexivity.
Qed.

(** A failed look-up of the session, in [Execute] and in the handler. *)
Lemma lookup_failure_run {World} (host : Host World)
    (arguments : gmap string JValue) (sessionID command : string)
    (w w' : World) (tr : list Event) (err : string) :
  SliverClient.GetSession host sessionID w = (inl err, w', tr) ->
  SliverClient.Execute host sessionID command w
  = (inl ("failed to get session info: " +:+ err), w', tr)
  /\ (asString (arguments !! "sessionID") = Some sessionID ->
      asString (arguments !! "command") = Some command ->
      Tools.HandleExecute host arguments w
      = (inl ("failed to get session info: " +:+ err), w', tr))
  /\ executeCalls tr = [].
Proof.
  intros H. split; [|split].
  - unfold SliverClient.Execute, mbind, M_bind, attempt. rewrite H.
    simpl. now rewrite app_nil_r.
  - intros Hs Hc. unfold Tools.HandleExecute. rewrite Hs, Hc.
    unfold mbind, M_bind, attempt. rewrite H. simpl. now rewrite app_nil_r.
  - rewrite GetSession_cases in H. now injection H as _ _ <-.
Qed.

(** (X2) A session that cannot be resolved ends the request: [Execute]
    and the handler return [failed to get session info: ...] around the
    error of the look-up, and no execution request is sent. *)
Theorem session_lookup_failure_terminal {World} (host : Host World)
    (arguments : gmap string JValue) (sessionID command : string)
    (w w' : World) (tr : list Event) (err : string) :
  SliverClient.GetSession host sessionID w = (inl err, w', tr) ->
  SliverClient.Execute host sessionID command w
  = (inl ("failed to get session info: " +:+ err), w', tr)
  /\ (asString (arguments !! "sessionID") = Some sessionID ->
      asString (arguments !! "command") = Some command ->
      Tools.HandleExecute host arguments w
      = (inl ("failed to get session info: " +:+ err), w', tr))
  /\ executeCalls tr = [].
Proof. apply lookup_failure_run. Qed.

Lemma session_lookup_failure_terminal_witness :
  SliverClient.Execute offlineHost "s1" "id" tt
  = (inl ("failed to get session info: "
            +:+ "failed to get sessions: rpc error: unavailable"), tt, [EvGetSessions])
  /\ Tools.HandleExecute host0 (executeArgs "s9" "id") []
     = (inl ("failed to get session info: " +:+ "session with ID s9 not found"),
        [], [EvGetSessions]).
Proof.
  split.
  - apply (session_lookup_failure_terminal offlineHost ∅ "s1" "id" tt tt
             [EvGetSessions] "failed to get sessions: rpc error: unavailable").
    reflexivity.
  - apply (session_lookup_failure_terminal host0 (executeArgs "s9" "id") "s9" "id"
             [] [] [EvGetSessions] "session with ID s9 not found");
      reflexivity.
Defined.

(** (X3) On a Windows session the first attempt runs [cmd.exe /D /u
    /V:OFF /C command]; when it fails, one more attempt is made, through
    [powershell.exe] with the command between the UTF-8 setting and the
    exit code, and none after it; when that fails too the request fails
    with the fixed message naming both shells around the second error. *)
Theorem windows_fallback_once {World} (host : Host World)
    (sessionID command : string) (w w0 w1 w2 : World)
    (sessions : list Session) (session : Session) (e1 : string)
    (r2 : string + Execute) :
  rpcGetSessions host w = (inr sessions, w0) ->
  List.find (fun s => String.eqb (ID s) sessionID) sessions = Some session ->
  Strings.ToLower (OS session) = "windows" ->
  rpcExecute host (cmdReq sessionID command) w0 = (inl e1, w1) ->
  rpcExecute host (psReq sessionID command) w1 = (r2, w2) ->
  SliverClient.Execute host sessionID command w
  = (match r2 with
     | inl e2 =>
         inl ("failed to execute command with both cmd.exe and powershell.exe: " +:+ e2)
     | inr execute => inr execute
     end, w2,
     [EvGetSessions; EvExecute (cmdReq sessionID command);
      EvExecute (psReq sessionID command)]).
Proof.
  intros Hrpc Hfind Hwin Hcmd Hps.
  rewrite (Execute_found host sessionID command w w0 sessions session Hrpc Hfind).
  unfold primaryReq. rewrite Hwin. cbn [String.eqb Ascii.eqb Bool.eqb andb].
  rewrite Hcmd, Hps. destruct r2; reflexivity.
Qed.

Lemma windows_fallback_once_witness :
  SliverClient.Execute host0 "s2" "dir" [inl "cmd failed"; inl "ps failed"]
  = (inl "failed to execute command with both cmd.exe and powershell.exe: ps failed",
     [], [EvGetSessions; EvExecute (cmdReq "s2" "dir"); EvExecute (psReq "s2" "dir")]).
Proof.
  apply (windows_fallback_once host0 "s2" "dir"
           [inl "cmd failed"; inl "ps failed"] [inl "cmd failed"; inl "ps failed"]
           [inl "ps failed"] [] sessions0 windowsSession "cmd failed"
           (inl "ps failed")); reflexivity.
Defined.

(** (X4) When the first attempt succeeds there is no second one: the
    request sent is the only one and its answer is what the result is
    worded from, whatever exit status or error text it carries.  The
    session is looked up twice, by the handler and then by [Execute]:
    the shell is chosen by the OS the second look-up reports ([cmd.exe]
    for Windows, [/bin/bash] otherwise), the wording by the OS the first
    one reports.  When both report the same OS up to case, [cmd.exe]
    goes with the Windows wording and [/bin/bash] with the other. *)
Theorem primary_success_no_fallback {World} (host : Host World)
    (arguments : gmap string JValue) (sessionID command : string)
    (w w0 w1 w2 : World) (listed sessions : list Session)
    (seen session : Session) (execute : Execute) :
  asString (arguments !! "sessionID") = Some sessionID ->
  asString (arguments !! "command") = Some command ->
  rpcGetSessions host w = (inr listed, w0) ->
  List.find (fun s => String.eqb (ID s) sessionID) listed = Some seen ->
  rpcGetSessions host w0 = (inr sessions, w1) ->
  List.find (fun s => String.eqb (ID s) sessionID) sessions = Some session ->
  rpcExecute host (primaryReq session sessionID command) w1 = (inr execute, w2) ->
  SliverClient.Execute host sessionID command w0
  = (inr execute, w2,
     [EvGetSessions; EvExecute (primaryReq session sessionID command)])
  /\ Tools.HandleExecute host arguments w
     = (inr (Tools.responseText (Tools.isWindowsSession seen) execute), w2,
        [EvGetSessions; EvGetSessions;
         EvExecute (primaryReq session sessionID command)])
  /\ (Strings.ToLower (OS seen) = Strings.ToLower (OS session) ->
      (primaryReq session sessionID command = cmdReq sessionID command
       <-> Tools.isWindowsSession seen = true)
      /\ (primaryReq session sessionID command = bashReq sessionID command
          <-> Tools.isWindowsSession seen = false)).
Proof.
  intros Hs Hc Hrpc Hfind Hrpc' Hfind' Hexec.
  assert (E : SliverClient.Execute host sessionID command w0
              = (inr execute, w2,
                 [EvGetSessions; EvExecute (primaryReq session sessionID command)])).
  { rewrite (Execute_found host sessionID command w0 w1 sessions session Hrpc' Hfind').
    cbv zeta. now rewrite Hexec. }
  split; [exact E|]. split.
  - apply (HandleExecute_run host arguments sessionID command w w0 w2
             [EvGetSessions] _ seen (inr execute) Hs Hc); [|exact E].
    rewrite GetSession_cases, Hrpc. cbn [fst snd]. now rewrite Hfind.
  - intros Hos. unfold primaryReq, Tools.isWindowsSession. rewrite Hos.
    destruct (String.eqb_spec (Strings.ToLower (OS session)) "windows") as [Ew|Ew].
    + assert (String.eqb (OS seen) "" = false) as ->.
      { apply String.eqb_neq. intros Hempty. rewrite <- Hos, Hempty in Ew.
        discriminate Ew. }
      split; split; try reflexivity; discriminate.
    + rewrite andb_false_r. split; split; try reflexivity; discriminate.
Qed.

Lemma primary_success_no_fallback_witness :
  Tools.HandleExecute host0 (executeArgs "s1" "id") [inr (mkExecute "uid=0" "" None)]
  = (inr ("Output:" +:+ LF +:+ "uid=0"), [],
     [EvGetSessions; EvGetSessions; EvExecute (bashReq "s1" "id")])
  /\ Tools.HandleExecute relistingHost (executeArgs "s1" "id") false
     = (inr ("Output from Windows command:" +:+ LF +:+ "uid=0"), true,
        [EvGetSessions; EvGetSessions; EvExecute (bashReq "s1" "id")]).
Proof.
  split.
  - apply (primary_success_no_fallback host0 (executeArgs "s1" "id") "s1" "id"
             [inr (mkExecute "uid=0" "" None)] [inr (mkExecute "uid=0" "" None)]
             [inr (mkExecute "uid=0" "" None)] []
             sessions0 sessions0 linuxSession linuxSession
             (mkExecute "uid=0" "" None)); reflexivity.
  - apply (primary_success_no_fallback relistingHost (executeArgs "s1" "id") "s1" "id"
             false true true true
             [{| ID := "s1"; OS := "windows" |}] [{| ID := "s1"; OS := "linux" |}]
             {| ID := "s1"; OS := "windows" |} {| ID := "s1"; OS := "linux" |}
             (mkExecute "uid=0" "" None)); reflexivity.
Defined.

(** The requests [Execute] sends: none, the primary one, or the primary
    one and its fallback. *)
Lemma Execute_requests {World} (host : Host World) (sessionID command : string)
    (w : World) :
  exists reqs,
    (SliverClient.Execute host sessionID command w).2
    = EvGetSessions :: (EvExecute <$> reqs)
    /\ reqs ∈ [ []; [cmdReq sessionID command];
                [cmdReq sessionID command; psReq sessionID command];
                [bashReq sessionID command];
                [bashReq sessionID command; shReq sessionID command] ].
Proof.
  destruct (SliverClient.GetSession host sessionID w) as [[[err|session] w0] tr0] eqn:Hget.
  - destruct (lookup_failure_run host ∅ sessionID command w w0 tr0 err Hget)
      as (-> & _ & _).
    rewrite GetSession_cases in Hget. injection Hget as _ _ <-.
    exists []. split; [reflexivity | apply list_elem_of_here].
  - rewrite GetSession_cases in Hget.
    destruct (rpcGetSessions host w) as [[e|sessions] w'] eqn:Hrpc; [discriminate|].
    cbn [fst snd] in Hget.
    destruct (List.find _ sessions) as [s|] eqn:Hfind; [|discriminate].
    injection Hget as -> -> _.
    rewrite (Execute_found host sessionID command w w0 sessions session Hrpc Hfind).
    cbv zeta. unfold primaryReq.
    destruct (String.eqb (Strings.ToLower (OS session)) "windows").
    + destruct (rpcExecute host _ w0) as [[e1|x1] w1].
      * destruct (rpcExecute host _ w1) as [[e2|x2] w2];
          (exists [cmdReq sessionID command; psReq sessionID command];
           split; [reflexivity | do 2 apply list_elem_of_further; apply list_elem_of_here]).
      * exists [cmdReq sessionID command].
        split; [reflexivity | apply list_elem_of_further, list_elem_of_here].
    + destruct (rpcExecute host _ w0) as [[e1|x1] w1].
      * destruct (rpcExecute host _ w1) as [[e2|x2] w2];
          (exists [bashReq sessionID command; shReq sessionID command];
           split; [reflexivity | do 4 apply list_elem_of_further; apply list_elem_of_here]).
      * exists [bashReq sessionID command].
        split; [reflexivity | do 3 apply list_elem_of_further; apply list_elem_of_here].
Qed.

Lemma omap_fmap_other {A} (f : Event -> option A) (reqs : list ExecuteReq) :
  (forall r, f (EvExecute r) = None) -> omap f (EvExecute <$> reqs) = [].
Proof.
  intros Hf. induction reqs as [|r reqs IH]; [reflexivity|].
  simpl. now rewrite Hf.
Qed.

Lemma executeCalls_fmap (reqs : list ExecuteReq) :
  executeCalls (EvExecute <$> reqs) = reqs.
Proof.
  unfold executeCalls. induction reqs as [|r reqs IH]; [reflexivity|].
  simpl. now f_equal.
Qed.

(** (X5) Whatever the server answers, a request [execute] sends at most
    two execution requests, the primary one and the fallback of the same
    shell family, each for the session and the command of the arguments;
    it never sends a build or a profile.  When [sessionID] or [command]
    is missing or no string, it fails with an invalid-arguments error
    without any call to the server. *)
Theorem execute_requests_bounded {World} (host : Host World)
    (arguments : gmap string JValue) (w : World) :
  configsSent (Tools.HandleExecute host arguments w).2 = []
  /\ (asString (arguments !! "sessionID") = None
      \/ asString (arguments !! "command") = None ->
      exists message,
        Tools.HandleExecute host arguments w
        = (inl (NewInvalidArgsError message), w, []))
  /\ (forall sessionID command,
        asString (arguments !! "sessionID") = Some sessionID ->
        asString (arguments !! "command") = Some command ->
        executeCalls (Tools.HandleExecute host arguments w).2
        ∈ [ []; [cmdReq sessionID command];
            [cmdReq sessionID command; psReq sessionID command];
            [bashReq sessionID command];
            [bashReq sessionID command; shReq sessionID command] ]).
Proof.
  assert (Hrun : forall sessionID command,
            asString (arguments !! "sessionID") = Some sessionID ->
            asString (arguments !! "command") = Some command ->
            exists reqs,
              (Tools.HandleExecute host arguments w).2
              = (EvGetSessions :: if reqs is Some l
                                  then EvGetSessions :: (EvExecute <$> l) else [])
              /\ (forall l, reqs = Some l ->
                  l ∈ [ []; [cmdReq sessionID command];
                        [cmdReq sessionID command; psReq sessionID command];
                        [bashReq sessionID command];
                        [bashReq sessionID command; shReq sessionID command] ])).
  { intros sessionID command Hs Hc.
    destruct (SliverClient.GetSession host sessionID w)
      as [[[err|session] w0] tr0] eqn:Hget.
    - rewrite (proj1 (proj2 (lookup_failure_run host arguments
                                 sessionID command w w0 tr0 err Hget)) Hs Hc).
      rewrite GetSession_cases in Hget. injection Hget as _ _ <-.
      exists None. split; [reflexivity | discriminate].
    - destruct (SliverClient.Execute host sessionID command w0)
        as [[r w2] tr2] eqn:Hexec.
      rewrite (HandleExecute_run host arguments sessionID command w w0 w2 tr0 tr2
                 session r Hs Hc Hget Hexec).
      destruct (Execute_requests host sessionID command w0) as (reqs & Htr & Hin).
      rewrite Hexec in Htr. cbn [snd] in Htr. subst tr2.
      rewrite GetSession_cases in Hget. injection Hget as _ _ <-.
      exists (Some reqs). split; [reflexivity|]. now intros l [= <-]. }
  split; [|split].
  - unfold Tools.HandleExecute.
    destruct (asString (arguments !! "sessionID")) as [sessionID|] eqn:Hs; [|reflexivity].
    destruct (asString (arguments !! "command")) as [command|] eqn:Hc; [|reflexivity].
    fold (Tools.HandleExecute host arguments) in *.
    destruct (Hrun sessionID command eq_refl eq_refl) as (reqs & Htr & _).
    unfold Tools.HandleExecute in Htr. rewrite Hs, Hc in Htr. rewrite Htr.
    destruct reqs as [l|]; [|reflexivity].
    unfold configsSent. simpl. now rewrite omap_fmap_other by reflexivity.
  - unfold Tools.HandleExecute. intros [H|H].
    + rewrite H. now eexists.
    + destruct (asString (arguments !! "sessionID")); rewrite ?H; now eexists.
  - intros sessionID command Hs Hc.
    destruct (Hrun sessionID command Hs Hc) as (reqs & -> & Hin).
    destruct reqs as [l|]; [|apply list_elem_of_here].
    change (executeCalls (EvGetSessions :: EvGetSessions :: (EvExecute <$> l)))
      with (executeCalls (EvExecute <$> l)).
    rewrite executeCalls_fmap. now apply Hin.
Qed.

Lemma execute_requests_bounded_witness :
  (exists message,
     Tools.HandleExecute host0 ({[ "sessionID" := JNum 3 ]} : gmap string JValue) []
     = (inl (NewInvalidArgsError message), [], []))
  /\ executeCalls (Tools.HandleExecute host0 (executeArgs "s1" "id")
                     [inl "bash missing"; inr (mkExecute "uid=0" "" None)]).2
     ∈ [ []; [cmdReq "s1" "id"]; [cmdReq "s1" "id"; psReq "s1" "id"];
         [bashReq "s1" "id"]; [bashReq "s1" "id"; shReq "s1" "id"] ].
Proof.
  split.
  - apply (execute_requests_bounded host0 {[ "sessionID" := JNum 3 ]} []).
    left. reflexivity.
  - apply (execute_requests_bounded host0 (executeArgs "s1" "id")
             [inl "bash missing"; inr (mkExecute "uid=0" "" None)]); reflexivity.
Defined.

(* ================================================================= *)
(** ** Further properties: the text answered for an execution *)

Lemma responseText_nonempty (isWindows : bool) (execute : Execute) :
  Tools.responseText isWindows execute <> "".
Proof.
  unfold Tools.responseText.
  destruct (Tools.reportedErr execute); [discriminate|].
  destruct (_ =? _)%nat; destruct isWindows; discriminate.
Qed.

(** (X6) A request [execute] that succeeds never answers with an empty
    text: output, a reported error and the absence of output each have
    their own wording. *)
Theorem execute_answer_never_empty {World} (host : Host World)
    (arguments : gmap string JValue) (w w' : World) (tr : list Event)
    (text : string) :
  Tools.HandleExecute host arguments w = (inr text, w', tr) -> text <> "".
Proof.
  unfold Tools.HandleExecute.
  destruct (asString (arguments !! "sessionID")) as [sessionID|]; [|discriminate].
  destruct (asString (arguments !! "command")) as [command|]; [|discriminate].
  unfold mbind, M_bind, attempt, mret, M_ret.
  destruct (SliverClient.GetSession host sessionID w) as [[[err|session] w0] tr0];
    [discriminate|].
  destruct (SliverClient.Execute host sessionID command w0) as [[[err|execute] w2] tr2];
    [discriminate|].
  intros [= <- _ _]. apply responseText_nonempty.
Qed.

Lemma execute_answer_never_empty_witness :
  "Command executed successfully (no output)" <> "".
Proof.
  apply (execute_answer_never_empty host0 (executeArgs "s1" "true")
           [inr (mkExecute "" "" None)] []
           [EvGetSessions; EvGetSessions; EvExecute (bashReq "s1" "true")]).
  reflexivity.
Defined.

(** (X7) An error text reported by the session is answered as text of a
    successful call, [Failed to execute command: ...], on every OS; the
    output captured next to it is not answered. *)
Theorem reported_error_answered_as_text {World} (host : Host World)
    (arguments : gmap string JValue) (sessionID command : string)
    (w w1 w2 : World) (tr1 tr2 : list Event) (session : Session)
    (stdout stderr err : string) :
  asString (arguments !! "sessionID") = Some sessionID ->
  asString (arguments !! "command") = Some command ->
  SliverClient.GetSession host sessionID w = (inr session, w1, tr1) ->
  SliverClient.Execute host sessionID command w1
  = (inr (mkExecute stdout stderr (Some (mkResponse err))), w2, tr2) ->
  err <> "" ->
  Tools.HandleExecute host arguments w
  = (inr ("Failed to execute command: " +:+ err), w2, (tr1 ++ tr2)%list).
Proof.
  intros Hs Hc Hget Hexec Herr.
  rewrite (HandleExecute_run host arguments sessionID command w w1 w2 tr1 tr2
             session _ Hs Hc Hget Hexec).
  unfold Tools.responseText, Tools.reportedErr. cbn [ExecResponse Err].
  apply String.eqb_neq in Herr. now rewrite Herr.
Qed.

Lemma reported_error_answered_as_text_witness :
  Tools.HandleExecute host0 (executeArgs "s2" "dir")
    [inr (mkExecute "partial" "" (Some (mkResponse "access denied")))]
  = (inr ("Failed to execute command: " +:+ "access denied"), [],
     ([EvGetSessions] ++ [EvGetSessions; EvExecute (cmdReq "s2" "dir")])%list).
Proof.
  apply (reported_error_answered_as_text host0 (executeArgs "s2" "dir") "s2" "dir"
           [inr (mkExecute "partial" "" (Some (mkResponse "access denied")))]
           [inr (mkExecute "partial" "" (Some (mkResponse "access denied")))] []
           [EvGetSessions] [EvGetSessions; EvExecute (cmdReq "s2" "dir")]
           windowsSession "partial" "" "access denied"); try reflexivity.
  discriminate.
Defined.

(* ================================================================= *)
(** ** Further properties: what the Windows normalization does to text *)

Lemma replaceFrom_absent (old new s : string) :
  Strings.Contains s old = false -> Strings.replaceFrom old new 0 s = s.
Proof.
  induction s as [|c s IH]; [reflexivity|]. intros H.
  pose proof (Contains_tail c s old H) as Hs.
  simpl in H. apply orb_false_iff in H as [Hc _].
  simpl. rewrite Hc. now rewrite (IH Hs).
Qed.

Lemma ReplaceAll_absent (s old new : string) :
  old <> "" -> Strings.Contains s old = false -> Strings.ReplaceAll s old new = s.
Proof.
  intros Hne H. unfold Strings.ReplaceAll.
  destruct old; [contradiction | now apply replaceFrom_absent].
Qed.

Lemma absent_stripNUL (c : ascii) (s : string) :
  absent c s = true -> absent c (Spec.stripNUL s) = true.
Proof.
  induction s as [|d s IH]; [reflexivity|]. simpl. intros H.
  apply andb_true_iff in H as [Hd Hs].
  destruct (Ascii.eqb d "000"); simpl; [now apply IH | now rewrite Hd, IH].
Qed.

Lemma replaceFrom_marker_cons (c : ascii) (x : string) :
  Ascii.eqb c "#" = false ->
  Strings.replaceFrom "##CRLF##" LF 0 (String c x)
  = String c (Strings.replaceFrom "##CRLF##" LF 0 x).
Proof.
  intros H. cbn [Strings.replaceFrom Strings.HasPrefix]. now rewrite H.
Qed.

Lemma crToLF_cons (c : ascii) (x : string) :
  Spec.crToLF (String c x)
  = String (if Ascii.eqb c "013" then "010"%char else c) (Spec.crToLF x).
Proof. reflexivity. Qed.

Lemma markCRLF_cons2 (c d : ascii) (s : string) :
  Spec.markCRLF (String c (String d s))
  = if Ascii.eqb c "013" && Ascii.eqb d "010"
    then "##CRLF##" +:+ Spec.markCRLF s
    else String c (Spec.markCRLF (String d s)).
Proof. reflexivity. Qed.

Lemma unifyLineEndings_cons2 (c d : ascii) (s : string) :
  unifyLineEndings (String c (String d s))
  = if Ascii.eqb c "013"
    then if Ascii.eqb d "010" then String "010" (unifyLineEndings s)
         else String "010" (unifyLineEndings (String d s))
    else String c (unifyLineEndings (String d s)).
Proof. reflexivity. Qed.

(** Without [#] in the text, marking, converting and restoring come to the
    one-pass conversion. *)
Lemma three_steps_unify (s : string) :
  absent "#" s = true ->
  Spec.restoreCRLF (Spec.crToLF (Spec.markCRLF s)) = unifyLineEndings s.
Proof.
  enough (H : (absent "#" s = true ->
               Spec.restoreCRLF (Spec.crToLF (Spec.markCRLF s)) = unifyLineEndings s)
              /\ forall c, absent "#" (String c s) = true ->
                           Spec.restoreCRLF (Spec.crToLF (Spec.markCRLF (String c s)))
                           = unifyLineEndings (String c s)) by apply H.
  unfold Spec.restoreCRLF, Strings.ReplaceAll.
  induction s as [|d s [IH1 IH2]]; split.
  - reflexivity.
  - intros c Hc. simpl in Hc. rewrite andb_true_r in Hc.
    simpl. destruct (Ascii.eqb_spec c "013") as [->|Hcr]; [reflexivity|].
    simpl. destruct (Ascii.eqb c "#"); [discriminate | reflexivity].
  - apply IH2.
  - intros c Hc.
    assert (Hds : absent "#" (String d s) = true)
      by (simpl in Hc; now apply andb_true_iff in Hc as [_ Hc]).
    assert (Hs : absent "#" s = true)
      by (simpl in Hds; now apply andb_true_iff in Hds as [_ Hds]).
    assert (Hcc : Ascii.eqb c "#" = false)
      by (simpl in Hc; apply andb_true_iff in Hc as [Hc _];
          now apply negb_true_iff in Hc).
    rewrite markCRLF_cons2, unifyLineEndings_cons2.
    destruct (Ascii.eqb c "013") eqn:E; cbn [andb].
    + apply Ascii.eqb_eq in E as ->.
      destruct (Ascii.eqb d "010").
      * simpl. now rewrite (IH1 Hs).
      * rewrite crToLF_cons. cbn [Ascii.eqb Bool.eqb].
        rewrite replaceFrom_marker_cons by reflexivity.
        now rewrite (IH2 d Hds).
    + rewrite crToLF_cons, E, replaceFrom_marker_cons by assumption.
      now rewrite (IH2 d Hds).
Qed.

(** (X8) For captured output without the byte [#], the Windows
    normalization is: drop the NUL bytes, turn every CRLF and every lone
    CR into one LF, trim. *)
Theorem normalization_unifies_line_endings (output : string) :
  absent "#" output = true ->
  Tools.normalizeWindowsOutput output
  = Strings.TrimSpace (unifyLineEndings (Spec.stripNUL output)).
Proof.
  intros H. rewrite normalizeWindowsOutput_spec. unfold Spec.normalize.
  now rewrite three_steps_unify by now apply absent_stripNUL.
Qed.

Lemma normalization_unifies_line_endings_witness :
  Tools.normalizeWindowsOutput ("a" +:+ CR +:+ "b" +:+ CR +:+ LF +:+ NUL +:+ LF +:+ "c ")
  = Strings.TrimSpace
      (unifyLineEndings
         (Spec.stripNUL ("a" +:+ CR +:+ "b" +:+ CR +:+ LF +:+ NUL +:+ LF +:+ "c "))).
Proof. apply normalization_unifies_line_endings. reflexivity. Defined.

(** (X9) For captured output with neither NUL nor CR, the Windows
    normalization replaces every occurrence of the text [##CRLF##], the
    temporary marker, by LF and trims; output in which the marker does
    not occur is trimmed and otherwise unchanged. *)
Theorem marker_text_is_replaced (output : string) :
  absent "000" output = true ->
  absent "013" output = true ->
  Tools.normalizeWindowsOutput output
  = Strings.TrimSpace (Strings.ReplaceAll output "##CRLF##" LF)
  /\ (Strings.Contains output "##CRLF##" = false ->
      Tools.normalizeWindowsOutput output = Strings.TrimSpace output).
Proof.
  intros H0 H13.
  assert (Hnul : Strings.Contains output NUL = false)
    by (rewrite absent_Contains in H0; now apply negb_true_iff in H0).
  assert (Hcr : Strings.Contains output CR = false)
    by (rewrite absent_Contains in H13; now apply negb_true_iff in H13).
  assert (E : Tools.normalizeWindowsOutput output
              = Strings.TrimSpace (Strings.ReplaceAll output "##CRLF##" LF)).
  { unfold Tools.normalizeWindowsOutput.
    rewrite (ReplaceAll_absent output NUL "") by (discriminate || assumption).
    rewrite (ReplaceAll_absent output (CR +:+ LF) "##CRLF##");
      [|discriminate | now apply Contains_app_m].
    now rewrite (ReplaceAll_absent output CR LF) by (discriminate || assumption). }
  split; [exact E|].
  intros Hm. rewrite E. now rewrite ReplaceAll_absent by (discriminate || assumption).
Qed.

Lemma marker_text_is_replaced_witness :
  Tools.normalizeWindowsOutput "echo ##CRLF## done"
  = Strings.TrimSpace (Strings.ReplaceAll "echo ##CRLF## done" "##CRLF##" LF)
  /\ Tools.normalizeWindowsOutput " plain text " = Strings.TrimSpace " plain text ".
Proof.
  split.
  - apply (marker_text_is_replaced "echo ##CRLF## done"); reflexivity.
  - apply (marker_text_is_replaced " plain text "); reflexivity.
Defined.

(* ================================================================= *)
(** ** Further properties: what the URL check accepts *)

Lemma splitFrom_colon_length (s : string) :
  List.length (Strings.splitFrom ":" 0 s) = S (Strings.countFrom ":" 0 s).
Proof.
  induction s as [|c s IH]; [reflexivity|].
  cbn [Strings.splitFrom Strings.countFrom Strings.HasPrefix String.length Nat.sub].
  rewrite andb_true_r. destruct (Ascii.eqb c ":").
  - cbn [List.length]. now rewrite IH.
  - destruct (Strings.splitFrom ":" 0 s) as [|f fs]; [discriminate IH | exact IH].
Qed.

Lemma splitFrom_colon_whole (s : string) :
  Strings.countFrom ":" 0 s = 0%nat -> Strings.splitFrom ":" 0 s = [s].
Proof.
  induction s as [|c s IH]; [reflexivity|].
  cbn [Strings.splitFrom Strings.countFrom Strings.HasPrefix String.length Nat.sub].
  rewrite andb_true_r. destruct (Ascii.eqb c ":"); [discriminate|].
  intros H. now rewrite (IH H).
Qed.

Lemma countFrom_slash_pos (s : string) :
  Strings.Contains s "/" = true -> (0 < Strings.countFrom "/" 0 s)%nat.
Proof.
  induction s as [|c s IH]; [discriminate|].
  cbn [Strings.Contains Strings.countFrom Strings.HasPrefix String.length Nat.sub].
  rewrite andb_true_r. destruct (Ascii.eqb c "/"); [lia | exact IH].
Qed.

(** (X10) An [mtls://] URL passes the check exactly when what follows
    the scheme holds one colon, or holds no colon and is not empty.
    Nothing else is looked at: host and port may be empty, and a host
    with two colons or more is refused. *)
Theorem mtls_url_accepted (i : nat) (priority : Z) (rest : string) :
  Tools.validateC2URL i {| Priority := priority; URL := "mtls://" +:+ rest |} = None
  <-> (Strings.Count rest ":" = 1%nat
       \/ (Strings.Count rest ":" = 0%nat /\ rest <> "")).
Proof.
  unfold Tools.validateC2URL. cbn [URL].
  change (String.eqb ("mtls://" +:+ rest) "") with false.
  change (Strings.HasPrefix ("mtls://" +:+ rest) "mtls://") with true.
  change (Strings.TrimPrefix ("mtls://" +:+ rest) "mtls://") with rest.
  cbv iota. unfold Strings.Split, Strings.Count.
  rewrite splitFrom_colon_length.
  destruct (Strings.countFrom ":" 0 rest) as [|[|n]] eqn:E.
  - rewrite (splitFrom_colon_whole rest E). cbn.
    destruct (String.eqb_spec rest "") as [Hr|Hr]; cbn; split.
    + discriminate.
    + intros [H|[_ H]]; [discriminate | contradiction].
    + intros _. now right.
    + reflexivity.
  - cbn. split; auto.
  - cbn. split; [discriminate|]. intros [H|[H _]]; discriminate.
Qed.

(** (X11) An [http://] or [https://] URL passes the check exactly when a
    slash occurs after the scheme: a bare [http://host] or
    [http://host:port] is refused, any text with a slash is accepted,
    with or without a host before it. *)
Theorem http_url_accepted (i : nat) (priority : Z) (rest : string) :
  (Tools.validateC2URL i {| Priority := priority; URL := "http://" +:+ rest |} = None
   <-> Strings.Contains rest "/" = true)
  /\ (Tools.validateC2URL i {| Priority := priority; URL := "https://" +:+ rest |} = None
      <-> Strings.Contains rest "/" = true).
Proof.
  destruct (Strings.Contains rest "/") eqn:E.
  - pose proof (countFrom_slash_pos rest E) as Hpos.
    unfold Tools.validateC2URL, Strings.Count. cbn.
    destruct (Strings.countFrom "/" 0 rest) as [|n]; [lia|].
    split; split; reflexivity.
  - destruct (validateC2URL_bare i priority rest E) as [-> ->].
    split; split; discriminate.
Qed.

Lemma validateC2URLs_first (c2s : list ImplantC2) (i : nat) (err : string) :
  Tools.validateC2URLs i c2s = Some err <->
  exists k c2,
    c2s !! k = Some c2
    /\ Tools.validateC2URL (i + k) c2 = Some err
    /\ forall j c2', (j < k)%nat -> c2s !! j = Some c2' ->
                     Tools.validateC2URL (i + j) c2' = None.
Proof.
  revert i. induction c2s as [|c2 rest IH]; intros i.
  - split; [discriminate | now intros (k & c & H & _)].
  - cbn [Tools.validateC2URLs].
    destruct (Tools.validateC2URL i c2) as [e|] eqn:E.
    + split.
      * intros [= <-]. exists 0%nat, c2. rewrite Nat.add_0_r.
        repeat split; auto. intros j c' Hj. lia.
      * intros ([|k] & c & Hk & Hv & Hbefore).
        -- injection Hk as <-. rewrite Nat.add_0_r in Hv. congruence.
        -- specialize (Hbefore 0%nat c2 ltac:(lia) eq_refl).
           rewrite Nat.add_0_r in Hbefore. congruence.
    + rewrite IH. split.
      * intros (k & c & Hk & Hv & Hbefore). exists (S k), c.
        rewrite Nat.add_succ_r. repeat split; auto.
        intros [|j] c' Hj Hl.
        -- injection Hl as <-. now rewrite Nat.add_0_r.
        -- rewrite Nat.add_succ_r. apply Hbefore; [lia | exact Hl].
      * intros ([|k] & c & Hk & Hv & Hbefore).
        -- injection Hk as <-. rewrite Nat.add_0_r in Hv. congruence.
        -- exists k, c. rewrite Nat.add_succ_r in Hv. repeat split; auto.
           intros j c' Hj Hl. specialize (Hbefore (S j) c' ltac:(lia) Hl).
           now rewrite Nat.add_succ_r in Hbefore.
Qed.

Lemma validateC2URLs_all (c2s : list ImplantC2) (i : nat) :
  Tools.validateC2URLs i c2s = None <->
  forall k c2, c2s !! k = Some c2 -> Tools.validateC2URL (i + k) c2 = None.
Proof.
  revert i. induction c2s as [|c2 rest IH]; intros i.
  - split; [intros _ k c H; discriminate H | reflexivity].
  - cbn [Tools.validateC2URLs]. split.
    + destruct (Tools.validateC2URL i c2) eqn:E; [discriminate|].
      intros H [|k] c Hk.
      * injection Hk as <-. now rewrite Nat.add_0_r.
      * rewrite Nat.add_succ_r. now apply (proj1 (IH (S i)) H).
    + intros H. pose proof (H 0%nat c2 eq_refl) as H0.
      rewrite Nat.add_0_r in H0. rewrite H0. apply IH.
      intros k c Hk. specialize (H (S k) c Hk). now rewrite Nat.add_succ_r in H.
Qed.

(** (X12) The endpoints are checked in order and the first one that
    fails decides the error, with its position in the list of endpoints
    in the message; the list passes exactly when every endpoint
    passes. *)
Theorem validation_reports_first_failure (c2s : list ImplantC2) :
  (Tools.validateC2URLs 0 c2s = None <->
   forall k c2, c2s !! k = Some c2 -> Tools.validateC2URL k c2 = None)
  /\ (forall err,
        Tools.validateC2URLs 0 c2s = Some err <->
        exists k c2,
          c2s !! k = Some c2
          /\ Tools.validateC2URL k c2 = Some err
          /\ forall j c2', (j < k)%nat -> c2s !! j = Some c2' ->
                           Tools.validateC2URL j c2' = None).
Proof.
  split; [apply (validateC2URLs_all c2s 0) | intros err; apply (validateC2URLs_first c2s 0)].
Qed.

(* ================================================================= *)
(** ** Further properties: what a build request sends *)

Lemma rpcCalls_omap (tr : list Event) :
  rpcCalls tr = omap (fun e => if isPrintf e then None else Some e) tr.
Proof.
  unfold rpcCalls. induction tr as [|e tr IH]; [reflexivity|].
  destruct e; simpl; now rewrite IH.
Qed.

Lemma rpcCalls_app (tr1 tr2 : list Event) :
  rpcCalls (tr1 ++ tr2) = (rpcCalls tr1 ++ rpcCalls tr2)%list.
Proof. unfold rpcCalls. apply List.filter_app. Qed.

Lemma rpcCalls_Printf (lines : list string) : rpcCalls (EvPrintf <$> lines) = [].
Proof. rewrite rpcCalls_omap. now apply omap_fmap_Printf. Qed.

Lemma bind_run {World A B} (m : M World A) (k : A -> M World B) (w : World) :
  (m ≫= k) w
  = match m w with
    | (inl e, w', tr) => (inl e, w', tr)
    | (inr x, w', tr) => let '(r, w'', tr') := k x w' in (r, w'', (tr ++ tr')%list)
    end.
Proof. reflexivity. Qed.

(** [Generate] makes one call, with the normalized configuration. *)
Lemma Generate_calls {World} (host : Host World) (config : ImplantConfig)
    (name : string) (w : World) :
  let config' := SliverClient.normalizeConfig config name in
  exists tr,
    SliverClient.Generate host config name w
    = (match (rpcGenerate host config' w).1 with
       | inl err =>
           inl (SliverClient.generateError err
                  (GOOS config' +:+ "/" +:+ GOARCH config')
                  (OutputFormat_String (Format config')))
       | inr generate => inr (config', generate)
       end, (rpcGenerate host config' w).2, tr)
    /\ rpcCalls tr = [EvGenerate config'].
Proof.
  intros config'. unfold SliverClient.Generate. fold config'.
  enough (H : exists tr,
            SliverClient.Generate host config name w
            = (match (rpcGenerate host config' w).1 with
               | inl err =>
                   inl (SliverClient.generateError err
                          (GOOS config' +:+ "/" +:+ GOARCH config')
                          (OutputFormat_String (Format config')))
               | inr generate => inr (config', generate)
               end, (rpcGenerate host config' w).2, tr)
            /\ omap (fun e => if isPrintf e then None else Some e) tr
               = [EvGenerate config']).
  { destruct H as (tr & E & H). exists tr. split; [exact E|].
    now rewrite rpcCalls_omap. }
  unfold SliverClient.Generate. fold config'.
  repeat (apply step_prints;
          [ reflexivity
          | solve [prints; auto using reportCompiler_prints with prints]
          | intros ]).
  unfold mbind, M_bind, call.
  destruct (rpcGenerate host config' w) as [[err|generate] w']; cbv beta iota.
  - rewrite PrintfAll_run. eexists. split; [reflexivity|].
    simpl. rewrite omap_app, omap_fmap_Printf by reflexivity. reflexivity.
  - eexists. split; reflexivity.
Qed.

Lemma generateImplant_calls {World} (host : Host World)
    (config : ImplantConfig) (name platform : string) (w : World) :
  let config' := SliverClient.normalizeConfig config name in
  exists tr,
    Tools.generateImplant host config name platform w
    = (match (rpcGenerate host config' w).1 with
       | inl err =>
           inl (Tools.buildError
                  (SliverClient.generateError err
                     (GOOS config' +:+ "/" +:+ GOARCH config')
                     (OutputFormat_String (Format config')))
                  platform)
       | inr generate => inr (config', generate)
       end, (rpcGenerate host config' w).2, tr)
    /\ rpcCalls tr = [EvGenerate config'].
Proof.
  intros config'.
  destruct (Generate_calls host config name w) as (tr & E & Hsent).
  fold config' in E, Hsent.
  exists tr. split; [|exact Hsent].
  unfold Tools.generateImplant, mbind, M_bind, attempt. rewrite E.
  destruct (rpcGenerate host config' w) as [[err|generate] w']; simpl;
    now rewrite app_nil_r.
Qed.

Lemma resolveC2_quiet {World} (fmt_v : JValue -> string) (m : gmap string JValue)
    (w : World) :
  exists r lines, Tools.resolveC2 fmt_v m w = (r, w, EvPrintf <$> lines).
Proof.
  destruct (asSlice (m !! "c2")) as [[|x xs]|] eqn:E.
  2: { rewrite (resolveC2_structured fmt_v m x xs w E). now eexists _, []. }
  all: rewrite resolveC2_skip_c2 by (intros x xs E'; congruence).
  all: destruct (asSlice (m !! "mtlsc2")) as [l|];
    [now eexists _, (Tools.mtlsWarnings fmt_v 0 l)|].
  all: repeat case_match; now eexists _, [].
Qed.

Lemma checkToolchain_run {World} (host : Host World) (c : ImplantConfig) (w : World) :
  Tools.checkToolchain host c w
  = (if String.eqb (GOOS c) "windows"
        && (String.eqb (GOARCH c) "amd64" || String.eqb (GOARCH c) "386")
        && statNotExist host (mingwCompiler (GOARCH c)) w
     then inl ("missing required compiler for Windows/" +:+ GOARCH c +:+ ": "
                 +:+ mingwCompiler (GOARCH c)
                 +:+ " - please install mingw-w64 package")
     else inr tt, w, []).
Proof.
  unfold Tools.checkToolchain, mingwCompiler.
  destruct (String.eqb (GOOS c) "windows"); [|reflexivity]. cbn [andb].
  destruct (String.eqb_spec (GOARCH c) "amd64") as [->|Ha].
  - cbn. unfold mbind, M_bind, readWorld.
    now destruct (statNotExist host _ w).
  - destruct (String.eqb_spec (GOARCH c) "386") as [->|Hb]; [|reflexivity].
    cbn. unfold mbind, M_bind, readWorld.
    now destruct (statNotExist host _ w).
Qed.

Section Build.
Context {World : Type} (host : Host World).
Variable fmt_v : JValue -> string.
Variable int64 : Z -> Z.
Variable json_Marshal : gmap string JValue -> string.
Variable saveImplant :
  bool -> option string -> string -> ImplantConfig -> string -> string ->
  World -> (string + string) * World.

Lemma Printf_bind {A} (t : string) (k : M World A) (w : World) :
  (Printf t ;; k) w = let '(r, w', tr) := k w in (r, w', EvPrintf t :: tr).
Proof. unfold mbind, M_bind, Printf. now destruct (k w) as [[r w'] tr]. Qed.

(** [HandleGenerateImplant] from "Process C2 configuration" on, step by
    step, once the endpoints are resolved. *)
Lemma composeAndGenerate_run (arguments configMap : gmap string JValue)
    (c : ImplantConfig) (platform : string) (w : World)
    (r : string + bool * list ImplantC2) (lines : list string) :
  Tools.resolveC2 fmt_v configMap w = (r, w, EvPrintf <$> lines) ->
  exists announced,
    Tools.composeAndGenerate host fmt_v int64 saveImplant arguments configMap c platform w
    = match r with
      | inl e => (inl e, w, EvPrintf <$> lines)
      | inr (found, c2s) =>
          if negb found || (List.length c2s =? 0)%nat
          then (inl Tools.noC2Error, w, EvPrintf <$> lines)
          else
            match Tools.validateC2URLs 0 c2s with
            | Some err => (inl err, w, EvPrintf <$> lines)
            | None =>
                let cfg := Tools.copyFlags int64 configMap (set_C2 c2s c) in
                match (Tools.checkToolchain host cfg w).1.1 with
                | inl e => (inl e, w, EvPrintf <$> announced)
                | inr _ =>
                    let '(r3, w3, tr3) :=
                      Tools.generateImplant host cfg (implantName arguments) platform w in
                    match r3 with
                    | inl e => (inl e, w3, ((EvPrintf <$> announced) ++ tr3)%list)
                    | inr (cfg', generate) =>
                        match GenFile generate with
                        | Some (mkFile fileName (Some data)) =>
                            let '(r4, w4) :=
                              saveImplant
                                (match asBool (arguments !! "includeBinary") with
                                 | Some includeParam => includeParam
                                 | None => false
                                 end)
                                (asString (arguments !! "outputDir"))
                                (implantName arguments) cfg' fileName data w3 in
                            (r4, w4, ((EvPrintf <$> announced) ++ tr3)%list)
                        | _ =>
                            (inl "failed to generate implant: no file data returned from server - build may have failed",
                             w3, ((EvPrintf <$> announced) ++ tr3)%list)
                        end
                    end
                end
            end
      end.
Proof.
  intros E. unfold Tools.composeAndGenerate. rewrite bind_run, E.
  destruct r as [e|[found c2s]]; [now exists []|].
  cbv beta iota zeta. cbn [C2 set_C2].
  destruct (negb found || _);
    [exists []; unfold throw; now rewrite app_nil_r|].
  destruct (Tools.validateC2URLs 0 c2s) as [err|];
    [exists []; unfold throw; now rewrite app_nil_r|].
  fold (implantName arguments).
  set (cfg := Tools.copyFlags int64 configMap (set_C2 c2s c)).
  eexists (lines ++ [_; _])%list.
  rewrite !Printf_bind, bind_run, checkToolchain_run. cbn [fst snd].
  destruct (_ && _ && _).
  - cbv beta iota. rewrite fmap_app. reflexivity.
  - cbv beta iota. rewrite bind_run.
    destruct (Tools.generateImplant host cfg (implantName arguments) platform w)
      as [[[e|[cfg' generate]] w3] tr3]; cbv beta iota.
    + rewrite fmap_app, <- app_assoc. reflexivity.
    + destruct (GenFile generate) as [[fileName [data|]]|]; unfold io, throw.
      * destruct (saveImplant _ _ _ _ _ _ w3) as [r4 w4]. cbv beta iota.
        rewrite fmap_app, <- app_assoc, app_nil_r. reflexivity.
      * rewrite fmap_app, <- app_assoc, app_nil_r. reflexivity.
      * rewrite fmap_app, <- app_assoc, app_nil_r. reflexivity.
Qed.

Lemma copyFlags_fields (m : gmap string JValue) (c : ImplantConfig) :
  GOOS (Tools.copyFlags int64 m c) = GOOS c
  /\ GOARCH (Tools.copyFlags int64 m c) = GOARCH c
  /\ C2 (Tools.copyFlags int64 m c) = C2 c
  /\ Name (Tools.copyFlags int64 m c) = Name c
  /\ IsSharedLib (Tools.copyFlags int64 m c) = IsSharedLib c
  /\ IsShellcode (Tools.copyFlags int64 m c) = IsShellcode c
  /\ IsService (Tools.copyFlags int64 m c) = IsService c.
Proof. unfold Tools.copyFlags. repeat case_match; repeat split; reflexivity. Qed.

Lemma absent_app_slash (a b : string) : absent "/" (a +:+ String "/" b) = false.
Proof.
  induction a as [|c a IH]; [reflexivity|].
  change (String c a +:+ String "/" b) with (String c (a +:+ String "/" b)).
  cbn [absent]. rewrite IH. apply andb_false_r.
Qed.

(** A platform text has one reading as OS and architecture when neither
    holds a slash. *)
Lemma platform_split (a b p q : string) :
  absent "/" p = true -> absent "/" q = true ->
  a +:+ "/" +:+ b = p +:+ "/" +:+ q -> a = p /\ b = q.
Proof.
  intros Hp Hq. revert a. induction p as [|d p IH]; intros a H.
  - destruct a as [|c a]; [now injection H|].
    injection H as -> H. rewrite <- H, absent_app_slash in Hq. discriminate.
  - cbn [absent] in Hp. apply andb_true_iff in Hp as [Hd Hp].
    destruct a as [|c a].
    + injection H as <- _. discriminate Hd.
    + injection H as -> H. destruct (IH Hp a H) as [-> ->]. now split.
Qed.

Lemma supported_pairs_cases (goos goarch : string) :
  is_Some (supportedPlatforms !! (goos +:+ "/" +:+ goarch)) ->
  (goos, goarch) ∈ Spec.supportedPairs.
Proof.
  intros H. apply supported_cases in H. unfold Spec.supportedPairs.
  repeat (apply elem_of_cons in H as [H|H];
          [ first
              [ apply (platform_split goos goarch "windows" "amd64") in H
              | apply (platform_split goos goarch "windows" "386") in H
              | apply (platform_split goos goarch "linux" "amd64") in H
              | apply (platform_split goos goarch "linux" "386") in H
              | apply (platform_split goos goarch "darwin" "amd64") in H
              | apply (platform_split goos goarch "darwin" "arm64") in H ];
            [destruct H as [-> ->]; compute_done | reflexivity | reflexivity]
          |]).
  now apply elem_of_nil in H.
Qed.

(** The client leaves a platform the handler accepted as it is: its own
    defaults and aliases do not apply. *)
Lemma normalizeConfig_supported (c : ImplantConfig) (name : string) :
  is_Some (supportedPlatforms !! Tools.platformOf c) ->
  name <> "" ->
  SliverClient.normalizeConfig c name = set_Name name c.
Proof.
  intros Hs Hn. unfold Tools.platformOf in Hs.
  apply supported_pairs_cases in Hs. unfold Spec.supportedPairs in Hs.
  destruct c as [goos goarch]. cbn [GOOS GOARCH] in Hs.
  unfold SliverClient.normalizeConfig.
  destruct (String.eqb_spec name "") as [|_]; [contradiction|].
  repeat (apply elem_of_cons in Hs as [Hs|Hs];
          [injection Hs as -> ->; reflexivity|]).
  now apply elem_of_nil in Hs.
Qed.

Lemma implantName_nonempty (arguments : gmap string JValue) :
  implantName arguments <> "".
Proof. unfold implantName. repeat case_match; discriminate. Qed.

Lemma rpcCalls_warning (warning : option string) (tr : list Event) :
  rpcCalls (match warning with Some t => [EvPrintf t] | None => [] end ++ tr)
  = rpcCalls tr.
Proof. now destruct warning. Qed.

Lemma composedConfig_wellFormed (arguments configMap : gmap string JValue)
    (c2s : list ImplantC2) :
  is_Some (supportedPlatforms !! Tools.platformOf (Tools.platformConfig configMap)) ->
  c2s <> [] -> Tools.validateC2URLs 0 c2s = None ->
  SliverClient.normalizeConfig (composedConfig int64 configMap c2s)
    (implantName arguments)
  = set_Name (implantName arguments) (composedConfig int64 configMap c2s)
  /\ wellFormedBuild arguments
       (set_Name (implantName arguments) (composedConfig int64 configMap c2s)).
Proof.
  intros Hs Hne Hv.
  pose proof (copyFlags_fields configMap
                (set_C2 c2s (set_Format EXECUTABLE (Tools.platformConfig configMap))))
    as (Hos & Harch & Hc2 & Hname & Hlib & Hshell & Hsvc).
  assert (Hp : Tools.platformOf (composedConfig int64 configMap c2s)
               = Tools.platformOf (Tools.platformConfig configMap)).
  { unfold Tools.platformOf, composedConfig. now rewrite Hos, Harch. }
  split.
  - apply normalizeConfig_supported; [now rewrite Hp | apply implantName_nonempty].
  - unfold wellFormedBuild, composedConfig.
    change (Tools.platformOf (set_Name ?n ?c)) with (Tools.platformOf c).
    cbn [C2 Name Format IsSharedLib IsShellcode IsService set_Name].
    fold (composedConfig int64 configMap c2s). rewrite Hp.
    unfold composedConfig. rewrite Hc2, Hlib, Hshell, Hsvc, Format_copyFlags.
    cbn. repeat split; auto using implantName_nonempty.
Qed.

Abbreviation build := (Tools.HandleGenerateImplant host fmt_v int64 saveImplant).

(** (X13) Whatever the request and whatever the server answers,
    [generate_implant] makes no call to the server or exactly one, a
    build; the configuration of that build has a supported platform, at
    least one endpoint, endpoints that pass the URL check, a non-empty
    name (the one asked for, or [generated-implant]) and the executable
    format with no library, shellcode or service flag. *)
Theorem build_requests_well_formed (arguments : gmap string JValue) (w : World) :
  rpcCalls (build arguments w).2 = []
  \/ exists c,
       rpcCalls (build arguments w).2 = [EvGenerate c]
       /\ wellFormedBuild arguments c.
Proof.
  destruct (asMap (arguments !! "config")) as [configMap|] eqn:Ec.
  2: { left. unfold Tools.HandleGenerateImplant. now rewrite Ec. }
  rewrite (HandleGenerateImplant_config host fmt_v int64 saveImplant arguments
             configMap w Ec).
  cbv zeta.
  destruct (supportedPlatforms !! Tools.platformOf (Tools.platformConfig configMap))
    as [b|] eqn:Es; [|now left].
  destruct (resolveC2_quiet fmt_v configMap w) as (r & lines & E).
  destruct (composeAndGenerate_run arguments configMap
              (set_Format EXECUTABLE (Tools.platformConfig configMap))
              (Tools.platformOf (Tools.platformConfig configMap)) w r lines E)
    as (announced & ->).
  destruct r as [e|[found c2s]].
  { left. cbn [snd]. now rewrite rpcCalls_warning, rpcCalls_Printf. }
  destruct (negb found || _) eqn:Ef.
  { left. cbn [snd]. now rewrite rpcCalls_warning, rpcCalls_Printf. }
  destruct (Tools.validateC2URLs 0 c2s) eqn:Ev.
  { left. cbn [snd]. now rewrite rpcCalls_warning, rpcCalls_Printf. }
  cbv zeta. fold (composedConfig int64 configMap c2s).
  destruct ((Tools.checkToolchain host _ w).1.1).
  { left. cbn [snd]. now rewrite rpcCalls_warning, rpcCalls_Printf. }
  assert (Hne : c2s <> []).
  { apply orb_false_iff in Ef as [_ Ef]. now destruct c2s. }
  destruct (composedConfig_wellFormed arguments configMap c2s
              ltac:(now exists b) Hne Ev) as [Hn Hwf].
  destruct (generateImplant_calls host (composedConfig int64 configMap c2s)
              (implantName arguments)
              (Tools.platformOf (Tools.platformConfig configMap)) w)
    as (tr3 & E3 & H3).
  rewrite Hn in E3, H3. rewrite E3.
  right. exists (set_Name (implantName arguments) (composedConfig int64 configMap c2s)).
  split; [|exact Hwf].
  destruct ((rpcGenerate host _ w).1) as [err|generate].
  - cbn [snd]. now rewrite rpcCalls_warning, rpcCalls_app, rpcCalls_Printf.
  - destruct (GenFile generate) as [[fileName [data|]]|];
      [destruct (saveImplant _ _ _ _ _ _ _) as [r4 w4]|..];
      cbn [snd]; now rewrite rpcCalls_warning, rpcCalls_app, rpcCalls_Printf.
Qed.

Lemma checkToolchain_passes (configMap : gmap string JValue) (c2s : list ImplantC2)
    (w : World) :
  (GOOS (Tools.platformConfig configMap) = "windows" ->
   statNotExist host (mingwCompiler (GOARCH (Tools.platformConfig configMap))) w = false) ->
  Tools.checkToolchain host (composedConfig int64 configMap c2s) w = (inr tt, w, []).
Proof.
  intros H. rewrite checkToolchain_run.
  pose proof (copyFlags_fields configMap
                (set_C2 c2s (set_Format EXECUTABLE (Tools.platformConfig configMap))))
    as (Hos & Harch & _).
  unfold composedConfig. rewrite Hos, Harch. cbn [GOOS GOARCH set_C2 set_Format].
  destruct (String.eqb_spec (GOOS (Tools.platformConfig configMap)) "windows") as [Hw|Hw];
    [|reflexivity].
  rewrite (H Hw). now rewrite andb_false_r.
Qed.

(** (X14) A request that passes the checks of the handler (a supported
    platform, endpoints that pass the URL check, the compiler of a
    Windows target in place) makes one call to the server, the build of
    the composed configuration under the name asked for.  An error of
    the server is answered as the classified build error; an answer
    without file, or with a file without data, as the error [no file
    data returned]; file data is handed to the step that stores the
    artifact, whose answer is the answer of the request. *)
Theorem accepted_build_request (arguments configMap : gmap string JValue)
    (c2s : list ImplantC2) (w : World) :
  asMap (arguments !! "config") = Some configMap ->
  is_Some (supportedPlatforms !! Tools.platformOf (Tools.platformConfig configMap)) ->
  (Tools.resolveC2 fmt_v configMap w).1.1 = inr (true, c2s) ->
  c2s <> [] ->
  Tools.validateC2URLs 0 c2s = None ->
  (GOOS (Tools.platformConfig configMap) = "windows" ->
   statNotExist host (mingwCompiler (GOARCH (Tools.platformConfig configMap))) w = false) ->
  let platform := Tools.platformOf (Tools.platformConfig configMap) in
  let name := implantName arguments in
  let sent := set_Name name (composedConfig int64 configMap c2s) in
  rpcCalls (build arguments w).2 = [EvGenerate sent]
  /\ (build arguments w).1
     = match rpcGenerate host sent w with
       | (inl err, w') =>
           (inl (Tools.buildError
                   (SliverClient.generateError err platform "EXECUTABLE") platform), w')
       | (inr generate, w') =>
           match GenFile generate with
           | Some (mkFile fileName (Some data)) =>
               saveImplant
                 (match asBool (arguments !! "includeBinary") with
                  | Some includeParam => includeParam
                  | None => false
                  end)
                 (asString (arguments !! "outputDir")) name sent fileName data w'
           | _ =>
               (inl "failed to generate implant: no file data returned from server - build may have failed",
                w')
           end
       end.
Proof.
  intros Ec Hs Hr Hne Hv Htool platform name sent.
  rewrite (HandleGenerateImplant_config host fmt_v int64 saveImplant arguments
             configMap w Ec).
  cbv zeta. fold platform. destruct Hs as [b Es]. fold platform in Es. rewrite Es.
  destruct (resolveC2_quiet fmt_v configMap w) as (r & lines & E).
  rewrite E in Hr. cbn [fst] in Hr. subst r.
  destruct (composeAndGenerate_run arguments configMap
              (set_Format EXECUTABLE (Tools.platformConfig configMap))
              platform w _ lines E) as (announced & ->).
  cbn [negb orb]. destruct c2s as [|c2 rest]; [contradiction|].
  cbn [List.length Nat.eqb]. rewrite Hv. cbv zeta.
  fold (composedConfig int64 configMap (c2 :: rest)).
  rewrite (checkToolchain_passes configMap (c2 :: rest) w Htool). cbn [fst].
  destruct (composedConfig_wellFormed arguments configMap (c2 :: rest)
              ltac:(now exists b) Hne Hv) as [Hn Hwf].
  destruct (generateImplant_calls host (composedConfig int64 configMap (c2 :: rest))
              (implantName arguments) platform w) as (tr3 & E3 & H3).
  rewrite Hn in E3, H3. fold name in E3, H3 |- *. fold sent in E3, H3. rewrite E3.
  assert (Hplat : GOOS sent +:+ "/" +:+ GOARCH sent = platform).
  { pose proof (copyFlags_fields configMap
                  (set_C2 (c2 :: rest)
                     (set_Format EXECUTABLE (Tools.platformConfig configMap))))
      as (Hos & Harch & _).
    unfold sent, composedConfig. cbn [GOOS GOARCH set_Name].
    now rewrite Hos, Harch. }
  assert (Hfmt : OutputFormat_String (Format sent) = "EXECUTABLE").
  { destruct Hwf as (_ & _ & _ & _ & _ & Hf & _). fold name in Hf. fold sent in Hf.
    now rewrite Hf. }
  rewrite Hplat, Hfmt.
  destruct (rpcGenerate host sent w) as [[err|generate] w']; cbn [fst snd].
  - split; [|reflexivity].
    now rewrite rpcCalls_warning, rpcCalls_app, rpcCalls_Printf.
  - destruct (GenFile generate) as [[fileName [data|]]|];
      [destruct (saveImplant _ _ _ _ _ _ _) as [r4 w4]|..];
      cbn [fst snd]; (split; [|reflexivity]);
      now rewrite rpcCalls_warning, rpcCalls_app, rpcCalls_Printf.
Qed.

(** (X15) A Windows target whose cross-compiler is missing on the host
    of the adapter never reaches the server: the request fails without
    any call, the world is left as it was, and once platform and
    endpoints have passed their checks the error names the compiler. *)
Theorem missing_compiler_blocks_build (arguments configMap : gmap string JValue)
    (w : World) :
  asMap (arguments !! "config") = Some configMap ->
  GOOS (Tools.platformConfig configMap) = "windows" ->
  statNotExist host (mingwCompiler (GOARCH (Tools.platformConfig configMap))) w = true ->
  rpcCalls (build arguments w).2 = []
  /\ (exists e, (build arguments w).1 = (inl e, w))
  /\ (forall c2s,
        is_Some (supportedPlatforms !! Tools.platformOf (Tools.platformConfig configMap)) ->
        (Tools.resolveC2 fmt_v configMap w).1.1 = inr (true, c2s) ->
        c2s <> [] ->
        Tools.validateC2URLs 0 c2s = None ->
        (build arguments w).1.1
        = inl ("missing required compiler for Windows/"
                 +:+ GOARCH (Tools.platformConfig configMap) +:+ ": "
                 +:+ mingwCompiler (GOARCH (Tools.platformConfig configMap))
                 +:+ " - please install mingw-w64 package")).
Proof.
  intros Ec Hwin Hmissing.
  rewrite (HandleGenerateImplant_config host fmt_v int64 saveImplant arguments
             configMap w Ec).
  cbv zeta.
  destruct (supportedPlatforms !! Tools.platformOf (Tools.platformConfig configMap))
    as [b|] eqn:Es.
  2: { split; [|split]; [reflexivity | now eexists | now intros c2s [b Hb]]. }
  assert (Harch : String.eqb (GOARCH (Tools.platformConfig configMap)) "amd64"
                  || String.eqb (GOARCH (Tools.platformConfig configMap)) "386" = true).
  { assert (Hs : is_Some (supportedPlatforms
                            !! Tools.platformOf (Tools.platformConfig configMap)))
      by now exists b.
    unfold Tools.platformOf in Hs. apply supported_pairs_cases in Hs.
    rewrite Hwin in Hs. unfold Spec.supportedPairs in Hs.
    revert Hs. generalize (GOARCH (Tools.platformConfig configMap)). intros arch Hs.
    repeat (apply elem_of_cons in Hs as [Hs|Hs];
            [first [discriminate Hs | injection Hs as ->; reflexivity]|]).
    now apply elem_of_nil in Hs. }
  destruct (resolveC2_quiet fmt_v configMap w) as (r & lines & E).
  destruct (composeAndGenerate_run arguments configMap
              (set_Format EXECUTABLE (Tools.platformConfig configMap))
              (Tools.platformOf (Tools.platformConfig configMap)) w r lines E)
    as (announced & ->).
  assert (Htool : forall c2s,
            Tools.checkToolchain host (composedConfig int64 configMap c2s) w
            = (inl ("missing required compiler for Windows/"
                      +:+ GOARCH (Tools.platformConfig configMap) +:+ ": "
                      +:+ mingwCompiler (GOARCH (Tools.platformConfig configMap))
                      +:+ " - please install mingw-w64 package"), w, [])).
  { intros c2s. rewrite checkToolchain_run.
    pose proof (copyFlags_fields configMap
                  (set_C2 c2s (set_Format EXECUTABLE (Tools.platformConfig configMap))))
      as (Hos & Ha & _).
    unfold composedConfig. rewrite Hos, Ha. cbn [GOOS GOARCH set_C2 set_Format].
    now rewrite Hwin, Harch, Hmissing. }
  rewrite E. cbn [fst].
  destruct r as [e|[found c2s]].
  { split; [|split]; [cbn [snd]; now rewrite rpcCalls_warning, rpcCalls_Printf
                  | now eexists | discriminate]. }
  destruct (negb found || _) eqn:Ef.
  { split; [|split]; [cbn [snd]; now rewrite rpcCalls_warning, rpcCalls_Printf
                  | now eexists |].
    intros c2s' _ [= -> ->] Hne _. destruct c2s'; [contradiction | discriminate Ef]. }
  destruct (Tools.validateC2URLs 0 c2s) eqn:Ev.
  { split; [|split]; [cbn [snd]; now rewrite rpcCalls_warning, rpcCalls_Printf
                  | now eexists |].
    intros c2s' _ [= -> ->] _ Hv. congruence. }
  cbv zeta. fold (composedConfig int64 configMap c2s). rewrite Htool. cbn [fst].
  split; [|split]; [cbn [snd]; now rewrite rpcCalls_warning, rpcCalls_Printf
                | now eexists | reflexivity].
Qed.

(** (X16) An ["mtlsc2"] entry that is an empty list ends the look-up of
    endpoints: ["httpc2"], ["httpsc2"] and a single ["c2"] URL next to
    it are not read, and the request fails with the error [no C2
    configuration found] without any call to the server. *)
Theorem empty_mtlsc2_hides_other_shapes (arguments configMap : gmap string JValue)
    (w : World) :
  asMap (arguments !! "config") = Some configMap ->
  is_Some (supportedPlatforms !! Tools.platformOf (Tools.platformConfig configMap)) ->
  noElements (configMap !! "c2") ->
  asSlice (configMap !! "mtlsc2") = Some [] ->
  (build arguments w).1 = (inl Tools.noC2Error, w)
  /\ rpcCalls (build arguments w).2 = [].
Proof.
  intros Ec [b Es] Hc2 Hm.
  rewrite (HandleGenerateImplant_config host fmt_v int64 saveImplant arguments
             configMap w Ec).
  cbv zeta. rewrite Es.
  assert (E : Tools.resolveC2 fmt_v configMap w = (inr (true, []), w, EvPrintf <$> [])).
  { rewrite (resolveC2_skip_c2 fmt_v configMap w Hc2), Hm. reflexivity. }
  destruct (composeAndGenerate_run arguments configMap
              (set_Format EXECUTABLE (Tools.platformConfig configMap))
              (Tools.platformOf (Tools.platformConfig configMap)) w _ [] E)
    as (announced & ->).
  cbn [negb orb List.length Nat.eqb fst snd]. split; [reflexivity|].
  now rewrite rpcCalls_warning.
Qed.

End Build.

Lemma accepted_build_request_witness :
  let sent :=
    set_Name "generated-implant"
      (composedConfig int64_0 sampleConfig
         [ {| Priority := 0; URL := "mtls://10.0.0.1:8888" |} ]) in
  rpcCalls (Tools.HandleGenerateImplant (buildHost (inr builtFile)) fmt_v0 int64_0
              saveImplant0 (configArgs sampleConfig) []).2
  = [EvGenerate sent]
  /\ (Tools.HandleGenerateImplant (buildHost (inr builtFile)) fmt_v0 int64_0
        saveImplant0 (configArgs sampleConfig) []).1
     = (inr "saved", []).
Proof.
  apply (accepted_build_request (buildHost (inr builtFile)) fmt_v0 int64_0 saveImplant0
           (configArgs sampleConfig) sampleConfig
           [ {| Priority := 0; URL := "mtls://10.0.0.1:8888" |} ] []).
  - reflexivity.
  - now exists true.
  - reflexivity.
  - discriminate.
  - reflexivity.
  - intros _. reflexivity.
Defined.

Lemma missing_compiler_blocks_build_witness :
  rpcCalls (Tools.HandleGenerateImplant offlineHost fmt_v0 int64_0 saveImplantUnit
              (configArgs windowsConfig) tt).2 = []
  /\ (Tools.HandleGenerateImplant offlineHost fmt_v0 int64_0 saveImplantUnit
        (configArgs windowsConfig) tt).1.1
     = inl "missing required compiler for Windows/amd64: /usr/bin/x86_64-w64-mingw32-gcc - please install mingw-w64 package".
Proof.
  destruct (missing_compiler_blocks_build offlineHost fmt_v0 int64_0 saveImplantUnit
              (configArgs windowsConfig) windowsConfig tt eq_refl eq_refl eq_refl)
    as (Hcalls & _ & Herr).
  split; [exact Hcalls|].
  apply (Herr [ {| Priority := 0; URL := "mtls://10.0.0.1:8888" |} ]).
  - now exists true.
  - reflexivity.
  - discriminate.
  - reflexivity.
Defined.

Lemma empty_mtlsc2_hides_other_shapes_witness :
  (Tools.HandleGenerateImplant host0 fmt_v0 int64_0 saveImplant0
     (configArgs emptyMtlsConfig) []).1
  = (inl Tools.noC2Error, [])
  /\ rpcCalls (Tools.HandleGenerateImplant host0 fmt_v0 int64_0 saveImplant0
                 (configArgs emptyMtlsConfig) []).2 = [].
Proof.
  apply (empty_mtlsc2_hides_other_shapes host0 fmt_v0 int64_0 saveImplant0
           (configArgs emptyMtlsConfig) emptyMtlsConfig []).
  - reflexivity.
  - now exists true.
  - intros x xs E. discriminate E.
  - reflexivity.
Defined.

(* ================================================================= *)
(** ** Further properties: what a profile request sends and reads *)

Section Profile.
Context {World : Type} (host : Host World).
Variable fmt_v : JValue -> string.
Variable int64 : Z -> Z.
Variable json_Marshal : gmap string JValue -> string.
Variable saveImplant :
  bool -> option string -> string -> ImplantConfig -> string -> string ->
  World -> (string + string) * World.

Abbreviation saveProfile := (Tools.HandleSaveImplantProfile host int64 json_Marshal).
Abbreviation buildImplant := (Tools.HandleGenerateImplant host fmt_v int64 saveImplant).

Lemma HandleSaveImplantProfile_run (arguments configMap : gmap string JValue)
    (name : string) (w : World) :
  asString (arguments !! "name") = Some name ->
  name <> "" ->
  asMap (arguments !! "config") = Some configMap ->
  let profile := composedProfile int64 name configMap in
  exists lines,
    saveProfile arguments w
    = (match (rpcSaveImplantProfile host profile w).1 with
       | inl err => inl ("failed to save implant profile: " +:+ err)
       | inr savedProfile =>
           match Config savedProfile with
           | None => inl nilDereference
           | Some config =>
               inr (json_Marshal
                      {[ "name" := JStr (ProfileName savedProfile);
                         "os" := JStr (GOOS config);
                         "arch" := JStr (GOARCH config);
                         "format" := JStr (OutputFormat_String (Format config));
                         "isBeacon" := JBool (IsBeacon config) ]})
           end
       end, (rpcSaveImplantProfile host profile w).2,
       ((EvPrintf <$> lines) ++ [EvSaveImplantProfile profile])%list).
Proof.
  intros Hname Hne Ec profile. unfold Tools.HandleSaveImplantProfile.
  rewrite Hname, Ec. destruct name as [|c n]; [contradiction|].
  cbv zeta. rewrite format_step. unfold Tools.composeAndSave.
  rewrite Printf_bind. fold (composedProfile int64 (String c n) configMap).
  fold profile. unfold SliverClient.SaveImplantProfile, mbind, M_bind, call.
  destruct (rpcSaveImplantProfile host profile w) as [[err|saved] w']; cbn [fst snd].
  - eexists (warningLines (Tools.profileFormatWarning configMap) ++ [_])%list.
    rewrite fmap_app, <- app_assoc.
    destruct (Tools.profileFormatWarning configMap); reflexivity.
  - unfold mret, M_ret. cbv beta iota zeta.
    destruct (Config saved) as [config|];
      eexists (warningLines (Tools.profileFormatWarning configMap) ++ [_])%list;
      rewrite fmap_app, <- app_assoc;
      destruct (Tools.profileFormatWarning configMap); reflexivity.
Qed.

(** (X17) A profile request with a non-empty name and a [config] object
    makes exactly one call to the server, whatever platform and
    endpoints it names: the profile is sent under that name with the
    endpoints of the ["c2"] entry as they are, none when there is no
    such entry.  An error of the server is answered as [failed to save
    implant profile: ...].  A profile that comes back with its [Config]
    is described in the answer; one that comes back without [Config] is
    dereferenced all the same and the handler panics, and this is the
    only way it does. *)
Theorem save_profile_request (arguments configMap : gmap string JValue)
    (name : string) (w : World) :
  asString (arguments !! "name") = Some name ->
  name <> "" ->
  asMap (arguments !! "config") = Some configMap ->
  let profile := composedProfile int64 name configMap in
  rpcCalls (saveProfile arguments w).2 = [EvSaveImplantProfile profile]
  /\ ProfileName profile = name
  /\ (exists config,
        Config profile = Some config
        /\ C2 config = Tools.profileC2 configMap
        /\ (configMap !! "c2" = None -> C2 config = []))
  /\ (saveProfile arguments w).1
     = match rpcSaveImplantProfile host profile w with
       | (inl err, w') => (inl ("failed to save implant profile: " +:+ err), w')
       | (inr savedProfile, w') =>
           match Config savedProfile with
           | None => (inl nilDereference, w')
           | Some config =>
               (inr (json_Marshal
                       {[ "name" := JStr (ProfileName savedProfile);
                          "os" := JStr (GOOS config);
                          "arch" := JStr (GOARCH config);
                          "format" := JStr (OutputFormat_String (Format config));
                          "isBeacon" := JBool (IsBeacon config) ]}), w')
           end
       end
  /\ ((saveProfile arguments w).1.1 = inl nilDereference
      <-> exists savedProfile,
            (rpcSaveImplantProfile host profile w).1 = inr savedProfile
            /\ Config savedProfile = None).
Proof.
  intros Hname Hne Ec profile.
  destruct (HandleSaveImplantProfile_run arguments configMap name w Hname Hne Ec)
    as (lines & E).
  fold profile in E. rewrite E. cbn [fst snd].
  split; [now rewrite rpcCalls_app, rpcCalls_Printf|].
  split; [reflexivity|]. split.
  { eexists. split; [reflexivity|].
    destruct (copyFlags_fields int64 configMap
                (set_C2 (Tools.profileC2 configMap)
                   (set_Format EXECUTABLE (Tools.platformConfig configMap))))
      as (_ & _ & Hc2 & _).
    rewrite Hc2. cbn [C2 set_C2]. split; [reflexivity|].
    intros Hnone. unfold Tools.profileC2. now rewrite Hnone. }
  destruct (rpcSaveImplantProfile host profile w) as [[err|saved] w']; cbn [fst snd].
  - split; [reflexivity|]. split; [discriminate | now intros (s' & [=] & _)].
  - destruct (Config saved) as [config|] eqn:Ecfg.
    + split; [reflexivity|]. split; [discriminate|].
      intros (s' & [= <-] & Hn). congruence.
    + split; [reflexivity|]. split; [|reflexivity]. intros _. now exists saved.
Qed.

Lemma HandleSaveImplantProfile_ext (arguments m1 m2 : gmap string JValue) (w : World) :
  Tools.platformConfig m1 = Tools.platformConfig m2 ->
  Tools.profileFormatWarning m1 = Tools.profileFormatWarning m2 ->
  Tools.profileC2 m1 = Tools.profileC2 m2 ->
  (forall c', Tools.copyFlags int64 m1 c' = Tools.copyFlags int64 m2 c') ->
  saveProfile (<["config" := JObj m1]> arguments) w
  = saveProfile (<["config" := JObj m2]> arguments) w.
Proof.
  intros Hp Hw Hc2 Hf. unfold Tools.HandleSaveImplantProfile.
  rewrite !(lookup_insert_ne arguments "config" "name") by discriminate.
  destruct (asString (arguments !! "name")) as [[|c n]|]; try reflexivity.
  rewrite !lookup_insert_eq. cbn [asMap]. cbv zeta.
  unfold Tools.composeAndSave. now rewrite Hp, Hw, Hc2, Hf.
Qed.

(** (X18) A profile request reads eleven entries of [config] and no
    other: two requests whose [config] objects agree on them have the
    same outcome.  The entries ["mtlsc2"], ["httpc2"] and ["httpsc2"]
    are not among them. *)
Theorem save_profile_reads_listed_keys (arguments m1 m2 : gmap string JValue)
    (w : World) :
  (forall k, k ∈ profileKeys -> m1 !! k = m2 !! k) ->
  saveProfile (<["config" := JObj m1]> arguments) w
  = saveProfile (<["config" := JObj m2]> arguments) w.
Proof.
  intros H.
  assert (Hk : forall k, bool_decide (k ∈ profileKeys) = true -> m1 !! k = m2 !! k)
    by (intros k Hk; apply H; now apply bool_decide_eq_true in Hk).
  apply HandleSaveImplantProfile_ext.
  - apply platformConfig_ext; now apply Hk.
  - apply profileFormatWarning_ext; now apply Hk.
  - apply profileC2_ext; now apply Hk.
  - intros c'. apply copyFlags_ext; now apply Hk.
Qed.

(** (X19) A build request reads those eleven entries of [config] and
    the three endpoint lists ["mtlsc2"], ["httpc2"], ["httpsc2"], and no
    other: two requests whose [config] objects agree on them have the
    same outcome. *)
Theorem build_reads_listed_keys (arguments m1 m2 : gmap string JValue) (w : World) :
  (forall k, k ∈ buildKeys -> m1 !! k = m2 !! k) ->
  buildImplant (<["config" := JObj m1]> arguments) w
  = buildImplant (<["config" := JObj m2]> arguments) w.
Proof.
  intros H.
  assert (Hk : forall k, bool_decide (k ∈ buildKeys) = true -> m1 !! k = m2 !! k)
    by (intros k Hk; apply H; now apply bool_decide_eq_true in Hk).
  apply HandleGenerateImplant_ext.
  - apply platformConfig_ext; now apply Hk.
  - apply generateFormatWarning_ext; now apply Hk.
  - apply resolveC2_ext; now apply Hk.
  - intros c'. apply copyFlags_ext; now apply Hk.
Qed.

End Profile.

Lemma save_profile_request_witness :
  (rpcCalls (Tools.HandleSaveImplantProfile host0 int64_0 json_Marshal0
               (<["config" := JObj windowsConfig]> sampleArgs) []).2
   = [EvSaveImplantProfile (composedProfile int64_0 "p1" windowsConfig)]
   /\ (Tools.HandleSaveImplantProfile host0 int64_0 json_Marshal0
         (<["config" := JObj windowsConfig]> sampleArgs) []).1
      = (inr "{}", []))
  /\ (Tools.HandleSaveImplantProfile configlessHost int64_0 json_Marshal0
        (<["config" := JObj windowsConfig]> sampleArgs) []).1
     = (inl nilDereference, []).
Proof.
  assert (Hname : asString (<["config" := JObj windowsConfig]> sampleArgs !! "name")
                  = Some "p1") by reflexivity.
  assert (Hconfig : asMap (<["config" := JObj windowsConfig]> sampleArgs !! "config")
                    = Some windowsConfig) by reflexivity.
  split.
  - destruct (save_profile_request host0 int64_0 json_Marshal0
                (<["config" := JObj windowsConfig]> sampleArgs) windowsConfig "p1" []
                Hname ltac:(discriminate) Hconfig)
      as (Hcalls & _ & _ & Hanswer & _).
    split; [exact Hcalls | exact Hanswer].
  - destruct (save_profile_request configlessHost int64_0 json_Marshal0
                (<["config" := JObj windowsConfig]> sampleArgs) windowsConfig "p1" []
                Hname ltac:(discriminate) Hconfig)
      as (_ & _ & _ & Hanswer & _).
    exact Hanswer.
Defined.

Lemma save_profile_reads_listed_keys_witness :
  Tools.HandleSaveImplantProfile host0 int64_0 json_Marshal0
    (<["config" := JObj sampleConfig]> sampleArgs) []
  = Tools.HandleSaveImplantProfile host0 int64_0 json_Marshal0
      (<["config" := JObj {[ "os" := JStr "linux" ]}]> sampleArgs) [].
Proof.
  apply (save_profile_reads_listed_keys host0 int64_0 json_Marshal0 sampleArgs
           sampleConfig {[ "os" := JStr "linux" ]} []).
  intros k Hk. unfold profileKeys in Hk.
  repeat (apply elem_of_cons in Hk as [->|Hk]; [reflexivity|]).
  now apply elem_of_nil in Hk.
Defined.

Lemma build_reads_listed_keys_witness :
  Tools.HandleGenerateImplant host0 fmt_v0 int64_0 saveImplant0
    (<["config" := JObj (<["comment" := JStr "lab"]> sampleConfig)]> sampleArgs) []
  = Tools.HandleGenerateImplant host0 fmt_v0 int64_0 saveImplant0
      (<["config" := JObj sampleConfig]> sampleArgs) [].
Proof.
  apply (build_reads_listed_keys host0 fmt_v0 int64_0 saveImplant0 sampleArgs
           (<["comment" := JStr "lab"]> sampleConfig) sampleConfig []).
  intros k Hk. unfold buildKeys, profileKeys in Hk. cbn [app] in Hk.
  repeat (apply elem_of_cons in Hk as [->|Hk]; [reflexivity|]).
  now apply elem_of_nil in Hk.
Defined.

(* ================================================================= *)
(** ** Further properties: blank output of a Windows command *)

(** ASCII white space only. *)
Lemma trimLeft_space (s : string) :
  blank s = true -> absent "000" s = true ->
  Strings.trimLeftFrom Strings.spaceRunes 0 s = "".
Proof.
  induction s as [|c s IH]; [reflexivity|].
  cbn [blank absent]. intros Hb Hn.
  apply andb_true_iff in Hb as [Hc Hb]. apply andb_true_iff in Hn as [Hc0 Hn].
  specialize (IH Hb Hn).
  apply negb_true_iff in Hc0. rewrite Hc0 in Hc. cbn [orb] in Hc.
  repeat (apply orb_true_iff in Hc as [Hc|Hc]);
    apply Ascii.eqb_eq in Hc; subst c;
    cbn [Strings.trimLeftFrom]; cbn; exact IH.
Qed.

Lemma blank_stripNUL (s : string) :
  blank s = true ->
  blank (Spec.stripNUL s) = true /\ absent "000" (Spec.stripNUL s) = true.
Proof.
  induction s as [|c s IH]; [now split|].
  cbn [blank Spec.stripNUL]. intros Hb.
  apply andb_true_iff in Hb as [Hc Hb]. destruct (IH Hb) as [IH1 IH2].
  destruct (Ascii.eqb c "000") eqn:E; [now split|].
  cbn [blank absent]. now rewrite E, Hc, IH1, IH2.
Qed.

Lemma blank_unify (s : string) :
  blank s = true -> absent "000" s = true ->
  blank (unifyLineEndings s) = true /\ absent "000" (unifyLineEndings s) = true.
Proof.
  enough (H : (blank s = true -> absent "000" s = true ->
               blank (unifyLineEndings s) = true
               /\ absent "000" (unifyLineEndings s) = true)
              /\ forall c, blank (String c s) = true -> absent "000" (String c s) = true ->
                           blank (unifyLineEndings (String c s)) = true
                           /\ absent "000" (unifyLineEndings (String c s)) = true)
    by apply H.
  induction s as [|d s [IH1 IH2]]; split.
  - now split.
  - intros c Hb Hn. cbn [blank absent] in Hb, Hn. rewrite andb_true_r in Hb, Hn.
    cbn [unifyLineEndings]. destruct (Ascii.eqb c "013") eqn:E; [now split|].
    cbn [blank absent unifyLineEndings]. now rewrite E, Hb, Hn.
  - apply IH2.
  - intros c Hb Hn.
    change (blank (String c (String d s)))
      with ((Ascii.eqb c "000" || Ascii.eqb c "009" || Ascii.eqb c "010"
             || Ascii.eqb c "011" || Ascii.eqb c "012" || Ascii.eqb c "013"
             || Ascii.eqb c " ") && blank (String d s)) in Hb.
    change (absent "000" (String c (String d s)))
      with (negb (Ascii.eqb c "000") && absent "000" (String d s)) in Hn.
    apply andb_true_iff in Hb as [Hc Hb]. apply andb_true_iff in Hn as [Hc0 Hn].
    assert (Hs : blank s = true /\ absent "000" s = true).
    { cbn [blank absent] in Hb, Hn.
      apply andb_true_iff in Hb as [_ Hb]. now apply andb_true_iff in Hn as [_ Hn]. }
    rewrite unifyLineEndings_cons2.
    destruct (Ascii.eqb c "013") eqn:E.
    + destruct (Ascii.eqb d "010").
      * destruct (IH1 (proj1 Hs) (proj2 Hs)) as [H1 H2].
        cbn [blank absent]. now rewrite H1, H2.
      * destruct (IH2 d Hb Hn) as [H1 H2].
        cbn [blank absent]. now rewrite H1, H2.
    + destruct (IH2 d Hb Hn) as [H1 H2].
      cbn [blank absent]. now rewrite E, Hc, Hc0, H1, H2.
Qed.

Lemma blank_no_hash (s : string) : blank s = true -> absent "#" s = true.
Proof.
  induction s as [|c s IH]; [reflexivity|].
  cbn [blank absent]. intros Hb. apply andb_true_iff in Hb as [Hc Hb].
  rewrite (IH Hb), andb_true_r.
  repeat (apply orb_true_iff in Hc as [Hc|Hc]);
    apply Ascii.eqb_eq in Hc; now subst c.
Qed.

(** (X20) Output of a Windows command that holds nothing but NUL bytes
    and ASCII white space is normalized to the empty text; when it is
    not empty to begin with, the answer is the header [Output from
    Windows command:] with nothing under it, not the [no output]
    message. *)
Theorem blank_windows_output (output : string) :
  blank output = true ->
  Tools.normalizeWindowsOutput output = ""
  /\ (output <> "" ->
      forall stderr,
        Tools.responseText true (mkExecute output stderr None)
        = "Output from Windows command:" +:+ LF).
Proof.
  intros Hb.
  assert (Hn : Tools.normalizeWindowsOutput output = "").
  { rewrite normalizeWindowsOutput_spec. unfold Spec.normalize.
    destruct (blank_stripNUL output Hb) as [Hb1 Hn1].
    rewrite three_steps_unify by now apply blank_no_hash.
    destruct (blank_unify _ Hb1 Hn1) as [Hb2 Hn2].
    unfold Strings.TrimSpace. now rewrite (trimLeft_space _ Hb2 Hn2). }
  split; [exact Hn|].
  intros Hne stderr. unfold Tools.responseText, Tools.reportedErr, Tools.capturedOutput.
  cbn [ExecResponse Stdout Stderr].
  destruct output as [|c output]; [contradiction|].
  cbn [String.length Nat.eqb]. now rewrite Hn.
Qed.

Lemma blank_windows_output_witness :
  Tools.normalizeWindowsOutput (CR +:+ LF +:+ NUL +:+ " " +:+ CR) = ""
  /\ Tools.responseText true (mkExecute (CR +:+ LF +:+ NUL +:+ " " +:+ CR) "" None)
     = "Output from Windows command:" +:+ LF.
Proof.
  destruct (blank_windows_output (CR +:+ LF +:+ NUL +:+ " " +:+ CR) eq_refl)
    as [Hn Hr].
  split; [exact Hn|]. apply Hr. discriminate.
Defined.

(* ================================================================= *)
(** ** Further properties: structured endpoints and platform spelling *)

Lemma structuredEndpoints_object (c2Configs : list JValue) (i : nat)
    (c2Map : gmap string JValue) :
  JObj c2Map ∈ c2Configs ->
  exists priority,
    {| Priority := priority;
       URL := match asString (c2Map !! "url") with Some url => url | None => "" end |}
    ∈ Tools.structuredEndpoints i c2Configs.
Proof.
  revert i. induction c2Configs as [|x rest IH]; intros i Hin.
  - now apply elem_of_nil in Hin.
  - apply elem_of_cons in Hin as [<-|Hin].
    + eexists. cbn [Tools.structuredEndpoints]. apply list_elem_of_here.
    + destruct (IH (S i) Hin) as [p Hp]. exists p.
      cbn [Tools.structuredEndpoints].
      destruct x; try exact Hp. now apply list_elem_of_further.
Qed.

Lemma validateC2URLs_empty_url (c2s : list ImplantC2) (priority : Z) :
  {| Priority := priority; URL := "" |} ∈ c2s ->
  exists err, Tools.validateC2URLs 0 c2s = Some err.
Proof.
  intros Hin. destruct (Tools.validateC2URLs 0 c2s) as [err|] eqn:E; [now exists err|].
  apply list_elem_of_lookup in Hin as [k Hk].
  pose proof (proj1 (validateC2URLs_all c2s 0) E k _ Hk) as H.
  discriminate H.
Qed.

Section Endpoints.
Context {World : Type} (host : Host World).
Variable fmt_v : JValue -> string.
Variable int64 : Z -> Z.
Variable json_Marshal : gmap string JValue -> string.
Variable saveImplant :
  bool -> option string -> string -> ImplantConfig -> string -> string ->
  World -> (string + string) * World.

Abbreviation build' := (Tools.HandleGenerateImplant host fmt_v int64 saveImplant).
Abbreviation save' := (Tools.HandleSaveImplantProfile host int64 json_Marshal).

(** (X21) An object of the ["c2"] list without a ["url"] entry that is a
    non-empty string stops the build request: it fails before any call
    to the server and leaves the world as it was. *)
Theorem structured_endpoint_needs_url (arguments configMap c2Map : gmap string JValue)
    (c2Configs : list JValue) (w : World) :
  asMap (arguments !! "config") = Some configMap ->
  asSlice (configMap !! "c2") = Some c2Configs ->
  JObj c2Map ∈ c2Configs ->
  asString (c2Map !! "url") = None \/ asString (c2Map !! "url") = Some "" ->
  (exists e, (build' arguments w).1 = (inl e, w))
  /\ rpcCalls (build' arguments w).2 = [].
Proof.
  intros Ec Hc2 Hin Hurl.
  destruct (structuredEndpoints_object c2Configs 0 c2Map Hin) as [p Hp].
  assert (Hempty : {| Priority := p; URL := "" |}
                   ∈ Tools.structuredEndpoints 0 c2Configs)
    by (destruct Hurl as [E|E]; now rewrite E in Hp).
  destruct (validateC2URLs_empty_url _ p Hempty) as [err Hv].
  rewrite (HandleGenerateImplant_config host fmt_v int64 saveImplant arguments
             configMap w Ec).
  cbv zeta.
  destruct (supportedPlatforms !! Tools.platformOf (Tools.platformConfig configMap));
    [|split; [now eexists | reflexivity]].
  destruct c2Configs as [|x xs]; [now apply elem_of_nil in Hin|].
  pose proof (resolveC2_structured fmt_v configMap x xs w Hc2) as E.
  destruct (composeAndGenerate_run host fmt_v int64 saveImplant arguments configMap
              (set_Format EXECUTABLE (Tools.platformConfig configMap))
              (Tools.platformOf (Tools.platformConfig configMap)) w _ [] E)
    as (announced & ->).
  cbn [negb orb]. destruct (List.length _ =? 0)%nat.
  - split; [now eexists|]. cbn [snd]. now rewrite rpcCalls_warning.
  - rewrite Hv. split; [now eexists|]. cbn [snd]. now rewrite rpcCalls_warning.
Qed.

(** (X22) The spelling of the platform does not matter: two requests
    whose ["os"] values have the same canonical form, and whose ["arch"]
    values have, are answered alike, by the build handler and by the
    profile handler.  (An ["OS"] entry that is a string stands before
    ["os"]; the statement is for requests without one.) *)
Theorem platform_spelling_irrelevant (arguments m : gmap string JValue)
    (os1 os2 arch1 arch2 : string) (w : World) :
  asString (m !! "OS") = None ->
  Tools.canonicalOS os1 = Tools.canonicalOS os2 ->
  Tools.canonicalArch arch1 = Tools.canonicalArch arch2 ->
  let m1 := <["os" := JStr os1]> (<["arch" := JStr arch1]> m) in
  let m2 := <["os" := JStr os2]> (<["arch" := JStr arch2]> m) in
  build' (<["config" := JObj m1]> arguments) w
  = build' (<["config" := JObj m2]> arguments) w
  /\ save' (<["config" := JObj m1]> arguments) w
     = save' (<["config" := JObj m2]> arguments) w.
Proof.
  intros HOS Hos Harch m1 m2.
  assert (Hp : Tools.platformConfig m1 = Tools.platformConfig m2).
  { unfold Tools.platformConfig, Tools.lookupOS, Tools.lookupArch, m1, m2.
    rewrite !(lookup_insert_ne _ "os" "OS"), !(lookup_insert_ne _ "arch" "OS")
      by discriminate.
    rewrite HOS, !lookup_insert_eq.
    rewrite !(lookup_insert_ne _ "os" "arch"), !lookup_insert_eq by discriminate.
    cbn [asString]. unfold Tools.canonicalOS, Tools.canonicalArch in Hos, Harch.
    now rewrite Hos, Harch. }
  assert (Hother : forall k, k <> "os" -> k <> "arch" -> m1 !! k = m2 !! k).
  { intros k H1 H2. unfold m1, m2. now rewrite !lookup_insert_ne by congruence. }
  split.
  - apply HandleGenerateImplant_ext; [exact Hp | | |].
    + apply generateFormatWarning_ext. now apply Hother.
    + apply resolveC2_ext; now apply Hother.
    + intros c'. apply copyFlags_ext; now apply Hother.
  - apply HandleSaveImplantProfile_ext; [exact Hp | | |].
    + apply profileFormatWarning_ext. now apply Hother.
    + apply profileC2_ext. now apply Hother.
    + intros c'. apply copyFlags_ext; now apply Hother.
Qed.

(** (X23) A request that names no platform is a request for
    [windows/amd64]: without ["OS"], ["os"] and ["arch"] entries that
    are strings, both handlers answer as they do when ["os"] is
    [windows] and ["arch"] is [amd64]. *)
Theorem platform_defaults (arguments m : gmap string JValue) (w : World) :
  asString (m !! "OS") = None ->
  asString (m !! "os") = None ->
  asString (m !! "arch") = None ->
  let named := <["os" := JStr "windows"]> (<["arch" := JStr "amd64"]> m) in
  GOOS (Tools.platformConfig m) = "windows"
  /\ GOARCH (Tools.platformConfig m) = "amd64"
  /\ build' (<["config" := JObj m]> arguments) w
     = build' (<["config" := JObj named]> arguments) w
  /\ save' (<["config" := JObj m]> arguments) w
     = save' (<["config" := JObj named]> arguments) w.
Proof.
  intros HOS Hos Harch named.
  assert (Hm : Tools.platformConfig m
               = set_GOARCH "amd64" (set_GOOS "windows" emptyImplantConfig)).
  { unfold Tools.platformConfig, Tools.lookupOS, Tools.lookupArch.
    now rewrite HOS, Hos, Harch. }
  assert (Hp : Tools.platformConfig m = Tools.platformConfig named).
  { rewrite Hm. unfold Tools.platformConfig, Tools.lookupOS, Tools.lookupArch, named.
    rewrite !(lookup_insert_ne _ "os" "OS"), !(lookup_insert_ne _ "arch" "OS")
      by discriminate.
    rewrite HOS, !lookup_insert_eq.
    rewrite !(lookup_insert_ne _ "os" "arch"), !lookup_insert_eq by discriminate.
    reflexivity. }
  assert (Hother : forall k, k <> "os" -> k <> "arch" -> m !! k = named !! k).
  { intros k H1 H2. unfold named. now rewrite !lookup_insert_ne by congruence. }
  split; [now rewrite Hm|]. split; [now rewrite Hm|]. split.
  - apply HandleGenerateImplant_ext; [exact Hp | | |].
    + apply generateFormatWarning_ext. now apply Hother.
    + apply resolveC2_ext; now apply Hother.
    + intros c'. apply copyFlags_ext; now apply Hother.
  - apply HandleSaveImplantProfile_ext; [exact Hp | | |].
    + apply profileFormatWarning_ext. now apply Hother.
    + apply profileC2_ext. now apply Hother.
    + intros c'. apply copyFlags_ext; now apply Hother.
Qed.

End Endpoints.

Lemma structured_endpoint_needs_url_witness :
  (exists e,
     (Tools.HandleGenerateImplant host0 fmt_v0 int64_0 saveImplant0
        (configArgs portOnlyConfig) []).1 = (inl e, []))
  /\ rpcCalls (Tools.HandleGenerateImplant host0 fmt_v0 int64_0 saveImplant0
                 (configArgs portOnlyConfig) []).2 = [].
Proof.
  apply (structured_endpoint_needs_url host0 fmt_v0 int64_0 saveImplant0
           (configArgs portOnlyConfig) portOnlyConfig portOnlyEndpoint
           [JObj portOnlyEndpoint] []).
  - reflexivity.
  - reflexivity.
  - apply list_elem_of_here.
  - left. reflexivity.
Defined.

Lemma platform_spelling_irrelevant_witness :
  Tools.HandleGenerateImplant host0 fmt_v0 int64_0 saveImplant0
    (<["config" := JObj (<["os" := JStr "MacOS"]> (<["arch" := JStr "AARCH64"]> windowsConfig))]>
       sampleArgs) []
  = Tools.HandleGenerateImplant host0 fmt_v0 int64_0 saveImplant0
      (<["config" := JObj (<["os" := JStr "darwin"]> (<["arch" := JStr "arm64"]> windowsConfig))]>
         sampleArgs) []
  /\ Tools.HandleSaveImplantProfile host0 int64_0 json_Marshal0
       (<["config" := JObj (<["os" := JStr "MacOS"]> (<["arch" := JStr "AARCH64"]> windowsConfig))]>
          sampleArgs) []
     = Tools.HandleSaveImplantProfile host0 int64_0 json_Marshal0
         (<["config" := JObj (<["os" := JStr "darwin"]> (<["arch" := JStr "arm64"]> windowsConfig))]>
            sampleArgs) [].
Proof.
  apply (platform_spelling_irrelevant host0 fmt_v0 int64_0 json_Marshal0 saveImplant0
           sampleArgs windowsConfig "MacOS" "darwin" "AARCH64" "arm64" []);
    reflexivity.
Defined.

Lemma platform_defaults_witness :
  GOOS (Tools.platformConfig windowsConfig) = "windows"
  /\ GOARCH (Tools.platformConfig windowsConfig) = "amd64"
  /\ Tools.HandleGenerateImplant host0 fmt_v0 int64_0 saveImplant0
       (<["config" := JObj windowsConfig]> sampleArgs) []
     = Tools.HandleGenerateImplant host0 fmt_v0 int64_0 saveImplant0
         (<["config" := JObj (<["os" := JStr "windows"]>
                                (<["arch" := JStr "amd64"]> windowsConfig))]>
            sampleArgs) []
  /\ Tools.HandleSaveImplantProfile host0 int64_0 json_Marshal0
       (<["config" := JObj windowsConfig]> sampleArgs) []
     = Tools.HandleSaveImplantProfile host0 int64_0 json_Marshal0
         (<["config" := JObj (<["os" := JStr "windows"]>
                                (<["arch" := JStr "amd64"]> windowsConfig))]>
            sampleArgs) [].
Proof.
  apply (platform_defaults host0 fmt_v0 int64_0 json_Marshal0 saveImplant0
           sampleArgs windowsConfig []);
    reflexivity.
Defined.
